(** * Synchronization service of ILIAS-Pegasus

    A shallow embedding of [src/services/synchronization.service.ts]:
    the quota partitioning of file downloads, the session ledger, the
    shallow load, the offline queue and the coordinator of recursive
    synchronizations, followed by the properties proved about them.

    Conventions of the embedding.
    - A JavaScript number that the service only ever uses as an integer is a
      [Z]; the one place where [NaN] can appear ([parseInt]) returns an
      [option Z], [None] standing for [NaN].  Doubles are exact on integers
      below 2^53, which byte counts and dates are.
    - A promise is represented by the way it settles: [Resolved],
      [Rejected] or [Pending] (never settled).
    - The service object, its static [state] and the observable state of its
      collaborators (the [synchronization] table, the published events, the
      footer job) are the fields of one record, threaded through every
      operation.
    - What the collaborators answer (the current user, the listings, the
      settings, the clock, the failures of storage and transport) is read
      from an environment record. *)

From Stdlib Require Import ZArith List Bool String Ascii Lia Permutation.
From Stdlib Require Import DecimalString.
Import ListNotations.

Local Open Scope string_scope.
Local Open Scope list_scope.
Local Open Scope Z_scope.

(** ** JavaScript helpers *)

Module Js.

(** White space that [parseInt] strips (the ASCII part of it). *)
Definition isWhiteSpace (c : ascii) : bool :=
  let n := nat_of_ascii c in
  ((9 <=? n)%nat && (n <=? 13)%nat) || (n =? 32)%nat.

Fixpoint trimStart (s : string) : string :=
  match s with
  | String c r => if isWhiteSpace c then trimStart r else s
  | EmptyString => s
  end.

Definition digitValue (c : ascii) : option Z :=
  let n := Z.of_nat (nat_of_ascii c) in
  if (48 <=? n) && (n <=? 57) then Some (n - 48) else None.

(** The longest prefix of decimal digits, read as a number; [acc] is
    [None] as long as no digit was seen. *)
Fixpoint readDigits (s : string) (acc : option Z) : option Z :=
  match s with
  | String c r =>
      match digitValue c with
      | Some d =>
          readDigits r (Some (10 * match acc with Some a => a | None => 0 end + d))
      | None => acc
      end
  | EmptyString => acc
  end.

(** [parseInt(s, 10)]; [None] is [NaN]. *)
Definition parseInt (s : string) : option Z :=
  match trimStart s with
  | String "-" r => option_map Z.opp (readDigits r None)
  | String "+" r => readDigits r None
  | t => readDigits t None
  end.

(** An integer converted to a string, as [+] with a string operand does. *)
Definition toString (z : Z) : string :=
  NilZero.string_of_int (Z.to_int z).

End Js.

(** ** Data model *)

(** The ways a promise can settle. *)
Inductive JsError : Type :=
| TypeError (message : string)
| Thrown (value : string)
| Undefined
| StorageError
| TransportError.

Inductive Outcome (A : Type) : Type :=
| Resolved (a : A)
| Rejected (e : JsError)
| Pending.

Arguments Resolved {A} a.
Arguments Rejected {A} e.
Arguments Pending {A}.

Record FileInfo := { fileSize : string }.

(** The fields of [ILIASObject] that the service reads. *)
Record ILIASObject := {
  objId : Z;
  type : string;
  title : string;
  needsDownload : bool;
  isFavorite : Z;
  data : FileInfo
}.

Record Settings := { quotaSize : Z; downloadSize : Z }.

Record User := { id : Z }.

Inductive LeftOutReason := NoWLAN | FileTooBig | QuotaExceeded.

Definition LeftOutReason_eqb (a b : LeftOutReason) : bool :=
  match a, b with
  | NoWLAN, NoWLAN | FileTooBig, FileTooBig | QuotaExceeded, QuotaExceeded => true
  | _, _ => false
  end.

Record LeftOut := { object : ILIASObject; reason : LeftOutReason }.

Record SyncResults := {
  totalObjects : list ILIASObject;
  objectsDownloaded : list ILIASObject;
  objectsUnchanged : list ILIASObject;
  objectsLeftOut : list LeftOut;
  fileDownloads : list (Outcome unit)
}.

Record SynchronizationState := {
  liveLoading : bool;
  loadingOfflineContent : bool;
  recursiveSyncRunning : bool
}.

(** ** checkForFileDownloads: the partition of the files *)

(** The four arrays and the counter that the [forEach] of
    [checkForFileDownloads] fills. *)
Record Sorting := {
  downloads : list ILIASObject;
  filesTooBig : list LeftOut;
  noMoreSpace : list LeftOut;
  filesAlreadySynced : list ILIASObject;
  currentlyUsedSpace : Z
}.

Definition isFile (iliasObject : ILIASObject) : bool :=
  String.eqb (type iliasObject) "file".

Definition availableSpace (settings : Settings) : Z :=
  quotaSize settings * 1000 * 1000.

Definition downloadLimit (settings : Settings) : Z :=
  downloadSize settings * 1000 * 1000.

Definition pushNoMoreSpace (acc : Sorting) (fileObject : ILIASObject) : Sorting :=
  {| downloads := downloads acc;
     filesTooBig := filesTooBig acc;
     noMoreSpace :=
       noMoreSpace acc ++ [{| object := fileObject; reason := QuotaExceeded |}];
     filesAlreadySynced := filesAlreadySynced acc;
     currentlyUsedSpace := currentlyUsedSpace acc |}.

(** The body of the [forEach] (lines 344-360): the quota is tested first,
    the size of the file inside it. *)
Definition sortFile (settings : Settings) (acc : Sorting)
    (fileObject : ILIASObject) : Sorting :=
  if needsDownload fileObject then
    match Js.parseInt (fileSize (data fileObject)) with
    | Some size =>
        if currentlyUsedSpace acc + size <=? availableSpace settings then
          if size <=? downloadLimit settings then
            {| downloads := downloads acc ++ [fileObject];
               filesTooBig := filesTooBig acc;
               noMoreSpace := noMoreSpace acc;
               filesAlreadySynced := filesAlreadySynced acc;
               currentlyUsedSpace := currentlyUsedSpace acc + size |}
          else
            {| downloads := downloads acc;
               filesTooBig :=
                 filesTooBig acc ++ [{| object := fileObject; reason := FileTooBig |}];
               noMoreSpace := noMoreSpace acc;
               filesAlreadySynced := filesAlreadySynced acc;
               currentlyUsedSpace := currentlyUsedSpace acc |}
        else pushNoMoreSpace acc fileObject
    | None =>
        (* NaN: [currentlyUsedSpace + NaN <= availableSpace] is false *)
        pushNoMoreSpace acc fileObject
    end
  else
    {| downloads := downloads acc;
       filesTooBig := filesTooBig acc;
       noMoreSpace := noMoreSpace acc;
       filesAlreadySynced := filesAlreadySynced acc ++ [fileObject];
       currentlyUsedSpace := currentlyUsedSpace acc |}.

Definition emptySorting (space : Z) : Sorting :=
  {| downloads := []; filesTooBig := []; noMoreSpace := [];
     filesAlreadySynced := []; currentlyUsedSpace := space |}.

Definition sortFiles (settings : Settings) (space : Z)
    (fileObjects : list ILIASObject) : Sorting :=
  fold_left (sortFile settings) fileObjects (emptySorting space).

(** The value that [checkForFileDownloads] resolves with, given the
    settings, the used disk space and the way each started download
    settles. *)
Definition partitionFiles (settings : Settings) (space : Z)
    (download : ILIASObject -> Outcome unit)
    (iliasObjects : list ILIASObject) : SyncResults :=
  let fileObjects := filter isFile iliasObjects in
  let sorted := sortFiles settings space fileObjects in
  {| totalObjects := fileObjects;
     objectsDownloaded := downloads sorted;
     objectsUnchanged := filesAlreadySynced sorted;
     objectsLeftOut := filesTooBig sorted ++ noMoreSpace sorted;
     fileDownloads := map download (downloads sorted) |}.

(** The four groups of a result. *)
Definition leftOutFor (r : LeftOutReason) (results : SyncResults) : list ILIASObject :=
  map object
    (filter (fun l => LeftOutReason_eqb (reason l) r) (objectsLeftOut results)).

Definition scheduled (results : SyncResults) := objectsDownloaded results.
Definition alreadySynced (results : SyncResults) := objectsUnchanged results.
Definition tooLarge (results : SyncResults) := leftOutFor FileTooBig results.
Definition quotaExceeded (results : SyncResults) := leftOutFor QuotaExceeded results.

(** The size of a file as the partition reads it ([0] where it is [NaN]). *)
Definition sizeOf (o : ILIASObject) : Z :=
  match Js.parseInt (fileSize (data o)) with Some n => n | None => 0 end.

Definition totalSize (l : list ILIASObject) : Z :=
  fold_right (fun o s => sizeOf o + s) 0 l.

(** [Split4 l a b c d]: the list [l] is dealt out, element by element and
    in order, to the four lists [a], [b], [c] and [d]; every position of
    [l] lands in exactly one of them. *)
Inductive Split4 {A : Type} : list A -> list A -> list A -> list A -> list A -> Prop :=
| Split4_nil : Split4 [] [] [] [] []
| Split4_1 x l a b c d : Split4 l a b c d -> Split4 (x :: l) (x :: a) b c d
| Split4_2 x l a b c d : Split4 l a b c d -> Split4 (x :: l) a (x :: b) c d
| Split4_3 x l a b c d : Split4 l a b c d -> Split4 (x :: l) a b (x :: c) d
| Split4_4 x l a b c d : Split4 l a b c d -> Split4 (x :: l) a b c (x :: d).

(** ** The service, its collaborators and the event loop *)

(** A calendar date as the getters of a [Date] give it; [getMonth] counts
    from 0. *)
Record JsDate := { getFullYear : Z; getMonth : Z; getDate : Z }.

(** A row of the table [synchronization]. *)
Record SyncRow := {
  userId : Z;
  startDate : JsDate;
  endDate : option JsDate;
  rowRunning : bool   (* the column recursiveSyncRunning *)
}.

(** The four statements that the service sends to the storage. *)
Inductive Query :=
| InsertSynchronization (userId : Z)
| UpdateSynchronization (userId : Z)
| SelectLastEndDate (userId : Z)
| SelectRunning (userId : Z).

(** An entry of [recursiveSyncQueue]: the object, and the promise (by its
    number) that [resolver] and [rejecter] settle. *)
Record SyncEntry := { syncObject : ILIASObject; handle : nat }.

(** The fields of [SynchronizationService], static [state] included. *)
Record Service := {
  state : SynchronizationState;
  user : option User;
  syncOfflineQueue : list ILIASObject;
  syncOfflineQueueCnt : nat;
  recursiveSyncQueue : list SyncEntry;
  lastSync : option JsDate;
  lastSyncString : option string
}.

(** What the service leaves behind in its collaborators. *)
Record Outside := {
  synchronization : list SyncRow;  (* the table *)
  statements : list Query;         (* every statement sent, latest last *)
  published : list string;         (* events.publish *)
  footerJob : option string;       (* Job.FileDownload of footerToolbarOfflineContent *)
  favorites : list (Z * Z);        (* isFavorite as last written, by objId *)
  launched : list ILIASObject      (* fileService.download calls *)
}.

(** The calls of [loadOfflineObjectRecursive] that are suspended, and what
    they did so far. *)
Record Loop := {
  entering : list SyncEntry;   (* at [await iliasObject.setIsFavorite(2)] *)
  inflight : list SyncEntry;   (* at [downloadContainerContent] *)
  started : list ILIASObject;  (* downloadContainerContent calls, in order *)
  settled : list (nat * Outcome SyncResults);
  fresh : nat
}.

Record World := { service : Service; outside : Outside; loop : Loop }.

(** What the collaborators answer. *)
Record Env := {
  currentUser : Outcome User;
  databaseAvailable : bool;        (* SQLiteDatabaseService.instance() resolves *)
  queryFails : nat -> bool;        (* the n-th statement sent is refused *)
  sqlNow : JsDate;                 (* date('now'), as a Date reads it back *)
  now : JsDate;                    (* new Date() *)
  translate : string -> string;
  getDesktopData : Outcome (list ILIASObject);
  getObjectData : ILIASObject -> bool -> Outcome (list ILIASObject);
  userSettings : Outcome Settings;
  totalDiskSpace : Outcome Z;
  download : ILIASObject -> Outcome unit;
  isLearnplace : ILIASObject -> bool;
  learnplaceLoad : Z -> Outcome unit;
  setOfflineAvailableRecursive : ILIASObject -> Outcome unit;
  userUnmarks : ILIASObject -> bool; (* the favorite is removed during its sync *)
  findByUserId : Z -> Outcome (list ILIASObject)  (* Favorites.findByUserId *)
}.

(** *** Field updates *)

Definition setLiveLoading (b : bool) (s : SynchronizationState) :=
  {| liveLoading := b;
     loadingOfflineContent := loadingOfflineContent s;
     recursiveSyncRunning := recursiveSyncRunning s |}.

Definition setLoadingOfflineContent (b : bool) (s : SynchronizationState) :=
  {| liveLoading := liveLoading s;
     loadingOfflineContent := b;
     recursiveSyncRunning := recursiveSyncRunning s |}.

Definition setRecursiveSyncRunning (b : bool) (s : SynchronizationState) :=
  {| liveLoading := liveLoading s;
     loadingOfflineContent := loadingOfflineContent s;
     recursiveSyncRunning := b |}.

Definition withState (f : SynchronizationState -> SynchronizationState) (s : Service) :=
  {| state := f (state s); user := user s;
     syncOfflineQueue := syncOfflineQueue s;
     syncOfflineQueueCnt := syncOfflineQueueCnt s;
     recursiveSyncQueue := recursiveSyncQueue s;
     lastSync := lastSync s; lastSyncString := lastSyncString s |}.

Definition setUser (u : option User) (s : Service) :=
  {| state := state s; user := u;
     syncOfflineQueue := syncOfflineQueue s;
     syncOfflineQueueCnt := syncOfflineQueueCnt s;
     recursiveSyncQueue := recursiveSyncQueue s;
     lastSync := lastSync s; lastSyncString := lastSyncString s |}.

Definition setOfflineQueue (q : list ILIASObject) (cnt : nat) (s : Service) :=
  {| state := state s; user := user s;
     syncOfflineQueue := q;
     syncOfflineQueueCnt := cnt;
     recursiveSyncQueue := recursiveSyncQueue s;
     lastSync := lastSync s; lastSyncString := lastSyncString s |}.

Definition setRecursiveSyncQueue (q : list SyncEntry) (s : Service) :=
  {| state := state s; user := user s;
     syncOfflineQueue := syncOfflineQueue s;
     syncOfflineQueueCnt := syncOfflineQueueCnt s;
     recursiveSyncQueue := q;
     lastSync := lastSync s; lastSyncString := lastSyncString s |}.

Definition setLastSync (d : JsDate) (label : string) (s : Service) :=
  {| state := state s; user := user s;
     syncOfflineQueue := syncOfflineQueue s;
     syncOfflineQueueCnt := syncOfflineQueueCnt s;
     recursiveSyncQueue := recursiveSyncQueue s;
     lastSync := Some d; lastSyncString := Some label |}.

Definition setTable (rows : list SyncRow) (o : Outside) :=
  {| synchronization := rows; statements := statements o;
     published := published o; footerJob := footerJob o;
     favorites := favorites o; launched := launched o |}.

Definition logStatement (q : Query) (o : Outside) :=
  {| synchronization := synchronization o; statements := statements o ++ [q];
     published := published o; footerJob := footerJob o;
     favorites := favorites o; launched := launched o |}.

Definition addPublished (event : string) (o : Outside) :=
  {| synchronization := synchronization o; statements := statements o;
     published := published o ++ [event]; footerJob := footerJob o;
     favorites := favorites o; launched := launched o |}.

Definition setFooterJob (j : option string) (o : Outside) :=
  {| synchronization := synchronization o; statements := statements o;
     published := published o; footerJob := j;
     favorites := favorites o; launched := launched o |}.

Definition writeFavorite (objId v : Z) (o : Outside) :=
  {| synchronization := synchronization o; statements := statements o;
     published := published o; footerJob := footerJob o;
     favorites := (objId, v) :: favorites o; launched := launched o |}.

Definition addLaunched (l : list ILIASObject) (o : Outside) :=
  {| synchronization := synchronization o; statements := statements o;
     published := published o; footerJob := footerJob o;
     favorites := favorites o; launched := launched o ++ l |}.

Definition onService (f : Service -> Service) (w : World) :=
  {| service := f (service w); outside := outside w; loop := loop w |}.

Definition onOutside (f : Outside -> Outside) (w : World) :=
  {| service := service w; outside := f (outside w); loop := loop w |}.

Definition onLoop (f : Loop -> Loop) (w : World) :=
  {| service := service w; outside := outside w; loop := f (loop w) |}.

Definition flags (w : World) : SynchronizationState := state (service w).

(** The service as constructed, over an empty table. *)
Definition initialService : Service :=
  {| state := {| liveLoading := false; loadingOfflineContent := false;
                 recursiveSyncRunning := false |};
     user := None; syncOfflineQueue := []; syncOfflineQueueCnt := 0%nat;
     recursiveSyncQueue := []; lastSync := None; lastSyncString := None |}.

Definition initialWorld : World :=
  {| service := initialService;
     outside := {| synchronization := []; statements := []; published := [];
                   footerJob := None; favorites := []; launched := [] |};
     loop := {| entering := []; inflight := []; started := []; settled := [];
                fresh := 0%nat |} |}.

(** *** Promises in sequence

    [M A] is a computation that ends in a settled or pending promise of an
    [A]; [bind] is [await] (or [then] with one handler), [catch] is
    [catch]. *)

Definition M (A : Type) : Type := World -> Outcome A * World.

Definition ret {A} (a : A) : M A := fun w => (Resolved a, w).
Definition reject {A} (e : JsError) : M A := fun w => (Rejected e, w).
Definition settle {A} (o : Outcome A) : M A := fun w => (o, w).
Definition effect (f : World -> World) : M unit := fun w => (Resolved tt, f w).

Definition bind {A B} (m : M A) (f : A -> M B) : M B :=
  fun w =>
    match m w with
    | (Resolved a, w') => f a w'
    | (Rejected e, w') => (Rejected e, w')
    | (Pending, w') => (Pending, w')
    end.

Definition catch {A} (m : M A) (handler : JsError -> M A) : M A :=
  fun w =>
    match m w with
    | (Rejected e, w') => handler e w'
    | r => r
    end.

Declare Scope promise_scope.
Delimit Scope promise_scope with promise.
Notation "x <- m ;; k" := (bind m (fun x => k))
  (at level 61, m at next level, right associativity) : promise_scope.
Notation "m ;; k" := (bind m (fun _ => k))
  (at level 61, right associativity) : promise_scope.
Local Open Scope promise_scope.

Definition isRejected {A} (o : Outcome A) : bool :=
  match o with Rejected _ => true | _ => false end.

Definition isPending {A} (o : Outcome A) : bool :=
  match o with Pending => true | _ => false end.

Definition resolvedValues {A} (ps : list (Outcome A)) : list A :=
  flat_map (fun o => match o with Resolved a => [a] | _ => [] end) ps.

(** [Promise.all]: rejected as soon as one of the promises is (the one
    reported is taken to be the first of the list), resolved when all are. *)
Definition promiseAll {A} (ps : list (Outcome A)) : Outcome (list A) :=
  match find isRejected ps with
  | Some (Rejected e) => Rejected e
  | _ => if existsb isPending ps then Pending else Resolved (resolvedValues ps)
  end.

(** ** The session ledger *)

Definition dateLtb (a b : JsDate) : bool :=
  (getFullYear a <? getFullYear b)
  || ((getFullYear a =? getFullYear b)
      && ((getMonth a <? getMonth b)
          || ((getMonth a =? getMonth b) && (getDate a <? getDate b)))).

(** [new Date(endDate)] of a row; a null column reads as the epoch. *)
Definition dateOfRow (r : SyncRow) : JsDate :=
  match endDate r with
  | Some d => d
  | None => {| getFullYear := 1970; getMonth := 0; getDate := 1 |}
  end.

Definition hasEndDate (r : SyncRow) : bool :=
  match endDate r with Some _ => true | None => false end.

(** [ORDER BY endDate DESC LIMIT 1]. *)
Fixpoint latestEnd (rows : list SyncRow) : list SyncRow :=
  match rows with
  | [] => []
  | r :: rest =>
      match latestEnd rest with
      | [] => [r]
      | b :: _ => if dateLtb (dateOfRow r) (dateOfRow b) then [b] else [r]
      end
  end.

Definition closeRow (today : JsDate) (u : Z) (r : SyncRow) : SyncRow :=
  if (userId r =? u) && rowRunning r then
    {| userId := userId r; startDate := startDate r;
       endDate := Some today; rowRunning := false |}
  else r.

(** What a statement does to the table, and the rows it returns. *)
Definition answer (today : JsDate) (q : Query) (table : list SyncRow)
    : list SyncRow * list SyncRow :=
  match q with
  | InsertSynchronization u =>
      (table ++ [{| userId := u; startDate := today; endDate := None;
                    rowRunning := true |}], [])
  | UpdateSynchronization u => (map (closeRow today u) table, [])
  | SelectLastEndDate u =>
      (table, latestEnd (filter (fun r => (userId r =? u) && hasEndDate r) table))
  | SelectRunning u =>
      (table, filter (fun r => rowRunning r && (userId r =? u)) table)
  end.

Definition isEmptyString (s : string) : bool :=
  match s with EmptyString => true | _ => false end.

(** The label that [updateLastSync] stores in [lastSyncString]. *)
Definition lastSyncLabel (translate : string -> string) (now lastSync : JsDate)
    : string :=
  let date_string :=
    if (getMonth now =? getMonth lastSync)
       && (getFullYear now =? getFullYear lastSync) then
      if getDate now =? getDate lastSync then translate "today"
      else if getDate now - 1 =? getDate lastSync then translate "yesterday"
      else EmptyString
    else EmptyString in
  if isEmptyString date_string then
    (Js.toString (getDate lastSync) ++ "."
     ++ Js.toString (getMonth lastSync + 1) ++ "."
     ++ Js.toString (getFullYear lastSync))%string
  else date_string.

Section Operations.

Variable env : Env.

(** [SQLiteDatabaseService.instance()]. *)
Definition dbInstance : M unit :=
  fun w =>
    if databaseAvailable env then (Resolved tt, w)
    else (Rejected StorageError, w).

(** [db.query(statement)]. *)
Definition dbQuery (q : Query) : M (list SyncRow) :=
  fun w =>
    let n := List.length (statements (outside w)) in
    let w1 := onOutside (logStatement q) w in
    if queryFails env n then (Rejected StorageError, w1)
    else
      let (table, rows) := answer (sqlNow env) q (synchronization (outside w)) in
      (Resolved rows, onOutside (setTable table) w1).

(** [this.user.id], which throws while no user is loaded. *)
Definition thisUserId : M Z :=
  fun w =>
    match user (service w) with
    | Some u => (Resolved (id u), w)
    | None => (Rejected (TypeError "Cannot read property 'id' of undefined"), w)
    end.

(** [loadCurrentUser] (lines 221-223). *)
Definition loadCurrentUser : M unit :=
  u <- settle (currentUser env) ;;
  effect (onService (setUser (Some u))).

(** [updateLastSync] (lines 257-282); it resolves with [null] when the user
    has no session that ended. *)
Definition updateLastSync (userId : Z) : M (option JsDate) :=
  dbInstance ;;
  rows <- dbQuery (SelectLastEndDate userId) ;;
  match rows with
  | [] => ret None
  | row :: _ =>
      let lastSync := dateOfRow row in
      effect (onService
        (setLastSync lastSync (lastSyncLabel (translate env) (now env) lastSync))) ;;
      ret (Some lastSync)
  end.

(** [syncStarted] (lines 228-241).  The flag is written first; the promise
    is settled by the handlers of the insert only, so that it stays pending
    when the storage cannot be opened or the statement cannot be built. *)
Definition syncStarted : M unit :=
  fun w =>
    let w1 := onService (withState (setRecursiveSyncRunning true)) w in
    match (dbInstance ;; u <- thisUserId ;; ret u) w1 with
    | (Resolved u, w2) =>
        match dbQuery (InsertSynchronization u) w2 with
        | (Resolved _, w3) => (Resolved tt, w3)
        | (Rejected _, w3) => (Rejected Undefined, w3)
        | (Pending, w3) => (Pending, w3)
        end
    | (_, w2) => (Pending, w2)
    end.

(** [syncEnded] (lines 246-255). *)
Definition syncEnded : M (option JsDate) :=
  effect (onService (withState (setRecursiveSyncRunning false))) ;;
  dbInstance ;;
  u <- thisUserId ;;
  dbQuery (UpdateSynchronization u) ;;
  u' <- thisUserId ;;
  updateLastSync u'.

(** [hasUnfinishedSync] (lines 288-295); [None] is a missing user. *)
Definition hasUnfinishedSync (user : option User) : M bool :=
  match user with
  | None => reject (Thrown "No user given.")
  | Some u =>
      dbInstance ;;
      result <- dbQuery (SelectRunning (id u)) ;;
      ret (0 <? List.length result)%nat
  end.

(** ** The shallow load *)

(** [executeLiveLoad] (lines 419-428).  The data request is issued and its
    two [then] handlers are attached;
    only then is the argument of [catch], [await this.syncEnded()],
    evaluated.  What it evaluates to is no function, so [catch] adds no
    handler.  The handlers run whether or not that [await] throws; they
    are sequenced here after it. *)
Definition executeLiveLoad (parent : option ILIASObject) : M (list ILIASObject) :=
  fun w =>
    let iliasObjects :=
      match parent with
      | None => getDesktopData env
      | Some p => getObjectData env p false
      end in
    let (ended, w1) := syncEnded w in
    let (chain, w2) :=
      (settle iliasObjects ;; syncEnded ;; settle iliasObjects) w1 in
    match ended with
    | Resolved _ => (chain, w2)
    | Rejected e => (Rejected e, w2)
    | Pending => (Pending, w2)
    end.

Definition publish (event : string) : M unit :=
  effect (onOutside (addPublished event)).

(** [liveLoad] (lines 68-87); [None] is the call without an object. *)
Definition liveLoad (iliasObject : option ILIASObject) : M (list ILIASObject) :=
  effect (onService (withState (setLiveLoading true))) ;;
  loadCurrentUser ;;
  promise <- catch (syncStarted ;; executeLiveLoad iliasObject)
                   (fun error =>
                      syncEnded ;;
                      publish "sync:complete" ;;
                      reject error) ;;
  effect (onService (withState (setLiveLoading false))) ;;
  ret promise.

End Operations.

(** ** The coordinator of recursive synchronizations

    [loadOfflineObjectRecursive] is cut at its two suspension points: the
    call runs up to [await iliasObject.setIsFavorite(2)]
    ([callRecursive]); its continuation tests [recursiveSyncRunning] and
    either queues the request or starts [downloadContainerContent]
    ([resumeRecursive]); the handlers of that promise run when it settles
    ([settleDownload]). *)

(** The first entry with the handle [h], and the list without it. *)
Fixpoint take (h : nat) (l : list SyncEntry) : option (SyncEntry * list SyncEntry) :=
  match l with
  | [] => None
  | e :: r =>
      if Nat.eqb (handle e) h then Some (e, r)
      else match take h r with
           | Some (x, r') => Some (x, e :: r')
           | None => None
           end
  end.

(** [Array.prototype.pop]. *)
Definition pop {A} (l : list A) : option (A * list A) :=
  match rev l with
  | [] => None
  | x :: r => Some (x, rev r)
  end.

Definition suspend (e : SyncEntry) (l : Loop) : Loop :=
  {| entering := entering l ++ [e]; inflight := inflight l;
     started := started l; settled := settled l; fresh := fresh l |}.

Definition nextHandle (l : Loop) : Loop :=
  {| entering := entering l; inflight := inflight l;
     started := started l; settled := settled l; fresh := S (fresh l) |}.

Definition setEntering (es : list SyncEntry) (l : Loop) : Loop :=
  {| entering := es; inflight := inflight l;
     started := started l; settled := settled l; fresh := fresh l |}.

Definition startDownload (e : SyncEntry) (l : Loop) : Loop :=
  {| entering := entering l; inflight := inflight l ++ [e];
     started := started l ++ [syncObject e]; settled := settled l;
     fresh := fresh l |}.

Definition setInflight (es : list SyncEntry) (l : Loop) : Loop :=
  {| entering := entering l; inflight := es;
     started := started l; settled := settled l; fresh := fresh l |}.

Definition addSettled (h : nat) (r : Outcome SyncResults) (l : Loop) : Loop :=
  {| entering := entering l; inflight := inflight l;
     started := started l; settled := settled l ++ [(h, r)]; fresh := fresh l |}.

(** A call of [loadOfflineObjectRecursive] whose result settles the promise
    [h], up to its first [await]. *)
Definition enterRecursive (iliasObject : ILIASObject) (h : nat) (w : World) : World :=
  onLoop (suspend {| syncObject := iliasObject; handle := h |})
    (onOutside (writeFavorite (objId iliasObject) 2) w).

(** A call from outside, which gets a promise of its own. *)
Definition callRecursive (iliasObject : ILIASObject) (w : World) : World :=
  onLoop nextHandle (enterRecursive iliasObject (fresh (loop w)) w).

(** The continuation of the call that settles the promise [h] (lines
    163-178): with the flag set the request is pushed on the queue, with
    the flag clear its download is started. *)
Definition resumeRecursive (h : nat) (w : World) : World :=
  match take h (entering (loop w)) with
  | None => w
  | Some (e, rest) =>
      let w1 := onLoop (setEntering rest) w in
      if recursiveSyncRunning (flags w1) then
        onService (setRecursiveSyncQueue (recursiveSyncQueue (service w1) ++ [e])) w1
      else onLoop (startDownload e) w1
  end.

(** The [then] handler behind [downloadContainerContent]: the last entry of
    the queue, if there is one, is taken off and submitted again; its
    result goes to the promise of the entry. *)
Definition serveNext (w : World) : World :=
  match pop (recursiveSyncQueue (service w)) with
  | Some (sync, rest) =>
      enterRecursive (syncObject sync) (handle sync)
        (onService (setRecursiveSyncQueue rest) w)
  | None => w
  end.

(** The download that settles the promise [h] settles (lines 178-193): the
    [then] handler serves the queue and passes the summary on, the [catch]
    handler passes the error on. *)
Definition settleDownload (h : nat) (result : Outcome SyncResults) (w : World) : World :=
  match take h (inflight (loop w)) with
  | None => w
  | Some (e, rest) =>
      match result with
      | Resolved syncResult =>
          onLoop (addSettled h result)
            (serveNext (onLoop (setInflight rest) w))
      | Rejected error =>
          onLoop (addSettled h result) (onLoop (setInflight rest) w)
      | Pending => w
      end
  end.

(** What can happen to the coordinator, one turn of the event loop each. *)
Inductive Event :=
| Call (iliasObject : ILIASObject)
| Resume (h : nat)
| Settle (h : nat) (result : Outcome SyncResults)
| SessionBegin   (* syncStarted writes the flag *)
| SessionEnd.    (* syncEnded writes the flag *)

(** One event. *)
Definition step (w : World) (ev : Event) : World :=
  match ev with
  | Call o => callRecursive o w
  | Resume h => resumeRecursive h w
  | Settle h r => settleDownload h r w
  | SessionBegin => onService (withState (setRecursiveSyncRunning true)) w
  | SessionEnd => onService (withState (setRecursiveSyncRunning false)) w
  end.

Definition run (w : World) (evs : list Event) : World := fold_left step evs w.

(** A request that arrives and reaches the test of the flag at once. *)
Definition request (iliasObject : ILIASObject) (w : World) : World :=
  resumeRecursive (fresh (loop w)) (callRecursive iliasObject w).

(** The order in which the subtree downloads were started. *)
Definition serviceOrder (w : World) : list ILIASObject := started (loop w).

(** The objects waiting in the queue, oldest first. *)
Definition pendingObjects (w : World) : list ILIASObject :=
  map syncObject (recursiveSyncQueue (service w)).

Section Recursive.

Variable env : Env.

(** ** downloadContainerContent *)

(** [checkForFileDownloads] (lines 322-393), whose partition is
    [partitionFiles].  [executeFileDownloads] starts every download at
    once; a failure of the settings or of the disk usage is turned into a
    rejected promise that nobody holds, and the promise returned is never
    settled. *)
Definition checkForFileDownloads (iliasObjects : list ILIASObject) : M SyncResults :=
  fun w =>
    match user (service w) with
    | None =>
        (Rejected (TypeError "Cannot read property 'settings' of undefined"), w)
    | Some _ =>
        match userSettings env, totalDiskSpace env with
        | Resolved settings, Resolved space =>
            let results :=
              partitionFiles settings space (download env) iliasObjects in
            (Resolved results,
             onOutside (addLaunched (objectsDownloaded results)) w)
        | _, _ => (Pending, w)
        end
    end.

(** [Promise.all(syncResults.fileDownloads).catch(...)]. *)
Definition awaitFileDownloads (syncResults : SyncResults) : M unit :=
  catch (settle (promiseAll (fileDownloads syncResults)) ;; ret tt)
        (fun _ => ret tt).

(** [Observable.merge(...).toPromise()]: an error of one of the loaders is
    the error of the whole.  That a loader which succeeds clears
    [needsDownload] of its learnplace is left out: a learnplace is no file,
    and the summary holds files only. *)
Definition downloadLearnplaces (tree : list ILIASObject) : M unit :=
  settle (promiseAll
            (map (fun it => learnplaceLoad env (objId it))
                 (filter (isLearnplace env) tree))) ;;
  ret tt.

(** [downloadContainerContent] (lines 196-205). *)
Definition downloadContainerContent (container : ILIASObject) : M SyncResults :=
  iliasObjects <- settle (getObjectData env container true) ;;
  let iliasObjects := iliasObjects ++ [container] in
  syncResults <- checkForFileDownloads iliasObjects ;;
  awaitFileDownloads syncResults ;;
  downloadLearnplaces iliasObjects ;;
  ret syncResults.

(** [await this.loadOfflineObjectRecursive(o)] with nothing else running in
    between: the promise stays pending when the request is queued. *)
Definition loadOfflineObjectRecursive (iliasObject : ILIASObject) : M SyncResults :=
  fun w =>
    let h := fresh (loop w) in
    let w1 := request iliasObject w in
    if recursiveSyncRunning (flags w) then (Pending, w1)
    else
      let (result, w2) := downloadContainerContent iliasObject w1 in
      (result, settleDownload h result w2).

(** ** The offline queue *)

Definition quote : string := String (ascii_of_nat 34) EmptyString.

(** [updateOfflineSyncStatusMessage] (lines 145-153): the title is read
    from the object under the cursor, whether or not there is one. *)
Definition updateOfflineSyncStatusMessage : M unit :=
  fun w =>
    let s := service w in
    let cnt := Z.of_nat (syncOfflineQueueCnt s) + 1 in
    let size := Z.of_nat (List.length (syncOfflineQueue s)) in
    match nth_error (syncOfflineQueue s) (syncOfflineQueueCnt s) with
    | None =>
        (Rejected (TypeError "Cannot read property 'title' of undefined"), w)
    | Some o =>
        let footerMsg :=
          (translate env "object-list.downloading" ++ " " ++ Js.toString cnt
           ++ "/" ++ Js.toString size ++ " " ++ quote ++ title o ++ quote)%string in
        (Resolved tt, onOutside (setFooterJob (Some footerMsg)) w)
    end.

(** [isFavorite] of an object as last written. *)
Definition favoriteOf (w : World) (o : ILIASObject) : Z :=
  match find (fun p => fst p =? objId o) (favorites (outside w)) with
  | Some (_, v) => v
  | None => isFavorite o
  end.

(** Modelled from the spec: [setIsFavorite] and [removeFromFavorites] of
    [ILIASObject], which are not in the sources, write the favorite
    tri-state (0 not a favorite, 1 favorite, 2 favorite being
    synchronized). *)
Definition setIsFavorite (o : ILIASObject) (v : Z) : M unit :=
  effect (onOutside (writeFavorite (objId o) v)).

Definition removeFromFavorites (o : ILIASObject) : M unit :=
  effect (onOutside (writeFavorite (objId o) 0)).

(** The branch of [processOfflineSyncQueue] for an object that is still a
    favorite (lines 129-134). *)
Definition syncFavorite (ilObj : ILIASObject) : M unit :=
  setIsFavorite ilObj 2 ;;
  loadOfflineObjectRecursive ilObj ;;
  settle (setOfflineAvailableRecursive env ilObj) ;;
  (if userUnmarks env ilObj then removeFromFavorites ilObj else ret tt) ;;
  fun w =>
    if favoriteOf w ilObj =? 0 then removeFromFavorites ilObj w
    else setIsFavorite ilObj 1 w.

(** One turn of [processOfflineSyncQueue], from the flag to the removal of
    the footer job: the object under the cursor is synchronized if it is
    still a favorite, and the cursor moves on. *)
Definition processNext : M unit :=
  effect (onService (withState (setLoadingOfflineContent true))) ;;
  updateOfflineSyncStatusMessage ;;
  ilObj <- (fun w =>
              match nth_error (syncOfflineQueue (service w))
                              (syncOfflineQueueCnt (service w)) with
              | Some o => (Resolved o, w)
              | None =>
                  (Rejected (TypeError
                     "Cannot read property 'isFavorite' of undefined"), w)
              end) ;;
  (fun w => if favoriteOf w ilObj =? 0 then ret tt w
            else syncFavorite ilObj w) ;;
  effect (onService (fun s =>
    setOfflineQueue (syncOfflineQueue s) (S (syncOfflineQueueCnt s)) s)) ;;
  effect (onOutside (setFooterJob None)).

(** [processOfflineSyncQueue]; the recursion is bounded by [fuel], of
    which [processOfflineSyncQueue] gives one more than there are objects
    left in the queue ([drain_fuel] shows that this is enough). *)
Fixpoint drain (fuel : nat) : M unit :=
  fun w =>
    let s := service w in
    if Nat.eqb (List.length (syncOfflineQueue s)) (syncOfflineQueueCnt s) then
      (Resolved tt,
       onService (fun s => withState (setLoadingOfflineContent false)
                             (setOfflineQueue [] 0 s)) w)
    else
      match fuel with
      | O => (Pending, w)
      | S fuel' => (processNext ;; drain fuel') w
      end.

(** [processOfflineSyncQueue] (lines 115-140). *)
Definition processOfflineSyncQueue : M unit :=
  fun w =>
    let s := service w in
    drain (S (List.length (syncOfflineQueue s) - syncOfflineQueueCnt s)) w.

(** [addObjectsToSyncQueue] (lines 104-110); a single object is the list of
    that object. *)
Definition addObjectsToSyncQueue (iliasObjects : list ILIASObject) : M unit :=
  loadCurrentUser env ;;
  effect (onService (fun s =>
    setOfflineQueue (syncOfflineQueue s ++ iliasObjects) (syncOfflineQueueCnt s) s)) ;;
  updateOfflineSyncStatusMessage ;;
  fun w =>
    if loadingOfflineContent (flags w) then ret tt w
    else processOfflineSyncQueue w.

(** [loadAllOfflineContent]: nothing is enqueued for a user without
    favorites. *)
Definition loadAllOfflineContent : M unit :=
  loadCurrentUser env ;;
  u <- thisUserId ;;
  favs <- settle (findByUserId env u) ;;
  if Nat.eqb (List.length favs) 0 then ret tt
  else addObjectsToSyncQueue favs.

End Recursive.

(** The used bytes after each of the downloads of [l], starting from
    [used]. *)
Fixpoint runningTotals (used : Z) (l : list ILIASObject) : list Z :=
  match l with
  | [] => []
  | o :: r => (used + sizeOf o) :: runningTotals (used + sizeOf o) r
  end.

(** ** Sample inputs *)

(** A file of the given size that still needs its download. *)
Definition sampleFile (i : Z) (size : string) : ILIASObject :=
  {| objId := i; type := "file"; title := "file"; needsDownload := true;
     isFavorite := 0; data := {| fileSize := size |} |}.

(** A container. *)
Definition sampleFolder (i : Z) (name : string) : ILIASObject :=
  {| objId := i; type := "fold"; title := name; needsDownload := true;
     isFavorite := 1; data := {| fileSize := "0" |} |}.

(** A quota of 100 MB and a limit of 50 MB for one file. *)
Definition sampleSettings : Settings := {| quotaSize := 100; downloadSize := 50 |}.

(** A quota of 100 MB and a limit of 10 MB for one file. *)
Definition tightSettings : Settings := {| quotaSize := 100; downloadSize := 10 |}.

Definition allDownloadsSucceed (o : ILIASObject) : Outcome unit := Resolved tt.

(** The day [d] of the month [m] (counted from 1) of the year [y]. *)
Definition day (y m d : Z) : JsDate :=
  {| getFullYear := y; getMonth := m - 1; getDate := d |}.

(** Collaborators that all answer: user 7, storage that never refuses, an
    empty desktop and empty containers. *)
Definition sampleEnv (today : JsDate) : Env :=
  {| currentUser := Resolved {| id := 7 |};
     databaseAvailable := true;
     queryFails := fun _ => false;
     sqlNow := today;
     now := today;
     translate := fun key => key;
     getDesktopData := Resolved [];
     getObjectData := fun _ _ => Resolved [];
     userSettings := Resolved sampleSettings;
     totalDiskSpace := Resolved 0;
     download := allDownloadsSucceed;
     isLearnplace := fun _ => false;
     learnplaceLoad := fun _ => Resolved tt;
     setOfflineAvailableRecursive := fun _ => Resolved tt;
     userUnmarks := fun _ => false;
     findByUserId := fun _ => Resolved [] |}.

(** A world whose table holds one closed session of user 7. *)
Definition worldWithSession (ended : JsDate) : World :=
  onOutside
    (setTable [{| userId := 7; startDate := ended; endDate := Some ended;
                  rowRunning := false |}])
    initialWorld.

(** The same collaborators with a transport that fails every listing. *)
Definition offlineEnv (today : JsDate) : Env :=
  {| currentUser := Resolved {| id := 7 |};
     databaseAvailable := true;
     queryFails := fun _ => false;
     sqlNow := today;
     now := today;
     translate := fun key => key;
     getDesktopData := Rejected TransportError;
     getObjectData := fun _ _ => Rejected TransportError;
     userSettings := Resolved sampleSettings;
     totalDiskSpace := Resolved 0;
     download := allDownloadsSucceed;
     isLearnplace := fun _ => false;
     learnplaceLoad := fun _ => Resolved tt;
     setOfflineAvailableRecursive := fun _ => Resolved tt;
     userUnmarks := fun _ => false;
     findByUserId := fun _ => Resolved [] |}.

(** The world while a session is open: [recursiveSyncRunning] is set. *)
Definition busyWorld : World :=
  onService (withState (setRecursiveSyncRunning true)) initialWorld.

(** The world in which the body of [liveLoad] starts, once the user [u] is
    loaded. *)
Definition loadedWorld (u : User) (w : World) : World :=
  onService (setUser (Some u)) (onService (withState (setLiveLoading true)) w).

(** The world in the middle of a drain of the one favorite [o]. *)
Definition drainingWorld (o : ILIASObject) : World :=
  onService
    (fun s => withState (setLoadingOfflineContent true) (setOfflineQueue [o] 0 s))
    initialWorld.

(** The collaborators with another fate for the file downloads. *)
Definition withDownload (d : ILIASObject -> Outcome unit) (env : Env) : Env :=
  {| currentUser := currentUser env;
     databaseAvailable := databaseAvailable env;
     queryFails := queryFails env;
     sqlNow := sqlNow env;
     now := now env;
     translate := translate env;
     getDesktopData := getDesktopData env;
     getObjectData := getObjectData env;
     userSettings := userSettings env;
     totalDiskSpace := totalDiskSpace env;
     download := d;
     isLearnplace := isLearnplace env;
     learnplaceLoad := learnplaceLoad env;
     setOfflineAvailableRecursive := setOfflineAvailableRecursive env;
     userUnmarks := userUnmarks env;
     findByUserId := findByUserId env |}.

(** Two summaries that differ at most in the promises of the downloads. *)
Definition sameSummary (a b : SyncResults) : Prop :=
  totalObjects a = totalObjects b
  /\ objectsDownloaded a = objectsDownloaded b
  /\ objectsUnchanged a = objectsUnchanged b
  /\ objectsLeftOut a = objectsLeftOut b.

(** Every download of object 2 fails, every other one succeeds. *)
Definition secondDownloadFails (o : ILIASObject) : Outcome unit :=
  if objId o =? 2 then Rejected TransportError else Resolved tt.

(** A container with three small files, listed by the transport. *)
Definition threeFilesEnv : Env :=
  {| currentUser := Resolved {| id := 7 |};
     databaseAvailable := true;
     queryFails := fun _ => false;
     sqlNow := day 2024 5 10;
     now := day 2024 5 10;
     translate := fun key => key;
     getDesktopData := Resolved [];
     getObjectData := fun _ _ =>
       Resolved [sampleFile 1 "10"; sampleFile 2 "20"; sampleFile 3 "30"];
     userSettings := Resolved sampleSettings;
     totalDiskSpace := Resolved 0;
     download := secondDownloadFails;
     isLearnplace := fun _ => false;
     learnplaceLoad := fun _ => Resolved tt;
     setOfflineAvailableRecursive := fun _ => Resolved tt;
     userUnmarks := fun _ => false;
     findByUserId := fun _ => Resolved [] |}.



(** The entries [es] served one after the other: each is resumed, and its
    download resolves with the summary [summary] gives for its object. *)
Definition serve (summary : ILIASObject -> SyncResults) (es : list SyncEntry)
    : list Event :=
  flat_map
    (fun e => [Resume (handle e);
               Settle (handle e) (Resolved (summary (syncObject e)))])
    es.

Definition noFiles (o : ILIASObject) : SyncResults :=
  {| totalObjects := []; objectsDownloaded := []; objectsUnchanged := [];
     objectsLeftOut := []; fileDownloads := [] |}.

Definition nodeA : ILIASObject := sampleFolder 1 "A".
Definition nodeB : ILIASObject := sampleFolder 2 "B".
Definition nodeC : ILIASObject := sampleFolder 3 "C".

(** The world in which [nodeA] is being synchronized and a session was
    begun since. *)
Definition sessionOverA : World :=
  run initialWorld [Call nodeA; Resume 0%nat; SessionBegin].

(** The world in which [nodeB] waits on the stack behind the running
    sync of [nodeA], the session being over. *)
Definition waitingBehindA : World :=
  run initialWorld
    [Call nodeA; Resume 0%nat; SessionBegin; Call nodeB; Resume 1%nat; SessionEnd].

(** The offline queue and its cursor. *)
Definition cursor (w : World) : list ILIASObject * nat :=
  (syncOfflineQueue (service w), syncOfflineQueueCnt (service w)).

(** A computation that leaves the offline queue and its cursor alone. *)
Definition KeepsCursor {A} (m : M A) : Prop :=
  forall w, cursor (snd (m w)) = cursor w.

(** Whether the table holds a session of the user [u] that is still in
    progress. *)
Definition unfinished (u : Z) (t : list SyncRow) : bool :=
  existsb (fun r => rowRunning r && (userId r =? u)) t.

(** The rows among which [updateLastSync] looks for the last end date of
    the user [u]. *)
Definition endedSessions (u : Z) (t : list SyncRow) : list SyncRow :=
  filter (fun r => (userId r =? u) && hasEndDate r) t.

(** The collaborators with another storage, another user lookup, another
    transport. *)
Definition withStorage (available : bool) (fails : nat -> bool) (env : Env) : Env :=
  {| currentUser := currentUser env;
     databaseAvailable := available;
     queryFails := fails;
     sqlNow := sqlNow env;
     now := now env;
     translate := translate env;
     getDesktopData := getDesktopData env;
     getObjectData := getObjectData env;
     userSettings := userSettings env;
     totalDiskSpace := totalDiskSpace env;
     download := download env;
     isLearnplace := isLearnplace env;
     learnplaceLoad := learnplaceLoad env;
     setOfflineAvailableRecursive := setOfflineAvailableRecursive env;
     userUnmarks := userUnmarks env;
     findByUserId := findByUserId env |}.

Definition withCurrentUser (u : Outcome User) (env : Env) : Env :=
  {| currentUser := u;
     databaseAvailable := databaseAvailable env;
     queryFails := queryFails env;
     sqlNow := sqlNow env;
     now := now env;
     translate := translate env;
     getDesktopData := getDesktopData env;
     getObjectData := getObjectData env;
     userSettings := userSettings env;
     totalDiskSpace := totalDiskSpace env;
     download := download env;
     isLearnplace := isLearnplace env;
     learnplaceLoad := learnplaceLoad env;
     setOfflineAvailableRecursive := setOfflineAvailableRecursive env;
     userUnmarks := userUnmarks env;
     findByUserId := findByUserId env |}.


Definition withLearnplaces (isOne : ILIASObject -> bool)
    (load : Z -> Outcome unit) (env : Env) : Env :=
  {| currentUser := currentUser env;
     databaseAvailable := databaseAvailable env;
     queryFails := queryFails env;
     sqlNow := sqlNow env;
     now := now env;
     translate := translate env;
     getDesktopData := getDesktopData env;
     getObjectData := getObjectData env;
     userSettings := userSettings env;
     totalDiskSpace := totalDiskSpace env;
     download := download env;
     isLearnplace := isOne;
     learnplaceLoad := load;
     setOfflineAvailableRecursive := setOfflineAvailableRecursive env;
     userUnmarks := userUnmarks env;
     findByUserId := findByUserId env |}.

Definition withSettings (settings : Outcome Settings) (space : Outcome Z)
    (env : Env) : Env :=
  {| currentUser := currentUser env;
     databaseAvailable := databaseAvailable env;
     queryFails := queryFails env;
     sqlNow := sqlNow env;
     now := now env;
     translate := translate env;
     getDesktopData := getDesktopData env;
     getObjectData := getObjectData env;
     userSettings := settings;
     totalDiskSpace := space;
     download := download env;
     isLearnplace := isLearnplace env;
     learnplaceLoad := learnplaceLoad env;
     setOfflineAvailableRecursive := setOfflineAvailableRecursive env;
     userUnmarks := userUnmarks env;
     findByUserId := findByUserId env |}.

(** The calls of [loadOfflineObjectRecursive] made so far are all
    accounted for: suspended before the test of the flag, waiting on the
    stack, downloading, or settled. *)
Definition accounted (w : World) : Prop :=
  fresh (loop w) =
    (List.length (entering (loop w))
     + List.length (recursiveSyncQueue (service w))
     + List.length (inflight (loop w))
     + List.length (settled (loop w)))%nat.

(** The promise of an entry, settled with the summary of its own object. *)
Definition ownSummary (summary : ILIASObject -> SyncResults) (e : SyncEntry)
    : nat * Outcome SyncResults :=
  (handle e, Resolved (summary (syncObject e))).

(** An event that is no end of a session. *)
Definition keepsSession (ev : Event) : bool :=
  match ev with SessionEnd => false | _ => true end.

(** The service with user 7 loaded and two favorites enqueued, before the
    drain has started. *)
Definition twoFavorites : World :=
  onService (fun s => setOfflineQueue [nodeA; nodeB] 0 (setUser (Some {| id := 7 |}) s))
    initialWorld.

(** The coordinator is idle: its flag is clear, nothing is suspended,
    downloading or stacked. *)
Definition idle (w : World) : Prop :=
  recursiveSyncRunning (flags w) = false
  /\ entering (loop w) = []
  /\ inflight (loop w) = []
  /\ recursiveSyncQueue (service w) = [].

(** The collaborators of the sample with a learnplace [nodeA] whose loader
    fails. *)
Definition brokenLearnplaceEnv : Env :=
  withLearnplaces (fun o => objId o =? 1) (fun _ => Rejected TransportError)
    (sampleEnv (day 2024 5 10)).

(** The collaborators of the sample with settings that cannot be read. *)
Definition noSettingsEnv : Env :=
  withSettings (Rejected StorageError) (Resolved 0) (sampleEnv (day 2024 5 10)).

(** ** executeNewsSync *)

(** [executeNewsSync] (lines 412-417).  Of the two synchronizers, which are
    collaborators of the service, the outcome only is modelled. *)
Definition executeNewsSync (env : Env)
    (newsSynchronize visitJournalSynchronize : Outcome unit) : M unit :=
  loadCurrentUser env ;;
  settle newsSynchronize ;;
  settle visitJournalSynchronize ;;
  syncEnded env ;;
  ret tt.

(** The storage in which user 7 has a session that was begun and not
    ended. *)
Definition openSession : World :=
  onOutside
    (setTable [{| userId := 7; startDate := day 2024 5 9; endDate := None;
                  rowRunning := true |}])
    busyWorld.

(** The collaborators of the sample for a user whose favorites are [favs]. *)
Definition withFavorites (favs : list ILIASObject) (env : Env) : Env :=
  {| currentUser := currentUser env;
     databaseAvailable := databaseAvailable env;
     queryFails := queryFails env;
     sqlNow := sqlNow env;
     now := now env;
     translate := translate env;
     getDesktopData := getDesktopData env;
     getObjectData := getObjectData env;
     userSettings := userSettings env;
     totalDiskSpace := totalDiskSpace env;
     download := download env;
     isLearnplace := isLearnplace env;
     learnplaceLoad := learnplaceLoad env;
     setOfflineAvailableRecursive := setOfflineAvailableRecursive env;
     userUnmarks := userUnmarks env;
     findByUserId := fun _ => Resolved favs |}.

(** * Properties *)

(** ** The partition of the files *)

Section Split4Facts.

Context {A : Type}.

Lemma Split4_snoc_1 (x : A) l a b c d :
  Split4 l a b c d -> Split4 (l ++ [x]) (a ++ [x]) b c d.
Proof.
  induction 1; simpl; try (constructor; assumption).
  apply Split4_1, Split4_nil.
Qed.

Lemma Split4_snoc_2 (x : A) l a b c d :
  Split4 l a b c d -> Split4 (l ++ [x]) a (b ++ [x]) c d.
Proof.
  induction 1; simpl; try (constructor; assumption).
  apply Split4_2, Split4_nil.
Qed.

Lemma Split4_snoc_3 (x : A) l a b c d :
  Split4 l a b c d -> Split4 (l ++ [x]) a b (c ++ [x]) d.
Proof.
  induction 1; simpl; try (constructor; assumption).
  apply Split4_3, Split4_nil.
Qed.

Lemma Split4_snoc_4 (x : A) l a b c d :
  Split4 l a b c d -> Split4 (l ++ [x]) a b c (d ++ [x]).
Proof.
  induction 1; simpl; try (constructor; assumption).
  apply Split4_4, Split4_nil.
Qed.

(** A split is in particular a rearrangement: nothing is lost or added. *)
Lemma Split4_Permutation l (a b c d : list A) :
  Split4 l a b c d -> Permutation l (a ++ b ++ c ++ d).
Proof.
  induction 1; simpl.
  - constructor.
  - constructor; assumption.
  - rewrite IHSplit4. apply Permutation_middle.
  - rewrite IHSplit4.
    rewrite (app_assoc a b (x :: c ++ d)), (app_assoc a b (c ++ d)).
    apply Permutation_middle.
  - rewrite IHSplit4.
    rewrite !app_assoc. apply Permutation_middle.
Qed.

End Split4Facts.

Lemma runningTotals_snoc used l x :
  runningTotals used (l ++ [x]) =
  runningTotals used l ++ [used + totalSize l + sizeOf x].
Proof.
  revert used. induction l as [|o l IH]; intros used; simpl.
  - f_equal. lia.
  - rewrite IH. f_equal. f_equal. f_equal. lia.
Qed.

Lemma totalSize_snoc l x : totalSize (l ++ [x]) = totalSize l + sizeOf x.
Proof. induction l as [|o l IH]; simpl; lia. Qed.

Lemma filter_reason_all r (l : list LeftOut) :
  Forall (fun e => reason e = r) l ->
  filter (fun e => LeftOutReason_eqb (reason e) r) l = l.
Proof.
  induction 1 as [|e l He _ IH]; simpl; [reflexivity|].
  rewrite He, IH. destruct r; reflexivity.
Qed.

Lemma filter_reason_none r r' (l : list LeftOut) :
  r' <> r ->
  Forall (fun e => reason e = r') l ->
  filter (fun e => LeftOutReason_eqb (reason e) r) l = [].
Proof.
  intros Hne. induction 1 as [|e l He _ IH]; simpl; [reflexivity|].
  rewrite He, IH. destruct r, r'; try reflexivity; congruence.
Qed.

(** What holds of the four arrays after the files [processed] were sorted. *)
Record Sorted (settings : Settings) (space : Z) (processed : list ILIASObject)
    (acc : Sorting) : Prop := {
  sorted_split :
    Split4 processed (downloads acc) (filesAlreadySynced acc)
      (map object (filesTooBig acc)) (map object (noMoreSpace acc));
  sorted_tooBig : Forall (fun e => reason e = FileTooBig) (filesTooBig acc);
  sorted_noSpace : Forall (fun e => reason e = QuotaExceeded) (noMoreSpace acc);
  sorted_used : currentlyUsedSpace acc = space + totalSize (downloads acc);
  sorted_totals :
    Forall (fun t => t <= availableSpace settings)
      (runningTotals space (downloads acc));
  sorted_sizes :
    Forall (fun o => exists n, Js.parseInt (fileSize (data o)) = Some n
                               /\ n <= downloadLimit settings)
      (downloads acc)
}.

Lemma Sorted_empty settings space : Sorted settings space [] (emptySorting space).
Proof.
  split; simpl; try constructor. lia.
Qed.

Lemma Sorted_pushNoMoreSpace settings space processed acc o :
  Sorted settings space processed acc ->
  Sorted settings space (processed ++ [o]) (pushNoMoreSpace acc o).
Proof.
  intros [Hs Hb Hn Hu Ht Hz]. split; simpl; try assumption.
  - rewrite map_app. simpl. apply Split4_snoc_4, Hs.
  - apply Forall_app. split; [assumption|]. repeat constructor.
Qed.

Lemma Sorted_step settings space processed acc o :
  Sorted settings space processed acc ->
  Sorted settings space (processed ++ [o]) (sortFile settings acc o).
Proof.
  intros H. unfold sortFile.
  destruct (needsDownload o).
  - destruct (Js.parseInt (fileSize (data o))) as [n|] eqn:Hp;
      [|apply Sorted_pushNoMoreSpace, H].
    destruct (Z.leb_spec (currentlyUsedSpace acc + n) (availableSpace settings))
      as [Hq|Hq]; [|apply Sorted_pushNoMoreSpace, H].
    destruct H as [Hs Hb Hn Hu Ht Hz].
    assert (Hsize : sizeOf o = n) by (unfold sizeOf; rewrite Hp; reflexivity).
    destruct (Z.leb_spec n (downloadLimit settings)) as [Hl|Hl].
    + split; simpl; try assumption.
      * apply Split4_snoc_1, Hs.
      * rewrite totalSize_snoc. lia.
      * rewrite runningTotals_snoc. apply Forall_app. split; [assumption|].
        repeat constructor. lia.
      * apply Forall_app. split; [assumption|].
        repeat constructor. exists n. split; assumption.
    + split; simpl; try assumption.
      * rewrite map_app. simpl. apply Split4_snoc_3, Hs.
      * apply Forall_app. split; [assumption|]. repeat constructor.
  - destruct H as [Hs Hb Hn Hu Ht Hz]. split; simpl; try assumption.
    apply Split4_snoc_2, Hs.
Qed.

Lemma Sorted_fold settings space l : forall processed acc,
  Sorted settings space processed acc ->
  Sorted settings space (processed ++ l) (fold_left (sortFile settings) l acc).
Proof.
  induction l as [|o l IH]; intros processed acc H; simpl.
  - rewrite app_nil_r. assumption.
  - replace (processed ++ o :: l) with ((processed ++ [o]) ++ l)
      by (rewrite <- app_assoc; reflexivity).
    apply IH, Sorted_step, H.
Qed.

Lemma Sorted_sortFiles settings space fileObjects :
  Sorted settings space fileObjects (sortFiles settings space fileObjects).
Proof.
  apply (Sorted_fold settings space fileObjects [] (emptySorting space)).
  apply Sorted_empty.
Qed.

Lemma leftOut_groups settings space download iliasObjects :
  let results := partitionFiles settings space download iliasObjects in
  let sorted := sortFiles settings space (filter isFile iliasObjects) in
  tooLarge results = map object (filesTooBig sorted)
  /\ quotaExceeded results = map object (noMoreSpace sorted).
Proof.
  intros results sorted.
  destruct (Sorted_sortFiles settings space (filter isFile iliasObjects))
    as [_ Hb Hn _ _ _].
  unfold tooLarge, quotaExceeded, leftOutFor, results, partitionFiles. simpl.
  fold sorted in Hb, Hn |- *.
  rewrite !filter_app.
  rewrite (filter_reason_all FileTooBig _ Hb).
  rewrite (filter_reason_none FileTooBig QuotaExceeded _ ltac:(discriminate) Hn).
  rewrite (filter_reason_none QuotaExceeded FileTooBig _ ltac:(discriminate) Hb).
  rewrite (filter_reason_all QuotaExceeded _ Hn).
  rewrite app_nil_r. split; reflexivity.
Qed.


(** What [checkForFileDownloads] resolves with is the partition, and the
    downloads it has started are the scheduled ones. *)
Lemma checkForFileDownloads_resolved env iliasObjects w results w' :
  checkForFileDownloads env iliasObjects w = (Resolved results, w') ->
  exists settings space,
    userSettings env = Resolved settings
    /\ totalDiskSpace env = Resolved space
    /\ results = partitionFiles settings space (download env) iliasObjects
    /\ launched (outside w') = launched (outside w) ++ scheduled results.
Proof.
  unfold checkForFileDownloads.
  destruct (user (service w)); [|discriminate].
  destruct (userSettings env) as [settings|e|]; try discriminate.
  destruct (totalDiskSpace env) as [space|e|]; try discriminate.
  intros H. inversion H. exists settings, space. repeat split.
Qed.

(** The two examples of the specification, in MB: sizes 60, 40, 30 against
    a quota of 100 and a limit of 50, and sizes 30, 30 against a quota of 50
    and a limit of 50. *)
Example partition_first_fit :
  let results :=
    partitionFiles sampleSettings 0 allDownloadsSucceed
      [sampleFile 1 "60000000"; sampleFolder 9 "folder";
       sampleFile 2 "40000000"; sampleFile 3 "30000000"] in
  scheduled results = [sampleFile 2 "40000000"; sampleFile 3 "30000000"]
  /\ tooLarge results = [sampleFile 1 "60000000"]
  /\ quotaExceeded results = []
  /\ runningTotals 0 (scheduled results) = [40000000; 70000000].
Proof. vm_compute. repeat split. Qed.

Example partition_quota_exceeded :
  let results :=
    partitionFiles {| quotaSize := 50; downloadSize := 50 |} 0 allDownloadsSucceed
      [sampleFile 1 "30000000"; sampleFile 2 "30000000"] in
  scheduled results = [sampleFile 1 "30000000"]
  /\ quotaExceeded results = [sampleFile 2 "30000000"]
  /\ tooLarge results = [].
Proof. vm_compute. repeat split. Qed.

(** [parseInt] reads the longest decimal prefix; a size it cannot read is
    [NaN], fails the comparison with the quota, and sends the file to the
    quota-exceeded group. *)
Example parseInt_examples :
  Js.parseInt "1024" = Some 1024
  /\ Js.parseInt "  42 bytes" = Some 42
  /\ Js.parseInt "-7" = Some (-7)
  /\ Js.parseInt "3.9" = Some 3
  /\ Js.parseInt EmptyString = None
  /\ Js.parseInt "unknown" = None.
Proof. repeat split. Qed.

Example partition_unreadable_size :
  let results :=
    partitionFiles sampleSettings 0 allDownloadsSucceed
      [sampleFile 1 "unknown"; sampleFile 2 "10"] in
  scheduled results = [sampleFile 2 "10"]
  /\ quotaExceeded results = [sampleFile 1 "unknown"]
  /\ tooLarge results = [].
Proof. vm_compute. repeat split. Qed.

Lemma sortFiles_at settings space pre o post :
  sortFiles settings space (pre ++ o :: post) =
  fold_left (sortFile settings) post
    (sortFile settings (sortFiles settings space pre) o).
Proof. unfold sortFiles. rewrite fold_left_app. reflexivity. Qed.

(** C2, as the claim states it, fails: with 95 MB used of a quota of 100 MB
    and a limit of 10 MB, a file of 20 MB that needs its download exceeds
    the limit, yet it is placed in the quota-exceeded group and the
    too-large group stays empty. *)
Lemma size_limit_not_checked_first :
  let o := sampleFile 1 "20000000" in
  let results := partitionFiles tightSettings 95000000 allDownloadsSucceed [o] in
  isFile o = true
  /\ needsDownload o = true
  /\ Js.parseInt (fileSize (data o)) = Some 20000000
  /\ downloadLimit tightSettings < 20000000
  /\ tooLarge results = []
  /\ quotaExceeded results = [o].
Proof. vm_compute. repeat split; reflexivity. Qed.

(** C2, amended. For a file that still needs its download the quota is
    tested before the per-file limit: when the used bytes plus its size
    exceed the quota it is placed in the quota-exceeded group, whatever its
    size is against the limit; only a file that passes the quota test is
    compared with the limit, and is then placed in the too-large group when
    it exceeds it and scheduled (the used bytes growing by its size) when it
    does not. *)
Theorem quota_checked_before_size_limit :
  forall settings acc o n,
    needsDownload o = true ->
    Js.parseInt (fileSize (data o)) = Some n ->
    let acc' := sortFile settings acc o in
    (availableSpace settings < currentlyUsedSpace acc + n ->
       noMoreSpace acc' =
         noMoreSpace acc ++ [{| object := o; reason := QuotaExceeded |}]
       /\ filesTooBig acc' = filesTooBig acc
       /\ downloads acc' = downloads acc
       /\ currentlyUsedSpace acc' = currentlyUsedSpace acc)
    /\ (currentlyUsedSpace acc + n <= availableSpace settings ->
        downloadLimit settings < n ->
        filesTooBig acc' =
          filesTooBig acc ++ [{| object := o; reason := FileTooBig |}]
        /\ noMoreSpace acc' = noMoreSpace acc
        /\ downloads acc' = downloads acc
        /\ currentlyUsedSpace acc' = currentlyUsedSpace acc)
    /\ (currentlyUsedSpace acc + n <= availableSpace settings ->
        n <= downloadLimit settings ->
        downloads acc' = downloads acc ++ [o]
        /\ filesTooBig acc' = filesTooBig acc
        /\ noMoreSpace acc' = noMoreSpace acc
        /\ currentlyUsedSpace acc' = currentlyUsedSpace acc + n).
Proof.
  intros settings acc o n Hneeds Hsize acc'. subst acc'.
  unfold sortFile. rewrite Hneeds, Hsize.
  destruct (Z.leb_spec (currentlyUsedSpace acc + n) (availableSpace settings));
    destruct (Z.leb_spec n (downloadLimit settings));
    simpl; repeat split; intros; try lia; reflexivity.
Qed.

Lemma quota_checked_before_size_limit_witness :
  let o := sampleFile 1 "20000000" in
  let acc := emptySorting 95000000 in
  needsDownload o = true
  /\ Js.parseInt (fileSize (data o)) = Some 20000000
  /\ noMoreSpace (sortFile tightSettings acc o) =
       [{| object := o; reason := QuotaExceeded |}].
Proof.
  split; [reflexivity|]. split; [reflexivity|].
  apply (quota_checked_before_size_limit tightSettings
           (emptySorting 95000000) (sampleFile 1 "20000000") 20000000);
    [reflexivity | reflexivity | vm_compute; reflexivity].
Defined.

(** ** The session ledger *)

(** C10. Without a user, [hasUnfinishedSync] is rejected with the message
    "No user given." and nothing is sent to the storage (the world is left
    as it was).  With a user, and a storage that answers, it resolves, and
    it resolves with [true] exactly when the table holds a row of that user
    whose in-progress flag is set. *)
Theorem hasUnfinishedSync_spec :
  forall env w,
    hasUnfinishedSync env None w = (Rejected (Thrown "No user given."), w)
    /\ forall u,
         databaseAvailable env = true ->
         queryFails env (List.length (statements (outside w))) = false ->
         exists b,
           fst (hasUnfinishedSync env (Some u) w) = Resolved b
           /\ (b = true <->
               exists row, In row (synchronization (outside w))
                           /\ userId row = id u /\ rowRunning row = true).
Proof.
  intros env w. split; [reflexivity|].
  intros u Hdb Hq.
  unfold hasUnfinishedSync, bind, dbInstance, dbQuery, ret. rewrite Hdb, Hq.
  simpl.
  set (rows := filter (fun r => rowRunning r && (userId r =? id u))
                 (synchronization (outside w))).
  exists (0 <? List.length rows)%nat. split; [reflexivity|].
  rewrite Nat.ltb_lt. split.
  - intros Hlen. destruct rows as [|row rest] eqn:Hrows; [simpl in Hlen; lia|].
    assert (Hin : In row rows) by (rewrite Hrows; left; reflexivity).
    apply filter_In in Hin. destruct Hin as [Hin Hrow].
    apply andb_true_iff in Hrow. destruct Hrow as [Hrun Huser].
    exists row. repeat split; [assumption | lia | assumption].
  - intros (row & Hin & Huser & Hrun).
    assert (Hrow : In row rows).
    { apply filter_In. split; [assumption|].
      rewrite Hrun, Huser, Z.eqb_refl. reflexivity. }
    destruct rows; [destruct Hrow | simpl; lia].
Qed.

Lemma hasUnfinishedSync_spec_witness :
  databaseAvailable (sampleEnv (day 2024 5 10)) = true
  /\ queryFails (sampleEnv (day 2024 5 10))
       (List.length (statements (outside initialWorld))) = false
  /\ exists b,
       fst (hasUnfinishedSync (sampleEnv (day 2024 5 10)) (Some {| id := 7 |})
              initialWorld) = Resolved b
       /\ (b = true <->
           exists row, In row (synchronization (outside initialWorld))
                       /\ userId row = id {| id := 7 |} /\ rowRunning row = true).
Proof.
  split; [reflexivity|]. split; [reflexivity|].
  apply (proj2 (hasUnfinishedSync_spec (sampleEnv (day 2024 5 10)) initialWorld));
    reflexivity.
Defined.

(** A user without rows has no unfinished sync; after a session was begun
    and not ended, the user has one. *)
Example hasUnfinishedSync_no_rows :
  fst (hasUnfinishedSync (sampleEnv (day 2024 5 10)) (Some {| id := 7 |})
         initialWorld) = Resolved false.
Proof. reflexivity. Qed.

Example hasUnfinishedSync_after_begin :
  let env := sampleEnv (day 2024 5 10) in
  fst ((loadCurrentUser env ;; syncStarted env ;;
        hasUnfinishedSync env (Some {| id := 7 |})) initialWorld) = Resolved true.
Proof. reflexivity. Qed.

(** The label inside one month of one year: the translation of "today" for
    the same day of the month, of "yesterday" for the day before. *)
Lemma lastSyncLabel_today translate now lastSync :
  getMonth now = getMonth lastSync ->
  getFullYear now = getFullYear lastSync ->
  getDate now = getDate lastSync ->
  translate "today" <> EmptyString ->
  lastSyncLabel translate now lastSync = translate "today".
Proof.
  intros Hm Hy Hd Ht. unfold lastSyncLabel.
  rewrite Hm, Hy, Hd, !Z.eqb_refl. simpl.
  destruct (translate "today"); [congruence | reflexivity].
Qed.

Lemma lastSyncLabel_yesterday translate now lastSync :
  getMonth now = getMonth lastSync ->
  getFullYear now = getFullYear lastSync ->
  getDate now - 1 = getDate lastSync ->
  translate "yesterday" <> EmptyString ->
  lastSyncLabel translate now lastSync = translate "yesterday".
Proof.
  intros Hm Hy Hd Ht. unfold lastSyncLabel.
  rewrite Hm, Hy, !Z.eqb_refl. simpl.
  destruct (Z.eqb_spec (getDate now) (getDate lastSync)); [lia|].
  rewrite Hd, Z.eqb_refl.
  destruct (translate "yesterday"); [congruence | reflexivity].
Qed.

(** X2. When the last end date lies in another month or another year than
    now, the label is the literal day.month.year, the month counted from 1,
    without padding. *)
Lemma lastSyncLabel_other_month translate now lastSync :
  getMonth now <> getMonth lastSync \/ getFullYear now <> getFullYear lastSync ->
  lastSyncLabel translate now lastSync =
    (Js.toString (getDate lastSync) ++ "."
     ++ Js.toString (getMonth lastSync + 1) ++ "."
     ++ Js.toString (getFullYear lastSync))%string.
Proof.
  intros H. unfold lastSyncLabel.
  destruct (Z.eqb_spec (getMonth now) (getMonth lastSync));
    destruct (Z.eqb_spec (getFullYear now) (getFullYear lastSync));
    simpl; try reflexivity.
  destruct H; contradiction.
Qed.

Lemma lastSyncLabel_other_month_witness :
  (getMonth (day 2024 5 10) <> getMonth (day 2024 4 1)
   \/ getFullYear (day 2024 5 10) <> getFullYear (day 2024 4 1))
  /\ lastSyncLabel (fun key => key) (day 2024 5 10) (day 2024 4 1) = "1.4.2024".
Proof.
  assert (H : getMonth (day 2024 5 10) <> getMonth (day 2024 4 1)
              \/ getFullYear (day 2024 5 10) <> getFullYear (day 2024 4 1))
    by (left; discriminate).
  split; [exact H|].
  exact (lastSyncLabel_other_month (fun key => key) (day 2024 5 10)
           (day 2024 4 1) H).
Defined.

(** The three examples of the specification, on 10 May 2024. *)
Example lastSyncLabel_examples :
  lastSyncLabel (fun key => key) (day 2024 5 10) (day 2024 5 10) = "today"
  /\ lastSyncLabel (fun key => key) (day 2024 5 10) (day 2024 5 9) = "yesterday"
  /\ lastSyncLabel (fun key => key) (day 2024 5 10) (day 2024 4 1) = "1.4.2024".
Proof. repeat split. Qed.

(** C6, at the input on which the code departs from the claim. On 1 May
    2024, with a last session that ended on 30 April 2024 (the day before),
    the label is the literal date "30.4.2024" and not the translation of
    "yesterday", whatever the translations are; [updateLastSync] stores that
    label. *)
Theorem lastSync_yesterday_in_previous_month :
  (forall translate,
     lastSyncLabel translate (day 2024 5 1) (day 2024 4 30) = "30.4.2024")
  /\ lastSyncString
       (service (snd (updateLastSync (sampleEnv (day 2024 5 1)) 7
                        (worldWithSession (day 2024 4 30)))))
     = Some "30.4.2024"
  /\ lastSyncLabel (fun key => key) (day 2024 1 1) (day 2023 12 31) = "31.12.2023".
Proof. repeat split. Qed.

(** ** The shallow load *)

(** What the operations of the ledger leave untouched. *)

Lemma dbInstance_post env w r w' : dbInstance env w = (r, w') -> w' = w.
Proof.
  unfold dbInstance. destruct (databaseAvailable env); intros H;
    inversion H; reflexivity.
Qed.

Lemma thisUserId_post w r w' : thisUserId w = (r, w') -> w' = w.
Proof.
  unfold thisUserId. destruct (user (service w)); intros H;
    inversion H; reflexivity.
Qed.

Lemma dbQuery_post env q w r w' :
  dbQuery env q w = (r, w') ->
  service w' = service w /\ published (outside w') = published (outside w).
Proof.
  unfold dbQuery. destruct (queryFails env _).
  - intros H. inversion H. split; reflexivity.
  - destruct (answer _ _ _). intros H. inversion H. split; reflexivity.
Qed.

(** Splits a hypothesis on [bind m f w] by the outcome of [m]. *)
Ltac bind_inv H E :=
  match type of H with
  | bind ?m ?f ?w = _ =>
      unfold bind at 1 in H; destruct (m w) as [[?|?|] ?] eqn:E
  end.

Ltac done_here H := inversion H; subst; clear H.

Lemma updateLastSync_post env u w r w' :
  updateLastSync env u w = (r, w') ->
  flags w' = flags w /\ published (outside w') = published (outside w).
Proof.
  unfold updateLastSync. intros H.
  bind_inv H E; apply dbInstance_post in E; subst;
    try (done_here H; split; reflexivity).
  bind_inv H E; apply dbQuery_post in E; destruct E as [Hs Hp]; unfold flags;
    try (done_here H; rewrite Hs, Hp; split; reflexivity).
  destruct a0 as [|row rest].
  - done_here H. rewrite Hs, Hp. split; reflexivity.
  - unfold bind, effect, ret in H. done_here H. simpl.
    rewrite Hs, Hp. split; reflexivity.
Qed.

Lemma syncEnded_post env w r w' :
  syncEnded env w = (r, w') ->
  flags w' = setRecursiveSyncRunning false (flags w)
  /\ published (outside w') = published (outside w).
Proof.
  unfold syncEnded. intros H.
  unfold bind at 1 in H. unfold effect at 1 in H.
  set (w0 := onService (withState (setRecursiveSyncRunning false)) w) in H.
  change (setRecursiveSyncRunning false (flags w)) with (flags w0).
  change (published (outside w)) with (published (outside w0)).
  clearbody w0.
  bind_inv H E; apply dbInstance_post in E; subst;
    try (done_here H; split; reflexivity).
  bind_inv H E; apply thisUserId_post in E; subst;
    try (done_here H; split; reflexivity).
  bind_inv H E; apply dbQuery_post in E; destruct E as [Hs Hp];
    try (done_here H; unfold flags; rewrite Hs, Hp; split; reflexivity).
  bind_inv H E; apply thisUserId_post in E; subst;
    try (done_here H; unfold flags; rewrite Hs, Hp; split; reflexivity).
  apply updateLastSync_post in H. destruct H as [Hf Hq].
  rewrite Hf, Hq. unfold flags. rewrite Hs, Hp. split; reflexivity.
Qed.

Lemma syncStarted_post env w r w' :
  syncStarted env w = (r, w') ->
  flags w' = setRecursiveSyncRunning true (flags w)
  /\ published (outside w') = published (outside w).
Proof.
  unfold syncStarted. intros H.
  set (w0 := onService (withState (setRecursiveSyncRunning true)) w) in H.
  change (setRecursiveSyncRunning true (flags w)) with (flags w0).
  change (published (outside w)) with (published (outside w0)).
  clearbody w0.
  destruct ((dbInstance env;; u <- thisUserId;; ret u) w0) as [o w1] eqn:Hpre.
  assert (w1 = w0).
  { bind_inv Hpre E; apply dbInstance_post in E; subst;
      try (inversion Hpre; reflexivity).
    bind_inv Hpre E; apply thisUserId_post in E; subst;
      inversion Hpre; reflexivity. }
  subst w1.
  destruct o as [u|e|]; try (done_here H; split; reflexivity).
  destruct (dbQuery env (InsertSynchronization u) w0) as [[rows|e|] w1] eqn:E;
    apply dbQuery_post in E; destruct E as [Hs Hp]; done_here H;
    unfold flags; rewrite Hs, Hp; split; reflexivity.
Qed.

Lemma executeLiveLoad_post env parent w r w' :
  executeLiveLoad env parent w = (r, w') ->
  flags w' = setRecursiveSyncRunning false (flags w)
  /\ published (outside w') = published (outside w).
Proof.
  unfold executeLiveLoad. intros H.
  set (iliasObjects := match parent with
                       | Some p => getObjectData env p false
                       | None => getDesktopData env
                       end) in H.
  destruct (syncEnded env w) as [ended w1] eqn:E1.
  apply syncEnded_post in E1. destruct E1 as [Hf Hp].
  destruct ((settle iliasObjects;; syncEnded env;; settle iliasObjects) w1)
    as [chain w2] eqn:E2.
  assert (Hchain : flags w2 = setRecursiveSyncRunning false (flags w)
                   /\ published (outside w2) = published (outside w)).
  { bind_inv E2 E; unfold settle in E; inversion E; subst;
      try (inversion E2; subst; split; assumption).
    bind_inv E2 E'; apply syncEnded_post in E'; destruct E' as [Hf' Hp'];
      unfold settle in E2; inversion E2; subst;
      rewrite Hf', Hp', Hf, Hp; split; reflexivity. }
  destruct ended; inversion H; subst; assumption.
Qed.

Lemma sessionBody_post env iliasObject w r w' :
  (syncStarted env;; executeLiveLoad env iliasObject) w = (r, w') ->
  (exists b, flags w' = setRecursiveSyncRunning b (flags w)
             /\ (forall objs, r = Resolved objs -> b = false))
  /\ published (outside w') = published (outside w).
Proof.
  intros H. bind_inv H E; apply syncStarted_post in E; destruct E as [Hf Hp].
  - apply executeLiveLoad_post in H. destruct H as [Hf' Hp'].
    rewrite Hf', Hp', Hf, Hp. split; [|reflexivity].
    exists false. split; reflexivity.
  - done_here H. split; [|assumption].
    exists true. split; [assumption | discriminate].
  - done_here H. split; [|assumption].
    exists true. split; [assumption | discriminate].
Qed.

(** [liveLoad] by the outcome of each of its steps. *)
Lemma liveLoad_unfold env iliasObject w :
  let w0 := onService (withState (setLiveLoading true)) w in
  liveLoad env iliasObject w =
  match currentUser env with
  | Resolved u =>
      match (syncStarted env;; executeLiveLoad env iliasObject)
              (onService (setUser (Some u)) w0) with
      | (Resolved objs, w2) =>
          (Resolved objs, onService (withState (setLiveLoading false)) w2)
      | (Rejected error, w2) =>
          match syncEnded env w2 with
          | (Resolved _, w3) =>
              (Rejected error, onOutside (addPublished "sync:complete") w3)
          | (Rejected e, w3) => (Rejected e, w3)
          | (Pending, w3) => (Pending, w3)
          end
      | (Pending, w2) => (Pending, w2)
      end
  | Rejected e => (Rejected e, w0)
  | Pending => (Pending, w0)
  end.
Proof.
  intros w0. unfold liveLoad, loadCurrentUser, publish, catch, bind, effect,
    settle, ret, reject. fold w0.
  destruct (currentUser env) as [u|e|]; try reflexivity.
  destruct (syncStarted env (onService (setUser (Some u)) w0))
    as [[a|error|] w1]; try reflexivity.
  - destruct (executeLiveLoad env iliasObject w1) as [[objs|error|] w2];
      try reflexivity.
    destruct (syncEnded env w2) as [[d|e|] w3]; reflexivity.
  - destruct (syncEnded env w1) as [[d|e|] w3]; reflexivity.
Qed.

(** X1. After a shallow load the flag [liveLoading] is false exactly when
    the load resolved: on every path that ends rejected or pending it stays
    set. *)
Lemma liveLoad_liveLoading env iliasObject w :
  liveLoading (flags (snd (liveLoad env iliasObject w))) =
  match fst (liveLoad env iliasObject w) with
  | Resolved _ => false
  | _ => true
  end.
Proof.
  rewrite liveLoad_unfold.
  destruct (currentUser env) as [u|e|]; try reflexivity.
  destruct ((syncStarted env;; executeLiveLoad env iliasObject) _)
    as [[objs|error|] w2] eqn:E;
    apply sessionBody_post in E; destruct E as [(b & Hf & _) _].
  - reflexivity.
  - destruct (syncEnded env w2) as [[d|e|] w3] eqn:E3;
      apply syncEnded_post in E3; destruct E3 as [Hf3 _]; simpl;
      unfold flags in *; simpl; rewrite Hf3, Hf; reflexivity.
  - simpl. rewrite Hf. reflexivity.
Qed.

(** C7, as the claim states it, fails: [recursiveSyncRunning] is written by
    the shallow load.  The session begin inside it sets the flag; and when
    the flag is set before the call (a session is open), it is clear after
    the call, on the success path and on the failure path alike. *)
Lemma liveLoad_writes_recursiveSyncRunning :
  let env := sampleEnv (day 2024 5 10) in
  recursiveSyncRunning (flags initialWorld) = false
  /\ recursiveSyncRunning
       (flags (snd ((loadCurrentUser env;; syncStarted env) initialWorld))) = true
  /\ recursiveSyncRunning (flags busyWorld) = true
  /\ fst (liveLoad env None busyWorld) = Resolved []
  /\ recursiveSyncRunning (flags (snd (liveLoad env None busyWorld))) = false
  /\ fst (liveLoad (offlineEnv (day 2024 5 10)) None busyWorld)
       = Rejected TransportError
  /\ recursiveSyncRunning
       (flags (snd (liveLoad (offlineEnv (day 2024 5 10)) None busyWorld))) = false.
Proof. vm_compute. repeat split. Qed.

(** C7, amended. A shallow load never changes [loadingOfflineContent], on
    the success path and on every failure path.  [recursiveSyncRunning] is
    written by the session pair around the load: once the current user is
    loaded it is set by the session begin and cleared by the session end,
    so that it is false after every call that settles, whatever it was
    before (it is unchanged when it was false before); when the current
    user cannot be loaded it is left as it was. *)
Theorem liveLoad_flags :
  forall env iliasObject w,
    let result := fst (liveLoad env iliasObject w) in
    let w' := snd (liveLoad env iliasObject w) in
    loadingOfflineContent (flags w') = loadingOfflineContent (flags w)
    /\ (forall u, currentUser env = Resolved u -> result <> Pending ->
        recursiveSyncRunning (flags w') = false)
    /\ ((forall u, currentUser env <> Resolved u) ->
        recursiveSyncRunning (flags w') = recursiveSyncRunning (flags w)).
Proof.
  intros env iliasObject w result w'. subst result w'.
  rewrite liveLoad_unfold.
  destruct (currentUser env) as [u|e|].
  - destruct ((syncStarted env;; executeLiveLoad env iliasObject) _)
      as [[objs|error|] w2] eqn:E;
      apply sessionBody_post in E; destruct E as [(b & Hf & Hb) _].
    + rewrite (Hb objs eq_refl) in Hf.
      unfold flags in *; simpl in *. rewrite Hf.
      repeat split; intros; try reflexivity.
      exfalso. eapply H. reflexivity.
    + destruct (syncEnded env w2) as [[d|e|] w3] eqn:E3;
        apply syncEnded_post in E3; destruct E3 as [Hf3 _];
        unfold flags in *; simpl in *; rewrite Hf3, Hf;
        (repeat split; intros; try reflexivity;
         try (exfalso; eapply H; reflexivity)).
    + unfold flags in *; simpl in *. rewrite Hf.
      repeat split; intros; try reflexivity; try congruence.
      exfalso. eapply H. reflexivity.
  - repeat split; intros; try reflexivity. discriminate.
  - repeat split; intros; try reflexivity. discriminate.
Qed.

Lemma liveLoad_flags_witness :
  let env := offlineEnv (day 2024 5 10) in
  currentUser env = Resolved {| id := 7 |}
  /\ fst (liveLoad env None busyWorld) <> Pending
  /\ recursiveSyncRunning (flags (snd (liveLoad env None busyWorld))) = false.
Proof.
  split; [reflexivity|]. split; [vm_compute; discriminate|].
  apply (proj1 (proj2 (liveLoad_flags (offlineEnv (day 2024 5 10)) None busyWorld))
           {| id := 7 |});
    [reflexivity | vm_compute; discriminate].
Defined.

(** C8, as the claim states it, fails: a shallow load that succeeds
    publishes no event; one that fails publishes "sync:complete". *)
Lemma liveLoad_success_publishes_nothing :
  let env := sampleEnv (day 2024 5 10) in
  fst (liveLoad env None initialWorld) = Resolved []
  /\ published (outside (snd (liveLoad env None initialWorld))) = []
  /\ fst (liveLoad (offlineEnv (day 2024 5 10)) None initialWorld)
       = Rejected TransportError
  /\ published (outside (snd (liveLoad (offlineEnv (day 2024 5 10)) None
                                initialWorld))) = ["sync:complete"].
Proof. vm_compute. repeat split. Qed.

(** C8, amended. The completion event is published by a shallow load only
    when the attempt fails: a load that succeeds publishes nothing; at most
    one event, "sync:complete", is published, and then the attempt is
    rejected; and whenever, with the user loaded, the session begin or the
    load is rejected and the session can then be closed, the event is
    published and the rejection is passed on. *)
Theorem liveLoad_publishes_on_failure_only :
  forall env iliasObject w,
    let result := fst (liveLoad env iliasObject w) in
    let w' := snd (liveLoad env iliasObject w) in
    (forall objs, result = Resolved objs ->
       published (outside w') = published (outside w))
    /\ (published (outside w') = published (outside w)
        \/ (published (outside w') = published (outside w) ++ ["sync:complete"]
            /\ exists error, result = Rejected error))
    /\ (forall u error w1 d w2,
          currentUser env = Resolved u ->
          (syncStarted env;; executeLiveLoad env iliasObject) (loadedWorld u w)
            = (Rejected error, w1) ->
          syncEnded env w1 = (Resolved d, w2) ->
          result = Rejected error
          /\ published (outside w') = published (outside w) ++ ["sync:complete"]).
Proof.
  intros env iliasObject w result w'. subst result w'.
  rewrite liveLoad_unfold. unfold loadedWorld.
  destruct (currentUser env) as [u|e|].
  - destruct ((syncStarted env;; executeLiveLoad env iliasObject) _)
      as [[objs|error|] w2] eqn:E;
      pose proof (sessionBody_post _ _ _ _ _ E) as [_ Hp]; simpl in Hp.
    + simpl. rewrite Hp. repeat split; intros; try (left; reflexivity);
        exfalso; inversion H; subst u0; rewrite E in H0; discriminate.
    + destruct (syncEnded env w2) as [[d|e|] w3] eqn:E3;
        pose proof (syncEnded_post _ _ _ _ E3) as [_ Hp3]; simpl;
        rewrite Hp3, Hp.
      * split; [discriminate|]. split.
        -- right. split; [reflexivity | exists error; reflexivity].
        -- intros u0 error0 w1 d0 w4 Hu Hb He. inversion Hu. subst u0.
           rewrite E in Hb. inversion Hb. subst. split; reflexivity.
      * split; [intros; reflexivity|]. split; [left; reflexivity|].
        intros u0 error0 w1 d0 w4 Hu Hb He. inversion Hu. subst u0.
        rewrite E in Hb. inversion Hb. subst. rewrite E3 in He. discriminate.
      * split; [intros; reflexivity|]. split; [left; reflexivity|].
        intros u0 error0 w1 d0 w4 Hu Hb He. inversion Hu. subst u0.
        rewrite E in Hb. inversion Hb. subst. rewrite E3 in He. discriminate.
    + simpl. rewrite Hp. repeat split; intros; try (left; reflexivity);
        exfalso; inversion H; subst u0; rewrite E in H0; discriminate.
  - simpl. repeat split; intros; try (left; reflexivity); discriminate.
  - simpl. repeat split; intros; try (left; reflexivity); discriminate.
Qed.

Lemma liveLoad_publishes_on_failure_only_witness :
  let env := offlineEnv (day 2024 5 10) in
  currentUser env = Resolved {| id := 7 |}
  /\ fst ((syncStarted env;; executeLiveLoad env None)
            (loadedWorld {| id := 7 |} initialWorld)) = Rejected TransportError
  /\ fst (liveLoad env None initialWorld) = Rejected TransportError
  /\ published (outside (snd (liveLoad env None initialWorld)))
     = published (outside initialWorld) ++ ["sync:complete"].
Proof.
  split; [reflexivity|]. split; [reflexivity|].
  eapply (proj2 (proj2 (liveLoad_publishes_on_failure_only
                          (offlineEnv (day 2024 5 10)) None initialWorld))
            {| id := 7 |} TransportError).
  - reflexivity.
  - vm_compute. reflexivity.
  - vm_compute. reflexivity.
Defined.

(** ** The offline queue *)

(** With nothing waiting in the queue, enqueueing the empty list fails: the
    status message reads the title of an object that is not there. *)
Lemma addObjectsToSyncQueue_empty_queue env w u :
  currentUser env = Resolved u ->
  syncOfflineQueue (service w) = [] ->
  let w' := snd (addObjectsToSyncQueue env [] w) in
  fst (addObjectsToSyncQueue env [] w)
    = Rejected (TypeError "Cannot read property 'title' of undefined")
  /\ flags w' = flags w
  /\ syncOfflineQueue (service w') = []
  /\ loop w' = loop w.
Proof.
  intros Hu Hq.
  unfold addObjectsToSyncQueue, loadCurrentUser, bind, settle, effect,
    updateOfflineSyncStatusMessage.
  rewrite Hu. simpl. rewrite Hq. simpl.
  destruct (syncOfflineQueueCnt (service w)); simpl; unfold flags; simpl;
    rewrite Hq; repeat split.
Qed.

(** X3. While a drain is running (the flag is set and an object is under
    the cursor), enqueueing the empty list resolves, starts nothing and
    leaves the queue, its cursor, the flags and the suspended calls as they
    were. *)
Lemma addObjectsToSyncQueue_empty_while_draining env w u o :
  currentUser env = Resolved u ->
  loadingOfflineContent (flags w) = true ->
  nth_error (syncOfflineQueue (service w)) (syncOfflineQueueCnt (service w))
    = Some o ->
  let w' := snd (addObjectsToSyncQueue env [] w) in
  fst (addObjectsToSyncQueue env [] w) = Resolved tt
  /\ syncOfflineQueue (service w') = syncOfflineQueue (service w)
  /\ syncOfflineQueueCnt (service w') = syncOfflineQueueCnt (service w)
  /\ flags w' = flags w
  /\ loop w' = loop w.
Proof.
  intros Hu Hl Hn.
  unfold addObjectsToSyncQueue, loadCurrentUser, bind, settle, effect,
    updateOfflineSyncStatusMessage.
  rewrite Hu. simpl. rewrite app_nil_r, Hn. simpl.
  unfold flags in *. simpl. rewrite Hl. simpl.
  rewrite app_nil_r. repeat split.
Qed.

Lemma addObjectsToSyncQueue_empty_while_draining_witness :
  let env := sampleEnv (day 2024 5 10) in
  let w := drainingWorld (sampleFolder 1 "course") in
  currentUser env = Resolved {| id := 7 |}
  /\ loadingOfflineContent (flags w) = true
  /\ fst (addObjectsToSyncQueue env [] w) = Resolved tt
  /\ syncOfflineQueue (service (snd (addObjectsToSyncQueue env [] w)))
     = [sampleFolder 1 "course"].
Proof.
  split; [reflexivity|]. split; [reflexivity|].
  destruct (addObjectsToSyncQueue_empty_while_draining
              (sampleEnv (day 2024 5 10)) (drainingWorld (sampleFolder 1 "course"))
              {| id := 7 |} (sampleFolder 1 "course") eq_refl eq_refl eq_refl)
    as (Hr & Hq & _).
  split; assumption.
Defined.

(** The steps of one turn of the drain leave the queue and its cursor
    alone. *)

Lemma KeepsCursor_ret {A} (a : A) : KeepsCursor (ret a).
Proof. intros w. reflexivity. Qed.

Lemma KeepsCursor_settle {A} (o : Outcome A) : KeepsCursor (settle o).
Proof. intros w. reflexivity. Qed.

Lemma KeepsCursor_outside f : KeepsCursor (effect (onOutside f)).
Proof. intros w. reflexivity. Qed.

Lemma KeepsCursor_bind {A B} (m : M A) (f : A -> M B) :
  KeepsCursor m -> (forall a, KeepsCursor (f a)) -> KeepsCursor (bind m f).
Proof.
  intros Hm Hf w. unfold bind. specialize (Hm w).
  destruct (m w) as [[a|e|] w1]; simpl in *; try assumption.
  rewrite (Hf a w1). assumption.
Qed.

Lemma KeepsCursor_catch {A} (m : M A) (h : JsError -> M A) :
  KeepsCursor m -> (forall e, KeepsCursor (h e)) -> KeepsCursor (catch m h).
Proof.
  intros Hm Hh w. unfold catch. specialize (Hm w).
  destruct (m w) as [[a|e|] w1]; simpl in *; try assumption.
  rewrite (Hh e w1). assumption.
Qed.

Lemma request_cursor o w : cursor (request o w) = cursor w.
Proof.
  unfold request, resumeRecursive, callRecursive, enterRecursive.
  destruct (take _ _) as [[e rest]|]; [|reflexivity].
  destruct (recursiveSyncRunning _); reflexivity.
Qed.

Lemma settleDownload_cursor h r w : cursor (settleDownload h r w) = cursor w.
Proof.
  unfold settleDownload, serveNext.
  destruct (take _ _) as [[e rest]|]; [|reflexivity].
  destruct r; try reflexivity.
  destruct (pop _) as [[sync q]|]; reflexivity.
Qed.

Lemma KeepsCursor_downloadContainerContent env container :
  KeepsCursor (downloadContainerContent env container).
Proof.
  unfold downloadContainerContent.
  apply KeepsCursor_bind; [apply KeepsCursor_settle|]. intros objs.
  apply KeepsCursor_bind.
  { intros w. unfold checkForFileDownloads.
    destruct (user (service w)); [|reflexivity].
    destruct (userSettings env); try reflexivity.
    destruct (totalDiskSpace env); reflexivity. }
  intros results. apply KeepsCursor_bind.
  { unfold awaitFileDownloads. apply KeepsCursor_catch.
    - apply KeepsCursor_bind; [apply KeepsCursor_settle|].
      intros _. apply KeepsCursor_ret.
    - intros _. apply KeepsCursor_ret. }
  intros _. apply KeepsCursor_bind.
  { unfold downloadLearnplaces.
    apply KeepsCursor_bind; [apply KeepsCursor_settle|].
    intros _. apply KeepsCursor_ret. }
  intros _. apply KeepsCursor_ret.
Qed.

Lemma KeepsCursor_loadOfflineObjectRecursive env o :
  KeepsCursor (loadOfflineObjectRecursive env o).
Proof.
  intros w. unfold loadOfflineObjectRecursive.
  destruct (recursiveSyncRunning (flags w)); [apply request_cursor|].
  pose proof (KeepsCursor_downloadContainerContent env o (request o w)) as H.
  destruct (downloadContainerContent env o (request o w)) as [r w2].
  simpl in *. rewrite settleDownload_cursor, H. apply request_cursor.
Qed.

Lemma KeepsCursor_syncFavorite env o : KeepsCursor (syncFavorite env o).
Proof.
  unfold syncFavorite, setIsFavorite, removeFromFavorites.
  apply KeepsCursor_bind; [apply KeepsCursor_outside|]. intros _.
  apply KeepsCursor_bind; [apply KeepsCursor_loadOfflineObjectRecursive|].
  intros _. apply KeepsCursor_bind; [apply KeepsCursor_settle|]. intros _.
  apply KeepsCursor_bind.
  { destruct (userUnmarks env o);
      [apply KeepsCursor_outside | apply KeepsCursor_ret]. }
  intros _ w. destruct (favoriteOf w o =? 0); reflexivity.
Qed.

(** A turn that completes has found an object under the cursor and has
    moved the cursor by one. *)
Lemma processNext_post env w w' :
  processNext env w = (Resolved tt, w') ->
  syncOfflineQueue (service w') = syncOfflineQueue (service w)
  /\ syncOfflineQueueCnt (service w') = S (syncOfflineQueueCnt (service w))
  /\ (syncOfflineQueueCnt (service w) < List.length (syncOfflineQueue (service w)))%nat.
Proof.
  unfold processNext. intros H.
  unfold bind at 1 in H. unfold effect at 1 in H.
  set (w0 := onService (withState (setLoadingOfflineContent true)) w) in H.
  change (syncOfflineQueue (service w)) with (syncOfflineQueue (service w0)).
  change (syncOfflineQueueCnt (service w)) with (syncOfflineQueueCnt (service w0)).
  clearbody w0.
  unfold bind at 1 in H. unfold updateOfflineSyncStatusMessage in H.
  destruct (nth_error (syncOfflineQueue (service w0))
              (syncOfflineQueueCnt (service w0))) as [o|] eqn:Hn;
    [|discriminate].
  assert (Hlt : (syncOfflineQueueCnt (service w0)
                 < List.length (syncOfflineQueue (service w0)))%nat)
    by (apply nth_error_Some; congruence).
  unfold bind at 1 in H. simpl in H. rewrite Hn in H.
  unfold bind at 1 in H.
  set (w1 := onOutside _ w0) in H.
  pose proof (KeepsCursor_syncFavorite env o w1) as Hsync.
  destruct (favoriteOf w1 o =? 0).
  - unfold ret, bind, effect in H. inversion H. subst w'. simpl.
    repeat split. exact Hlt.
  - destruct (syncFavorite env o w1) as [[a|e|] w2]; try discriminate.
    unfold bind, effect in H. inversion H. subst w'. simpl.
    unfold cursor in Hsync. simpl in Hsync. inversion Hsync as [[Hq Hc]].
    rewrite Hq, Hc. repeat split. exact Hlt.
Qed.

(** The fuel that [processOfflineSyncQueue] gives is enough: more of it
    changes nothing. *)
Lemma drain_fuel env n : forall m w,
  (List.length (syncOfflineQueue (service w)) - syncOfflineQueueCnt (service w) < n)%nat ->
  (List.length (syncOfflineQueue (service w)) - syncOfflineQueueCnt (service w) < m)%nat ->
  drain env n w = drain env m w.
Proof.
  induction n as [|n IH]; intros m w Hn Hm; [lia|].
  destruct m as [|m]; [lia|]. simpl.
  destruct (Nat.eqb _ _); [reflexivity|].
  unfold bind.
  destruct (processNext env w) as [[[]|e|] w1] eqn:E; try reflexivity.
  apply processNext_post in E. destruct E as (Hq & Hc & Hlt).
  apply IH; rewrite Hq, Hc; lia.
Qed.

Lemma drain_resolved env n : forall w w',
  drain env n w = (Resolved tt, w') ->
  syncOfflineQueue (service w') = []
  /\ syncOfflineQueueCnt (service w') = 0%nat
  /\ loadingOfflineContent (flags w') = false.
Proof.
  induction n as [|n IH]; intros w w'; simpl;
    destruct (Nat.eqb _ _); intros H.
  - inversion H. repeat split.
  - discriminate.
  - inversion H. repeat split.
  - unfold bind in H.
    destruct (processNext env w) as [[[]|e|] w1]; try discriminate.
    apply (IH w1 w' H).
Qed.

(** X5. When the drain of the offline queue completes, the pending list is
    empty, the cursor is back at 0 and the flag of the drain is clear. *)
Lemma processOfflineSyncQueue_resolved env w w' :
  processOfflineSyncQueue env w = (Resolved tt, w') ->
  syncOfflineQueue (service w') = []
  /\ syncOfflineQueueCnt (service w') = 0%nat
  /\ loadingOfflineContent (flags w') = false.
Proof. unfold processOfflineSyncQueue. apply drain_resolved. Qed.

Lemma processOfflineSyncQueue_resolved_witness :
  let env := sampleEnv (day 2024 5 10) in
  let w := onService (setUser (Some {| id := 7 |}))
             (drainingWorld (sampleFolder 1 "course")) in
  fst (processOfflineSyncQueue env w) = Resolved tt
  /\ syncOfflineQueue (service (snd (processOfflineSyncQueue env w))) = []
  /\ syncOfflineQueueCnt (service (snd (processOfflineSyncQueue env w))) = 0%nat
  /\ loadingOfflineContent (flags (snd (processOfflineSyncQueue env w))) = false.
Proof.
  split; [vm_compute; reflexivity|].
  apply (processOfflineSyncQueue_resolved (sampleEnv (day 2024 5 10))
           (onService (setUser (Some {| id := 7 |}))
              (drainingWorld (sampleFolder 1 "course")))).
  vm_compute. reflexivity.
Defined.

(** [loadAllOfflineContent] keeps the empty list away from the queue. *)
Lemma loadAllOfflineContent_no_favorites env w u :
  currentUser env = Resolved u ->
  findByUserId env (id u) = Resolved [] ->
  loadAllOfflineContent env w = (Resolved tt, onService (setUser (Some u)) w).
Proof.
  intros Hu Hf.
  unfold loadAllOfflineContent, loadCurrentUser, thisUserId, bind, settle, effect.
  rewrite Hu. simpl. rewrite Hf. reflexivity.
Qed.

(** C5, at the input on which the code departs from the claim. On the
    service as constructed (nothing queued, no drain running), enqueueing
    the empty list does not complete: once the current user is loaded,
    [updateOfflineSyncStatusMessage] reads [syncOfflineQueue[0].title] of an
    empty queue and the promise is rejected with a TypeError.  No drain is
    started. *)
Theorem addObjectsToSyncQueue_empty_on_idle_service :
  forall env,
    fst (addObjectsToSyncQueue env [] initialWorld) =
      match currentUser env with
      | Resolved _ =>
          Rejected (TypeError "Cannot read property 'title' of undefined")
      | Rejected e => Rejected e
      | Pending => Pending
      end
    /\ loadingOfflineContent
         (flags (snd (addObjectsToSyncQueue env [] initialWorld))) = false.
Proof.
  intros env.
  destruct (currentUser env) as [u|e|] eqn:Hu.
  - destruct (addObjectsToSyncQueue_empty_queue env initialWorld u Hu eq_refl)
      as (Hr & Hf & _).
    rewrite Hr, Hf. split; reflexivity.
  - unfold addObjectsToSyncQueue, loadCurrentUser, bind, settle.
    rewrite Hu. split; reflexivity.
  - unfold addObjectsToSyncQueue, loadCurrentUser, bind, settle.
    rewrite Hu. split; reflexivity.
Qed.

(** Enqueueing one favorite on the idle service drains it: the container is
    listed and synchronized, the queue is emptied and the flag cleared. *)
Example addObjectsToSyncQueue_one_favorite :
  let env := sampleEnv (day 2024 5 10) in
  let w' := snd (addObjectsToSyncQueue env [sampleFolder 1 "course"] initialWorld) in
  fst (addObjectsToSyncQueue env [sampleFolder 1 "course"] initialWorld) = Resolved tt
  /\ syncOfflineQueue (service w') = []
  /\ syncOfflineQueueCnt (service w') = 0%nat
  /\ loadingOfflineContent (flags w') = false
  /\ serviceOrder w' = [sampleFolder 1 "course"]
  /\ favoriteOf w' (sampleFolder 1 "course") = 1.
Proof. vm_compute. repeat split. Qed.

Example addObjectsToSyncQueue_empty_during_drain :
  let env := sampleEnv (day 2024 5 10) in
  let w := drainingWorld (sampleFolder 1 "course") in
  fst (addObjectsToSyncQueue env [] w) = Resolved tt
  /\ service (snd (addObjectsToSyncQueue env [] w))
     = setUser (Some {| id := 7 |}) (service w).
Proof. vm_compute. repeat split. Qed.

(** ** The download of a container *)

Lemma existsb_isPending_settled {A} (ps : list (Outcome A)) :
  Forall (fun p => p <> Pending) ps -> existsb isPending ps = false.
Proof.
  induction 1 as [|p ps Hp _ IH]; simpl; [reflexivity|].
  rewrite IH. destruct p; try reflexivity. congruence.
Qed.

(** The aggregate wait resolves when every task has settled, however many
    of them were rejected. *)
Lemma awaitFileDownloads_settled results w :
  Forall (fun p => p <> Pending) (fileDownloads results) ->
  awaitFileDownloads results w = (Resolved tt, w).
Proof.
  intros H. unfold awaitFileDownloads, catch, bind, settle, ret, promiseAll.
  destruct (find isRejected (fileDownloads results)) as [[a|e|]|] eqn:Hfind;
    try reflexivity;
    rewrite (existsb_isPending_settled _ H); reflexivity.
Qed.

(** The aggregate wait is never rejected, and it resolves as soon as one
    task is rejected. *)
Lemma awaitFileDownloads_tolerant results w :
  (forall e, fst (awaitFileDownloads results w) <> Rejected e)
  /\ snd (awaitFileDownloads results w) = w
  /\ (existsb isRejected (fileDownloads results) = true ->
      awaitFileDownloads results w = (Resolved tt, w)).
Proof.
  unfold awaitFileDownloads, catch, bind, settle, ret, promiseAll.
  destruct (find isRejected (fileDownloads results)) as [p|] eqn:Hfind.
  - apply find_some in Hfind. destruct Hfind as [_ Hp].
    destruct p; try discriminate. simpl.
    repeat split; intros; discriminate.
  - assert (Hnone : existsb isRejected (fileDownloads results) = false).
    { apply not_true_is_false. intros Hex. apply existsb_exists in Hex.
      destruct Hex as (p & Hin & Hp).
      apply (find_none _ _ Hfind) in Hin. congruence. }
    rewrite Hnone.
    destruct (existsb isPending (fileDownloads results)); simpl;
      repeat split; intros; discriminate.
Qed.

Lemma partitionFiles_sameSummary settings space d d' iliasObjects :
  sameSummary (partitionFiles settings space d iliasObjects)
              (partitionFiles settings space d' iliasObjects).
Proof. repeat split. Qed.

Lemma fileDownloads_settled settings space d iliasObjects :
  (forall o, d o <> Pending) ->
  Forall (fun p => p <> Pending)
    (fileDownloads (partitionFiles settings space d iliasObjects)).
Proof.
  intros H. simpl. apply Forall_forall. intros p Hin.
  apply in_map_iff in Hin. destruct Hin as (o & <- & _). apply H.
Qed.

(** [downloadContainerContent] by the outcome of each of its steps. *)
Lemma downloadContainerContent_unfold env container w :
  downloadContainerContent env container w =
  match getObjectData env container true with
  | Resolved objs =>
      match checkForFileDownloads env (objs ++ [container]) w with
      | (Resolved results, w1) =>
          match awaitFileDownloads results w1 with
          | (Resolved _, w2) =>
              match downloadLearnplaces env (objs ++ [container]) w2 with
              | (Resolved _, w3) => (Resolved results, w3)
              | (Rejected e, w3) => (Rejected e, w3)
              | (Pending, w3) => (Pending, w3)
              end
          | (Rejected e, w2) => (Rejected e, w2)
          | (Pending, w2) => (Pending, w2)
          end
      | (Rejected e, w1) => (Rejected e, w1)
      | (Pending, w1) => (Pending, w1)
      end
  | Rejected e => (Rejected e, w)
  | Pending => (Pending, w)
  end.
Proof.
  unfold downloadContainerContent, bind, settle, ret.
  destruct (getObjectData env container true) as [objs|e|]; reflexivity.
Qed.

(** C9. Within one container sync the aggregate wait over the per-file
    download tasks is never rejected, and it completes once the tasks have
    settled, however many of them failed; and the sync of the container
    ends exactly as it would have ended had every download succeeded: the
    same downloads are started (none is cancelled), the same summary is
    returned (up to the promises it carries), and a rejection of the
    container sync is never caused by a file download. *)
Theorem file_download_failures_are_isolated :
  forall env container w d,
    (forall o, d o <> Pending) ->
    let failing := downloadContainerContent (withDownload d env) container w in
    let clean :=
      downloadContainerContent (withDownload allDownloadsSucceed env) container w in
    (forall results,
       (forall e, fst (awaitFileDownloads results w) <> Rejected e)
       /\ (fileDownloads results = map d (objectsDownloaded results) ->
           awaitFileDownloads results w = (Resolved tt, w)))
    /\ snd failing = snd clean
    /\ match fst clean with
       | Resolved summary =>
           exists summary',
             fst failing = Resolved summary'
             /\ sameSummary summary' summary
             /\ fileDownloads summary' = map d (objectsDownloaded summary)
             /\ launched (outside (snd failing))
                = launched (outside w) ++ objectsDownloaded summary
       | Rejected e => fst failing = Rejected e
       | Pending => fst failing = Pending
       end.
Proof.
  intros env container w d Hd failing clean. subst failing clean.
  split.
  { intros results. split.
    - apply awaitFileDownloads_tolerant.
    - intros Hr. apply awaitFileDownloads_settled. rewrite Hr.
      apply Forall_forall. intros p Hin. apply in_map_iff in Hin.
      destruct Hin as (o & <- & _). apply Hd. }
  rewrite !downloadContainerContent_unfold. simpl getObjectData.
  destruct (getObjectData env container true) as [objs|e|];
    [|split; reflexivity|split; reflexivity].
  unfold checkForFileDownloads. simpl.
  destruct (user (service w)) as [u|]; [|split; reflexivity].
  destruct (userSettings env) as [settings|e|];
    [|split; reflexivity|split; reflexivity].
  destruct (totalDiskSpace env) as [space|e|];
    [|split; reflexivity|split; reflexivity].
  set (all := objs ++ [container]).
  set (w1 := onOutside _ w).
  pose proof (awaitFileDownloads_settled
                (partitionFiles settings space d all) w1
                (fileDownloads_settled settings space d all Hd)) as Hfail.
  pose proof (awaitFileDownloads_settled
                (partitionFiles settings space allDownloadsSucceed all) w1
                (fileDownloads_settled settings space allDownloadsSucceed all
                   ltac:(discriminate))) as Hclean.
  simpl in Hfail, Hclean. fold w1 in Hfail, Hclean. rewrite Hfail, Hclean.
  unfold downloadLearnplaces, bind, settle, ret. simpl.
  destruct (promiseAll _) as [l|e|]; simpl.
  - split; [reflexivity|].
    exists (partitionFiles settings space d all).
    repeat split.
  - split; reflexivity.
  - split; reflexivity.
Qed.

Lemma file_download_failures_are_isolated_witness :
  let loaded := onService (setUser (Some {| id := 7 |})) initialWorld in
  let container := sampleFolder 9 "course" in
  (forall o, secondDownloadFails o <> Pending)
  /\ fst (downloadContainerContent threeFilesEnv container loaded) =
     Resolved
       {| totalObjects := [sampleFile 1 "10"; sampleFile 2 "20"; sampleFile 3 "30"];
          objectsDownloaded :=
            [sampleFile 1 "10"; sampleFile 2 "20"; sampleFile 3 "30"];
          objectsUnchanged := [];
          objectsLeftOut := [];
          fileDownloads := [Resolved tt; Rejected TransportError; Resolved tt] |}
  /\ snd (downloadContainerContent
            (withDownload secondDownloadFails threeFilesEnv) container loaded)
     = snd (downloadContainerContent
              (withDownload allDownloadsSucceed threeFilesEnv) container loaded).
Proof.
  assert (Hsettled : forall o, secondDownloadFails o <> Pending).
  { intros o. unfold secondDownloadFails.
    destruct (objId o =? 2); discriminate. }
  split; [exact Hsettled|]. split; [vm_compute; reflexivity|].
  exact (proj1 (proj2 (file_download_failures_are_isolated threeFilesEnv
                         (sampleFolder 9 "course")
                         (onService (setUser (Some {| id := 7 |})) initialWorld)
                         secondDownloadFails Hsettled))).
Defined.

(** ** The coordinator of recursive synchronizations *)

Lemma pop_snoc {A} (l : list A) (x : A) : pop (l ++ [x]) = Some (x, l).
Proof. unfold pop. rewrite rev_app_distr. simpl. rewrite rev_involutive. reflexivity. Qed.

Lemma take_single e : take (handle e) [e] = Some (e, []).
Proof. simpl. rewrite Nat.eqb_refl. reflexivity. Qed.

Lemma run_cons w ev evs : run w (ev :: evs) = run (step w ev) evs.
Proof. reflexivity. Qed.

Lemma run_app w evs evs' : run w (evs ++ evs') = run (run w evs) evs'.
Proof. unfold run. apply fold_left_app. Qed.


(** X4. A request that arrives while the flag is clear is started at once,
    whatever else is running: its download joins the ones in flight and
    nothing is put on the stack. *)
Lemma request_started w o :
  recursiveSyncRunning (flags w) = false ->
  entering (loop w) = [] ->
  let w' := request o w in
  serviceOrder w' = serviceOrder w ++ [o]
  /\ recursiveSyncQueue (service w') = recursiveSyncQueue (service w)
  /\ inflight (loop w') =
       inflight (loop w) ++ [{| syncObject := o; handle := fresh (loop w) |}].
Proof.
  intros Hflag Hent. unfold request, callRecursive, enterRecursive, resumeRecursive.
  simpl. rewrite Hent. simpl. rewrite Nat.eqb_refl.
  unfold flags in *. simpl. rewrite Hflag. simpl. repeat split.
Qed.

Lemma request_started_witness :
  let w := run initialWorld [Call nodeA; Resume 0%nat] in
  recursiveSyncRunning (flags w) = false
  /\ entering (loop w) = []
  /\ serviceOrder (request nodeB w) = [nodeA; nodeB].
Proof.
  split; [reflexivity|]. split; [reflexivity|].
  exact (proj1 (request_started (run initialWorld [Call nodeA; Resume 0%nat])
                  nodeB eq_refl eq_refl)).
Defined.



(** With the flag clear and one download running, the queue is served from
    its end: each download that resolves takes the last entry off and that
    entry is started next. *)
Lemma serve_last_first summary q : forall w a,
  recursiveSyncRunning (flags w) = false ->
  entering (loop w) = [] ->
  inflight (loop w) = [a] ->
  recursiveSyncQueue (service w) = q ->
  let w' :=
    run w (Settle (handle a) (Resolved (summary (syncObject a)))
             :: serve summary (rev q)) in
  started (loop w') = started (loop w) ++ map syncObject (rev q)
  /\ recursiveSyncQueue (service w') = []
  /\ inflight (loop w') = []
  /\ entering (loop w') = []
  /\ flags w' = flags w.
Proof.
  induction q as [|e q IH] using rev_ind; intros w a Hflag Hent Hin Hq.
  - simpl. unfold settleDownload. rewrite Hin, take_single.
    unfold serveNext. simpl. rewrite Hq. simpl. rewrite app_nil_r.
    repeat split; assumption.
  - rewrite rev_app_distr. simpl rev. simpl app.
    unfold serve. simpl flat_map. fold (serve summary (rev q)).
    rewrite run_cons, run_cons.
    set (w1 := step (step w (Settle (handle a) (Resolved (summary (syncObject a)))))
                 (Resume (handle e))).
    assert (H1 : recursiveSyncRunning (flags w1) = false
                 /\ entering (loop w1) = []
                 /\ inflight (loop w1) = [e]
                 /\ recursiveSyncQueue (service w1) = q
                 /\ started (loop w1) = started (loop w) ++ [syncObject e]
                 /\ flags w1 = flags w).
    { subst w1. simpl. unfold settleDownload. rewrite Hin, take_single.
      unfold serveNext. simpl. rewrite Hq, pop_snoc.
      unfold resumeRecursive, enterRecursive. simpl. rewrite Hent. simpl.
      rewrite Nat.eqb_refl. unfold flags in *. simpl. rewrite Hflag. simpl.
      destruct e as [o h]. repeat split. assumption. }
    destruct H1 as (Hflag1 & Hent1 & Hin1 & Hq1 & Hs1 & Hf1).
    destruct (IH w1 e Hflag1 Hent1 Hin1 Hq1) as (Hs & Hq' & Hi & He & Hf).
    rewrite Hs, Hq', Hi, He, Hf, Hs1, Hf1.
    rewrite <- app_assoc. simpl. repeat split.
Qed.

(** The two session events are the writes of the ledger. *)
Lemma session_events env w :
  flags (snd (syncStarted env w)) = flags (step w SessionBegin)
  /\ flags (snd (syncEnded env w)) = flags (step w SessionEnd).
Proof.
  split.
  - destruct (syncStarted env w) as [r w'] eqn:E.
    apply syncStarted_post in E. apply E.
  - destruct (syncEnded env w) as [r w'] eqn:E.
    apply syncEnded_post in E. apply E.
Qed.




(** The same as one run: B and C arrive during a session opened over the
    running sync of A, the session ends, and the downloads resolve. *)
Example service_order_A_C_B :
  serviceOrder
    (run initialWorld
       [Call nodeA; Resume 0%nat; SessionBegin;
        Call nodeB; Resume 1%nat; Call nodeC; Resume 2%nat; SessionEnd;
        Settle 0%nat (Resolved (noFiles nodeA));
        Resume 2%nat; Settle 2%nat (Resolved (noFiles nodeC));
        Resume 1%nat; Settle 1%nat (Resolved (noFiles nodeB))])
  = [nodeA; nodeC; nodeB].
Proof. reflexivity. Qed.

(** C4, as the claim states it, fails: when the running sync fails, nothing
    is taken off the stack.  B waits behind the sync of A; the download of A
    is rejected; B is still on the stack, it is not started, and nothing is
    running that would ever start it. *)
Lemma failed_sync_leaves_requests_pending :
  let w := run initialWorld
             [Call nodeA; Resume 0%nat; SessionBegin; Call nodeB; Resume 1%nat;
              SessionEnd; Settle 0%nat (Rejected TransportError)] in
  pendingObjects w = [nodeB]
  /\ serviceOrder w = [nodeA]
  /\ entering (loop w) = []
  /\ inflight (loop w) = []
  /\ settled (loop w) = [(0%nat, Rejected TransportError)].
Proof. vm_compute. repeat split. Qed.

(** C4, amended. When a running subtree sync completes successfully, the
    coordinator takes the top of the stack of pending requests (if there is
    one) and submits that request again; its subtree download starts at
    once when the flag [recursiveSyncRunning] is clear, and the request
    goes back on the stack when the flag is set.  When the running sync
    fails, the failure is passed on to its caller and the stack is left as
    it is: no pending request is started. *)
Theorem completed_sync_serves_next_only_on_success :
  forall w h a rest,
    take h (inflight (loop w)) = Some (a, rest) ->
    (forall summary sync q,
       pop (recursiveSyncQueue (service w)) = Some (sync, q) ->
       let w' := settleDownload h (Resolved summary) w in
       recursiveSyncQueue (service w') = q
       /\ entering (loop w') = entering (loop w) ++ [sync]
       /\ inflight (loop w') = rest
       /\ settled (loop w') = settled (loop w) ++ [(h, Resolved summary)]
       /\ (entering (loop w) = [] ->
           recursiveSyncRunning (flags w) = false ->
           serviceOrder (resumeRecursive (handle sync) w')
             = serviceOrder w ++ [syncObject sync]
           /\ inflight (loop (resumeRecursive (handle sync) w')) = rest ++ [sync])
       /\ (entering (loop w) = [] ->
           recursiveSyncRunning (flags w) = true ->
           serviceOrder (resumeRecursive (handle sync) w') = serviceOrder w
           /\ recursiveSyncQueue (service (resumeRecursive (handle sync) w'))
              = q ++ [sync]))
    /\ (forall error,
          let w' := settleDownload h (Rejected error) w in
          recursiveSyncQueue (service w') = recursiveSyncQueue (service w)
          /\ entering (loop w') = entering (loop w)
          /\ serviceOrder w' = serviceOrder w
          /\ inflight (loop w') = rest
          /\ settled (loop w') = settled (loop w) ++ [(h, Rejected error)]).
Proof.
  intros w h a rest Htake. split.
  - intros summary [o k] q Hpop w'. subst w'.
    unfold settleDownload, serveNext. rewrite Htake. simpl. rewrite Hpop.
    simpl. repeat split.
    + unfold resumeRecursive. simpl. rewrite H. simpl. rewrite Nat.eqb_refl.
      unfold flags in *. simpl. rewrite H0. reflexivity.
    + unfold resumeRecursive. simpl. rewrite H. simpl. rewrite Nat.eqb_refl.
      unfold flags in *. simpl. rewrite H0. reflexivity.
    + unfold resumeRecursive. simpl. rewrite H. simpl. rewrite Nat.eqb_refl.
      unfold flags in *. simpl. rewrite H0. reflexivity.
    + unfold resumeRecursive. simpl. rewrite H. simpl. rewrite Nat.eqb_refl.
      unfold flags in *. simpl. rewrite H0. reflexivity.
  - intros error w'. subst w'. unfold settleDownload. rewrite Htake.
    repeat split.
Qed.

Lemma completed_sync_serves_next_only_on_success_witness :
  let a := {| syncObject := nodeA; handle := 0%nat |} in
  let b := {| syncObject := nodeB; handle := 1%nat |} in
  take 0%nat (inflight (loop waitingBehindA)) = Some (a, [])
  /\ pop (recursiveSyncQueue (service waitingBehindA)) = Some (b, [])
  /\ (let w' := settleDownload 0%nat (Resolved (noFiles nodeA)) waitingBehindA in
      recursiveSyncQueue (service w') = []
      /\ entering (loop w') = entering (loop waitingBehindA) ++ [b])
  /\ (let w' := settleDownload 0%nat (Rejected TransportError) waitingBehindA in
      recursiveSyncQueue (service w') = recursiveSyncQueue (service waitingBehindA)
      /\ entering (loop w') = entering (loop waitingBehindA)
      /\ serviceOrder w' = serviceOrder waitingBehindA).
Proof.
  split; [reflexivity|]. split; [reflexivity|].
  pose proof (completed_sync_serves_next_only_on_success waitingBehindA 0%nat
                {| syncObject := nodeA; handle := 0%nat |} [] eq_refl)
    as [Hsuccess Hfailure].
  split.
  - destruct (Hsuccess (noFiles nodeA) {| syncObject := nodeB; handle := 1%nat |}
                [] eq_refl) as (Hq & He & _).
    split; assumption.
  - destruct (Hfailure TransportError) as (Hq & He & Hs & _).
    repeat split; assumption.
Defined.

(** * Further properties *)

(** ** More on the partition of the files *)

Lemma Split4_Forall {A} (P : A -> Prop) l (a b c d : list A) :
  Split4 l a b c d -> Forall P l ->
  Forall P a /\ Forall P b /\ Forall P c /\ Forall P d.
Proof.
  induction 1; intros Hl.
  - repeat split; constructor.
  - inversion Hl; subst. destruct (IHSplit4 H3) as (Ha & Hb & Hc & Hd).
    repeat split; try assumption. constructor; assumption.
  - inversion Hl; subst. destruct (IHSplit4 H3) as (Ha & Hb & Hc & Hd).
    repeat split; try assumption. constructor; assumption.
  - inversion Hl; subst. destruct (IHSplit4 H3) as (Ha & Hb & Hc & Hd).
    repeat split; try assumption. constructor; assumption.
  - inversion Hl; subst. destruct (IHSplit4 H3) as (Ha & Hb & Hc & Hd).
    repeat split; try assumption. constructor; assumption.
Qed.

(** An invariant of the body of the loop is an invariant of the loop. *)
Lemma sortFiles_invariant settings (Inv : list ILIASObject -> Sorting -> Prop) :
  (forall processed acc o,
     Inv processed acc -> Inv (processed ++ [o]) (sortFile settings acc o)) ->
  forall space, Inv [] (emptySorting space) ->
  forall fileObjects, Inv fileObjects (sortFiles settings space fileObjects).
Proof.
  intros Hstep space Hinit fileObjects. unfold sortFiles.
  assert (H : forall l processed acc,
             Inv processed acc ->
             Inv (processed ++ l) (fold_left (sortFile settings) l acc)).
  { induction l as [|o l IH]; intros processed acc Hacc; simpl.
    - rewrite app_nil_r. exact Hacc.
    - replace (processed ++ o :: l) with ((processed ++ [o]) ++ l)
        by (rewrite <- app_assoc; reflexivity).
      apply IH, Hstep, Hacc. }
  apply (H fileObjects [] (emptySorting space) Hinit).
Qed.

(** The four arrays by the flag [needsDownload] of the files seen. *)
Lemma sortFiles_needs settings space fileObjects :
  let sorted := sortFiles settings space fileObjects in
  filesAlreadySynced sorted = filter (fun o => negb (needsDownload o)) fileObjects
  /\ Forall (fun o => needsDownload o = true) (downloads sorted)
  /\ Forall (fun e => needsDownload (object e) = true) (filesTooBig sorted)
  /\ Forall (fun e => needsDownload (object e) = true) (noMoreSpace sorted).
Proof.
  apply (sortFiles_invariant settings
           (fun processed acc =>
              filesAlreadySynced acc
                = filter (fun o => negb (needsDownload o)) processed
              /\ Forall (fun o => needsDownload o = true) (downloads acc)
              /\ Forall (fun e => needsDownload (object e) = true) (filesTooBig acc)
              /\ Forall (fun e => needsDownload (object e) = true) (noMoreSpace acc))).
  - intros processed acc o (Hs & Hd & Hb & Hn).
    rewrite filter_app. simpl. unfold sortFile, pushNoMoreSpace.
    destruct (needsDownload o) eqn:Hneeds; simpl.
    + destruct (Js.parseInt (fileSize (data o))) as [n|];
        [destruct (_ <=? availableSpace settings);
         [destruct (n <=? downloadLimit settings)|]|];
        simpl; rewrite ?app_nil_r; repeat split; try assumption;
        apply Forall_app; split; try assumption; repeat constructor;
        exact Hneeds.
    + rewrite Hs. repeat split; assumption.
  - simpl. repeat split; constructor.
Qed.

(** X6. Only file-type nodes that still need their download are scheduled
    or left out, and the already-synced group is exactly the file-type nodes
    whose download is not needed, in input order: a file that is already
    synced is never downloaded again. *)
Theorem partition_by_needsDownload :
  forall settings space download iliasObjects,
    let results := partitionFiles settings space download iliasObjects in
    alreadySynced results =
      filter (fun o => negb (needsDownload o)) (filter isFile iliasObjects)
    /\ Forall (fun o => isFile o = true /\ needsDownload o = true)
         (scheduled results)
    /\ Forall (fun o => isFile o = true /\ needsDownload o = true)
         (tooLarge results ++ quotaExceeded results).
Proof.
  intros settings space download iliasObjects results.
  set (files := filter isFile iliasObjects).
  destruct (sortFiles_needs settings space files) as (Hs & Hd & Hb & Hn).
  destruct (leftOut_groups settings space download iliasObjects) as [Hgb Hgn].
  fold results files in Hgb, Hgn.
  destruct (Sorted_sortFiles settings space files) as [Hsplit _ _ _ _ _].
  assert (Hfiles : Forall (fun o => isFile o = true) files).
  { apply Forall_forall. intros o Hin. apply filter_In in Hin. apply Hin. }
  destruct (Split4_Forall _ _ _ _ _ _ Hsplit Hfiles) as (Fa & _ & Fc & Fd).
  split; [exact Hs|]. split.
  - apply Forall_forall. intros o Hin. split.
    + exact (proj1 (Forall_forall _ _) Fa o Hin).
    + exact (proj1 (Forall_forall _ _) Hd o Hin).
  - rewrite Hgb, Hgn. apply Forall_app. split.
    + apply Forall_forall. intros o Hin. split.
      * exact (proj1 (Forall_forall _ _) Fc o Hin).
      * apply in_map_iff in Hin. destruct Hin as (e & <- & Hin).
        exact (proj1 (Forall_forall _ _) Hb e Hin).
    + apply Forall_forall. intros o Hin. split.
      * exact (proj1 (Forall_forall _ _) Fd o Hin).
      * apply in_map_iff in Hin. destruct Hin as (e & <- & Hin).
        exact (proj1 (Forall_forall _ _) Hn e Hin).
Qed.

Lemma sortFiles_exhausted settings space fileObjects :
  availableSpace settings < space ->
  Forall (fun o => 0 <= sizeOf o) fileObjects ->
  let sorted := sortFiles settings space fileObjects in
  downloads sorted = []
  /\ filesTooBig sorted = []
  /\ map object (noMoreSpace sorted) = filter needsDownload fileObjects
  /\ currentlyUsedSpace sorted = space.
Proof.
  intros Hfull.
  apply (sortFiles_invariant settings
           (fun processed acc =>
              Forall (fun o => 0 <= sizeOf o) processed ->
              downloads acc = []
              /\ filesTooBig acc = []
              /\ map object (noMoreSpace acc) = filter needsDownload processed
              /\ currentlyUsedSpace acc = space)).
  - intros processed acc o IH Hall. apply Forall_app in Hall.
    destruct Hall as [Hp Ho]. inversion Ho as [|? ? Hsize _]; subst.
    destruct (IH Hp) as (Hd & Hb & Hn & Hu).
    rewrite filter_app. simpl. unfold sortFile, pushNoMoreSpace, sizeOf in *.
    destruct (needsDownload o); simpl.
    + destruct (Js.parseInt (fileSize (data o))) as [n|].
      * destruct (Z.leb_spec (currentlyUsedSpace acc + n) (availableSpace settings));
          [lia|].
        simpl. rewrite map_app, Hn. repeat split; assumption.
      * simpl. rewrite map_app, Hn. repeat split; assumption.
    + rewrite app_nil_r. repeat split; assumption.
  - intros _. repeat split.
Qed.

(** X7. When the used disk space already exceeds the quota and no file has
    a negative size, nothing is scheduled and nothing is reported too large:
    every file that needs its download is reported quota-exceeded. *)
Theorem partition_quota_exhausted :
  forall settings space download iliasObjects,
    availableSpace settings < space ->
    Forall (fun o => 0 <= sizeOf o) iliasObjects ->
    let results := partitionFiles settings space download iliasObjects in
    scheduled results = []
    /\ tooLarge results = []
    /\ quotaExceeded results = filter needsDownload (filter isFile iliasObjects)
    /\ fileDownloads results = [].
Proof.
  intros settings space download iliasObjects Hfull Hsizes results.
  assert (Hfiles : Forall (fun o => 0 <= sizeOf o) (filter isFile iliasObjects)).
  { apply Forall_forall. intros o Hin. apply filter_In in Hin.
    exact (proj1 (Forall_forall _ _) Hsizes o (proj1 Hin)). }
  destruct (sortFiles_exhausted settings space _ Hfull Hfiles) as (Hd & Hb & Hn & _).
  destruct (leftOut_groups settings space download iliasObjects) as [Hgb Hgn].
  fold results in Hgb, Hgn. rewrite Hgb, Hgn, Hb, Hn.
  unfold results, scheduled, partitionFiles. simpl. rewrite Hd.
  repeat split.
Qed.

Lemma partition_quota_exhausted_witness :
  let objs := [sampleFile 1 "10"; sampleFolder 9 "course"; sampleFile 2 "20"] in
  let results := partitionFiles tightSettings 200000000 allDownloadsSucceed objs in
  availableSpace tightSettings < 200000000
  /\ Forall (fun o => 0 <= sizeOf o) objs
  /\ scheduled results = []
  /\ quotaExceeded results = [sampleFile 1 "10"; sampleFile 2 "20"].
Proof.
  assert (Hfull : availableSpace tightSettings < 200000000) by reflexivity.
  assert (Hsizes : Forall (fun o => 0 <= sizeOf o)
                     [sampleFile 1 "10"; sampleFolder 9 "course"; sampleFile 2 "20"])
    by (repeat constructor; discriminate).
  split; [exact Hfull|]. split; [exact Hsizes|].
  destruct (partition_quota_exhausted tightSettings 200000000 allDownloadsSucceed
              _ Hfull Hsizes) as (Hs & _ & Hq & _).
  split; [exact Hs | exact Hq].
Defined.




(** ** More on the session ledger *)

Lemma existsb_filter_length {A} (f : A -> bool) (l : list A) :
  (0 <? List.length (filter f l))%nat = existsb f l.
Proof.
  induction l as [|x l IH]; simpl; [reflexivity|].
  destruct (f x); simpl; [reflexivity | exact IH].
Qed.

Lemma unfinished_closeRow today u t :
  unfinished u (map (closeRow today u) t) = false.
Proof.
  unfold unfinished. induction t as [|r t IH]; simpl; [reflexivity|].
  rewrite IH, orb_false_r. unfold closeRow.
  destruct ((userId r =? u) && rowRunning r) eqn:E; simpl; [reflexivity|].
  destruct (rowRunning r), (userId r =? u); simpl in *; congruence.
Qed.

Lemma unfinished_closeRow_other today u v t :
  unfinished u t = false -> unfinished u (map (closeRow today v) t) = false.
Proof.
  unfold unfinished. induction t as [|r t IH]; simpl; [reflexivity|].
  intros H. apply orb_false_iff in H. destruct H as [Hr Ht].
  rewrite (IH Ht), orb_false_r. unfold closeRow.
  destruct ((userId r =? v) && rowRunning r); [reflexivity | exact Hr].
Qed.

Section AnsweringStorage.

Variable env : Env.
Hypothesis storage_opens : databaseAvailable env = true.
Hypothesis storage_answers : forall n, queryFails env n = false.

Lemma hasUnfinishedSync_answer u w :
  hasUnfinishedSync env (Some u) w =
    (Resolved (unfinished (id u) (synchronization (outside w))),
     onOutside (setTable (synchronization (outside w)))
       (onOutside (logStatement (SelectRunning (id u))) w)).
Proof.
  unfold hasUnfinishedSync, bind, dbInstance, dbQuery, ret.
  rewrite storage_opens, storage_answers. simpl.
  rewrite existsb_filter_length. reflexivity.
Qed.

Lemma syncStarted_answer u w :
  user (service w) = Some u ->
  let w' := snd (syncStarted env w) in
  fst (syncStarted env w) = Resolved tt
  /\ synchronization (outside w') =
       synchronization (outside w)
       ++ [{| userId := id u; startDate := sqlNow env; endDate := None;
              rowRunning := true |}]
  /\ statements (outside w') =
       statements (outside w) ++ [InsertSynchronization (id u)]
  /\ service w' = withState (setRecursiveSyncRunning true) (service w).
Proof.
  intros Hu. unfold syncStarted, bind, dbInstance, thisUserId, dbQuery, ret.
  rewrite storage_opens. simpl. rewrite Hu. simpl.
  rewrite storage_answers. simpl. repeat split.
Qed.

Lemma syncEnded_answer u w :
  user (service w) = Some u ->
  let w' := snd (syncEnded env w) in
  let closed := map (closeRow (sqlNow env) (id u)) (synchronization (outside w)) in
  fst (syncEnded env w) =
    Resolved (match latestEnd (endedSessions (id u) closed) with
              | [] => None
              | row :: _ => Some (dateOfRow row)
              end)
  /\ synchronization (outside w') = closed
  /\ statements (outside w') =
       statements (outside w)
       ++ [UpdateSynchronization (id u); SelectLastEndDate (id u)]
  /\ user (service w') = Some u
  /\ state (service w') = setRecursiveSyncRunning false (state (service w)).
Proof.
  intros Hu.
  unfold syncEnded, updateLastSync, bind, effect, dbInstance, thisUserId,
    dbQuery, ret.
  rewrite storage_opens. simpl.
  repeat (first [rewrite Hu | rewrite storage_answers]; simpl).
  fold (endedSessions (id u)
          (map (closeRow (sqlNow env) (id u)) (synchronization (outside w)))).
  destruct (latestEnd _) as [|row rest]; simpl; rewrite <- ?app_assoc;
    repeat split; assumption.
Qed.

End AnsweringStorage.

Lemma dateLtb_spec a b :
  dateLtb a b = true <->
  (getFullYear a < getFullYear b
   \/ (getFullYear a = getFullYear b
       /\ (getMonth a < getMonth b
           \/ (getMonth a = getMonth b /\ getDate a < getDate b)))).
Proof.
  unfold dateLtb.
  rewrite orb_true_iff, andb_true_iff, orb_true_iff, andb_true_iff.
  rewrite !Z.ltb_lt, !Z.eqb_eq. reflexivity.
Qed.

Lemma dateLtb_false_spec a b :
  dateLtb a b = false <->
  (getFullYear b < getFullYear a
   \/ (getFullYear b = getFullYear a
       /\ (getMonth b < getMonth a
           \/ (getMonth b = getMonth a /\ getDate b <= getDate a)))).
Proof.
  rewrite <- not_true_iff_false, dateLtb_spec. lia.
Qed.

(** [latestEnd] keeps a row of the list that no row of the list is later
    than. *)
Lemma latestEnd_latest rows :
  match latestEnd rows with
  | [] => rows = []
  | best :: rest =>
      rest = [] /\ In best rows
      /\ forall r, In r rows -> dateLtb (dateOfRow best) (dateOfRow r) = false
  end.
Proof.
  induction rows as [|r rows IH]; simpl; [reflexivity|].
  destruct (latestEnd rows) as [|b rest].
  - subst rows. split; [reflexivity|]. split; [left; reflexivity|].
    intros x [<-|[]]. apply dateLtb_false_spec. lia.
  - destruct IH as (-> & Hin & Hmax).
    destruct (dateLtb (dateOfRow r) (dateOfRow b)) eqn:E.
    + split; [reflexivity|]. split; [right; exact Hin|].
      intros x [<-|Hx]; [|exact (Hmax x Hx)].
      apply dateLtb_spec in E. apply dateLtb_false_spec. lia.
    + split; [reflexivity|]. split; [left; reflexivity|].
      intros x [<-|Hx].
      * apply dateLtb_false_spec. lia.
      * specialize (Hmax x Hx).
        apply dateLtb_false_spec in E, Hmax. apply dateLtb_false_spec. lia.
Qed.

(** X9. With a storage that answers, [updateLastSync] leaves the table as
    it is.  For a user without a session that has ended it resolves with
    [null] and keeps the last sync and its label; otherwise it resolves
    with the end date of a session of that user than which no session of
    the user has ended later, and stores that date and its label. *)
Theorem updateLastSync_latest :
  forall env u w,
    databaseAvailable env = true ->
    queryFails env (List.length (statements (outside w))) = false ->
    let w' := snd (updateLastSync env u w) in
    let ended := endedSessions u (synchronization (outside w)) in
    synchronization (outside w') = synchronization (outside w)
    /\ (ended = [] ->
        fst (updateLastSync env u w) = Resolved None
        /\ lastSync (service w') = lastSync (service w)
        /\ lastSyncString (service w') = lastSyncString (service w))
    /\ (ended <> [] ->
        exists row,
          In row ended
          /\ (forall r, In r ended ->
                dateLtb (dateOfRow row) (dateOfRow r) = false)
          /\ fst (updateLastSync env u w) = Resolved (Some (dateOfRow row))
          /\ lastSync (service w') = Some (dateOfRow row)
          /\ lastSyncString (service w') =
               Some (lastSyncLabel (translate env) (now env) (dateOfRow row))).
Proof.
  intros env u w Hdb Hq w' ended. subst w'.
  unfold updateLastSync, bind, effect, dbInstance, dbQuery, ret.
  rewrite Hdb, Hq. simpl. fold (endedSessions u (synchronization (outside w))).
  fold ended. pose proof (latestEnd_latest ended) as Hlatest.
  destruct (latestEnd ended) as [|row rest]; simpl.
  - split; [reflexivity|]. split; [intros _; repeat split|].
    intros Hne. contradiction.
  - destruct Hlatest as (_ & Hin & Hmax).
    split; [reflexivity|]. split.
    + intros He. rewrite He in Hin. destruct Hin.
    + intros _. exists row. repeat split; assumption.
Qed.

Lemma updateLastSync_latest_witness :
  let env := sampleEnv (day 2024 5 10) in
  let w := worldWithSession (day 2024 4 1) in
  databaseAvailable env = true
  /\ queryFails env (List.length (statements (outside w))) = false
  /\ endedSessions 7 (synchronization (outside w)) <> []
  /\ exists row,
       fst (updateLastSync env 7 w) = Resolved (Some (dateOfRow row))
       /\ lastSync (service (snd (updateLastSync env 7 w))) = Some (dateOfRow row).
Proof.
  assert (Hne : endedSessions 7
                  (synchronization (outside (worldWithSession (day 2024 4 1))))
                <> []) by discriminate.
  split; [reflexivity|]. split; [reflexivity|]. split; [exact Hne|].
  destruct (proj2 (proj2 (updateLastSync_latest (sampleEnv (day 2024 5 10)) 7
                            (worldWithSession (day 2024 4 1)) eq_refl eq_refl))
              Hne) as (row & _ & _ & Hr & Hl & _).
  exists row. split; assumption.
Defined.

Lemma unfinished_app u t t' :
  unfinished u (t ++ t') = unfinished u t || unfinished u t'.
Proof. unfold unfinished. apply existsb_app. Qed.

(** X10. With a storage that answers and a user loaded, the session pair
    is a round trip of the ledger: after the begin the flag is set and the
    user has an unfinished sync; the end resolves with an end date that is
    not before the date of the storage, clears the flag, and leaves the
    user without an unfinished sync. *)
Theorem session_round_trip :
  forall env w u,
    databaseAvailable env = true ->
    (forall n, queryFails env n = false) ->
    user (service w) = Some u ->
    let w1 := snd (syncStarted env w) in
    let w2 := snd (syncEnded env w1) in
    fst (syncStarted env w) = Resolved tt
    /\ recursiveSyncRunning (flags w1) = true
    /\ fst (hasUnfinishedSync env (Some u) w1) = Resolved true
    /\ (exists d, fst (syncEnded env w1) = Resolved (Some d)
                  /\ dateLtb d (sqlNow env) = false)
    /\ recursiveSyncRunning (flags w2) = false
    /\ fst (hasUnfinishedSync env (Some u) w2) = Resolved false.
Proof.
  intros env w u Hdb Hq Hu w1 w2.
  destruct (syncStarted_answer env Hdb Hq u w Hu) as (Hr & Ht & _ & Hs).
  fold w1 in Ht, Hs.
  assert (Hu1 : user (service w1) = Some u) by (rewrite Hs; exact Hu).
  destruct (syncEnded_answer env Hdb Hq u w1 Hu1) as (Hr2 & Ht2 & _ & _ & Hf2).
  fold w2 in Ht2, Hf2.
  split; [exact Hr|]. split; [unfold flags; rewrite Hs; reflexivity|].
  split.
  { rewrite (hasUnfinishedSync_answer env Hdb Hq). simpl.
    rewrite Ht, unfinished_app. unfold unfinished at 2. simpl.
    rewrite Z.eqb_refl. rewrite orb_true_r. reflexivity. }
  split.
  { rewrite Hr2.
    set (closed := map (closeRow (sqlNow env) (id u)) (synchronization (outside w1))).
    pose proof (latestEnd_latest (endedSessions (id u) closed)) as Hlatest.
    assert (Hin : In {| userId := id u; startDate := sqlNow env;
                        endDate := Some (sqlNow env); rowRunning := false |}
                     (endedSessions (id u) closed)).
    { unfold endedSessions. apply filter_In. split.
      - unfold closed. rewrite Ht, map_app. apply in_or_app. right.
        simpl. unfold closeRow. simpl. rewrite Z.eqb_refl. left. reflexivity.
      - simpl. rewrite Z.eqb_refl. reflexivity. }
    destruct (latestEnd (endedSessions (id u) closed)) as [|row rest].
    - rewrite Hlatest in Hin. destruct Hin.
    - destruct Hlatest as (_ & _ & Hmax). exists (dateOfRow row).
      split; [reflexivity|]. exact (Hmax _ Hin). }
  split; [unfold flags; rewrite Hf2; reflexivity|].
  rewrite (hasUnfinishedSync_answer env Hdb Hq). simpl.
  rewrite Ht2. rewrite unfinished_closeRow. reflexivity.
Qed.

Lemma session_round_trip_witness :
  let env := sampleEnv (day 2024 5 10) in
  let w := onService (setUser (Some {| id := 7 |})) initialWorld in
  databaseAvailable env = true
  /\ (forall n, queryFails env n = false)
  /\ user (service w) = Some {| id := 7 |}
  /\ fst (hasUnfinishedSync env (Some {| id := 7 |}) (snd (syncStarted env w)))
     = Resolved true
  /\ fst (hasUnfinishedSync env (Some {| id := 7 |})
            (snd (syncEnded env (snd (syncStarted env w))))) = Resolved false.
Proof.
  assert (Hq : forall n, queryFails (sampleEnv (day 2024 5 10)) n = false)
    by (intros n; reflexivity).
  split; [reflexivity|]. split; [exact Hq|]. split; [reflexivity|].
  destruct (session_round_trip (sampleEnv (day 2024 5 10))
              (onService (setUser (Some {| id := 7 |})) initialWorld)
              {| id := 7 |} eq_refl Hq eq_refl)
    as (_ & _ & Hbegin & _ & _ & Hend).
  split; assumption.
Defined.

Section ShallowLoadSessions.

Variable env : Env.
Hypothesis storage_opens : databaseAvailable env = true.
Hypothesis storage_answers : forall n, queryFails env n = false.

Lemma syncEnded_closes u w r w' :
  user (service w) = Some u ->
  syncEnded env w = (r, w') ->
  unfinished (id u) (synchronization (outside w')) = false
  /\ user (service w') = Some u
  /\ exists d, r = Resolved d.
Proof.
  intros Hu E.
  destruct (syncEnded_answer env storage_opens storage_answers u w Hu)
    as (Hr & Ht & _ & Hu' & _).
  rewrite E in Hr, Ht, Hu'. simpl in Hr, Ht, Hu'.
  rewrite Ht, unfinished_closeRow. repeat split; [exact Hu'|].
  rewrite Hr. eexists. reflexivity.
Qed.

Lemma executeLiveLoad_closes u parent w r w' :
  user (service w) = Some u ->
  executeLiveLoad env parent w = (r, w') ->
  unfinished (id u) (synchronization (outside w')) = false
  /\ user (service w') = Some u.
Proof.
  intros Hu. unfold executeLiveLoad.
  set (iliasObjects := match parent with
                       | Some p => getObjectData env p false
                       | None => getDesktopData env
                       end).
  destruct (syncEnded env w) as [ended w1] eqn:E1.
  destruct (syncEnded_closes u w ended w1 Hu E1) as (Hc1 & Hu1 & _).
  unfold bind, settle.
  destruct iliasObjects as [objs|e|].
  - destruct (syncEnded env w1) as [ended2 w2] eqn:E2.
    destruct (syncEnded_closes u w1 ended2 w2 Hu1 E2) as (Hc2 & Hu2 & (d & ->)).
    destruct ended; intros H; inversion H; subst; split; assumption.
  - destruct ended; intros H; inversion H; subst; split; assumption.
  - destruct ended; intros H; inversion H; subst; split; assumption.
Qed.

(** X11. With a storage that answers, a shallow load never leaves an
    unfinished sync behind: once the current user is loaded, the session
    that the load has begun is closed in the storage whether the load
    succeeds, fails or never gets its data. *)
Theorem liveLoad_closes_its_session :
  forall u iliasObject w,
    currentUser env = Resolved u ->
    fst (hasUnfinishedSync env (Some u) (snd (liveLoad env iliasObject w)))
      = Resolved false.
Proof.
  intros u iliasObject w Hcur.
  rewrite (hasUnfinishedSync_answer env storage_opens storage_answers). simpl.
  f_equal. rewrite liveLoad_unfold, Hcur.
  set (w0 := onService (setUser (Some u))
               (onService (withState (setLiveLoading true)) w)).
  assert (Hu0 : user (service w0) = Some u) by reflexivity.
  unfold bind at 1.
  destruct (syncStarted_answer env storage_opens storage_answers u w0 Hu0)
    as (Hr & _ & _ & Hs).
  destruct (syncStarted env w0) as [started w1]. simpl in Hr, Hs. subst started.
  assert (Hu1 : user (service w1) = Some u) by (rewrite Hs; exact Hu0).
  destruct (executeLiveLoad env iliasObject w1) as [[objs|error|] w2] eqn:E;
    destruct (executeLiveLoad_closes u iliasObject w1 _ w2 Hu1 E) as (Hc & Hu2).
  - exact Hc.
  - destruct (syncEnded env w2) as [ended w3] eqn:E3.
    destruct (syncEnded_closes u w2 ended w3 Hu2 E3) as (Hc3 & _ & (d & ->)).
    exact Hc3.
  - exact Hc.
Qed.

End ShallowLoadSessions.

Lemma liveLoad_closes_its_session_witness :
  let env := offlineEnv (day 2024 5 10) in
  databaseAvailable env = true
  /\ (forall n, queryFails env n = false)
  /\ currentUser env = Resolved {| id := 7 |}
  /\ fst (liveLoad env None initialWorld) = Rejected TransportError
  /\ fst (hasUnfinishedSync env (Some {| id := 7 |})
            (snd (liveLoad env None initialWorld))) = Resolved false.
Proof.
  assert (Hq : forall n, queryFails (offlineEnv (day 2024 5 10)) n = false)
    by (intros n; reflexivity).
  split; [reflexivity|]. split; [exact Hq|]. split; [reflexivity|].
  split; [reflexivity|].
  exact (liveLoad_closes_its_session (offlineEnv (day 2024 5 10)) eq_refl Hq
           {| id := 7 |} None initialWorld eq_refl).
Defined.

(** ** More on the shallow load *)

(** X12. A shallow load that cannot load the current user is rejected with
    the error of the lookup and begins no session: apart from [liveLoading],
    which stays set, the world is left as it was.  A shallow load whose
    storage cannot be opened never settles: the user is loaded,
    [liveLoading] and [recursiveSyncRunning] stay set, nothing is sent to
    the storage and nothing is published. *)
Theorem liveLoad_without_user_or_storage :
  forall env iliasObject w,
    (forall e, currentUser env = Rejected e ->
       liveLoad env iliasObject w =
         (Rejected e, onService (withState (setLiveLoading true)) w))
    /\ (forall u, currentUser env = Resolved u ->
          databaseAvailable env = false ->
          liveLoad env iliasObject w =
            (Pending,
             onService (withState (setRecursiveSyncRunning true))
               (loadedWorld u w))).
Proof.
  intros env iliasObject w. split.
  - intros e He. rewrite liveLoad_unfold, He. reflexivity.
  - intros u Hu Hdb. rewrite liveLoad_unfold, Hu.
    unfold bind, syncStarted, bind, dbInstance. rewrite Hdb. reflexivity.
Qed.

Lemma liveLoad_without_user_or_storage_witness :
  let env := withStorage false (fun _ => false) (sampleEnv (day 2024 5 10)) in
  currentUser env = Resolved {| id := 7 |}
  /\ databaseAvailable env = false
  /\ fst (liveLoad env None initialWorld) = Pending
  /\ flags (snd (liveLoad env None initialWorld)) =
       {| liveLoading := true; loadingOfflineContent := false;
          recursiveSyncRunning := true |}
  /\ statements (outside (snd (liveLoad env None initialWorld))) = []
  /\ fst (liveLoad (withCurrentUser (Rejected TransportError) env) None
            initialWorld) = Rejected TransportError.
Proof.
  split; [reflexivity|]. split; [reflexivity|].
  pose proof (liveLoad_without_user_or_storage
                (withStorage false (fun _ => false) (sampleEnv (day 2024 5 10)))
                None initialWorld) as [_ Hstorage].
  rewrite (Hstorage {| id := 7 |} eq_refl eq_refl).
  repeat split.
Defined.

Section ShallowLoadResult.

Variable env : Env.
Hypothesis storage_opens : databaseAvailable env = true.
Hypothesis storage_answers : forall n, queryFails env n = false.




End ShallowLoadResult.


(** X14. When the storage refuses the insert of the session, [syncStarted]
    is rejected with [undefined]: the error of the storage is not passed
    on.  The flag [recursiveSyncRunning] is left set and the table is left
    as it was. *)
Theorem syncStarted_insert_refused :
  forall env w u,
    databaseAvailable env = true ->
    user (service w) = Some u ->
    queryFails env (List.length (statements (outside w))) = true ->
    let w' := snd (syncStarted env w) in
    fst (syncStarted env w) = Rejected Undefined
    /\ recursiveSyncRunning (flags w') = true
    /\ synchronization (outside w') = synchronization (outside w)
    /\ statements (outside w') =
         statements (outside w) ++ [InsertSynchronization (id u)].
Proof.
  intros env w u Hdb Hu Hq.
  unfold syncStarted, bind, dbInstance, thisUserId, dbQuery, ret.
  rewrite Hdb. simpl. rewrite Hu. simpl. rewrite Hq. simpl. repeat split.
Qed.

Lemma syncStarted_insert_refused_witness :
  let env := withStorage true (fun n => Nat.eqb n 0) (sampleEnv (day 2024 5 10)) in
  let w := onService (setUser (Some {| id := 7 |})) initialWorld in
  databaseAvailable env = true
  /\ user (service w) = Some {| id := 7 |}
  /\ queryFails env (List.length (statements (outside w))) = true
  /\ fst (syncStarted env w) = Rejected Undefined
  /\ fst (liveLoad env None initialWorld) = Rejected Undefined
  /\ published (outside (snd (liveLoad env None initialWorld))) = ["sync:complete"].
Proof.
  split; [reflexivity|]. split; [reflexivity|]. split; [reflexivity|].
  split; [|split; reflexivity].
  exact (proj1 (syncStarted_insert_refused
                  (withStorage true (fun n => Nat.eqb n 0)
                     (sampleEnv (day 2024 5 10)))
                  (onService (setUser (Some {| id := 7 |})) initialWorld)
                  {| id := 7 |} eq_refl eq_refl eq_refl)).
Defined.

(** ** More on the coordinator *)

Lemma take_length h l e rest :
  take h l = Some (e, rest) -> List.length l = S (List.length rest).
Proof.
  revert e rest. induction l as [|x l IH]; intros e rest; simpl; [discriminate|].
  destruct (Nat.eqb (handle x) h).
  - intros H. inversion H. reflexivity.
  - destruct (take h l) as [[y r']|]; [|discriminate].
    intros H. inversion H. subst. simpl. rewrite (IH _ _ eq_refl). reflexivity.
Qed.

Lemma pop_length {A} (l : list A) x rest :
  pop l = Some (x, rest) -> List.length l = S (List.length rest).
Proof.
  unfold pop. destruct (rev l) as [|y r] eqn:E; [discriminate|].
  intros H. inversion H. subst.
  rewrite <- (length_rev l), E. simpl. rewrite length_rev. reflexivity.
Qed.

Lemma accounted_step w ev : accounted w -> accounted (step w ev).
Proof.
  unfold accounted. intros H. destruct ev as [o|h|h r| |]; simpl.
  - rewrite H, length_app. simpl. lia.
  - unfold resumeRecursive.
    destruct (take h (entering (loop w))) as [[e rest]|] eqn:E; [|exact H].
    apply take_length in E.
    destruct (recursiveSyncRunning _); simpl; rewrite ?length_app; simpl; lia.
  - unfold settleDownload.
    destruct (take h (inflight (loop w))) as [[e rest]|] eqn:E; [|exact H].
    apply take_length in E.
    destruct r as [summary|error|]; [| |exact H].
    + unfold serveNext. simpl.
      destruct (pop (recursiveSyncQueue (service w))) as [[sync q]|] eqn:P; simpl.
      * apply pop_length in P. rewrite !length_app. simpl. lia.
      * rewrite !length_app. simpl. lia.
    + simpl. rewrite !length_app. simpl. lia.
  - exact H.
  - exact H.
Qed.

(** X15. The coordinator loses no request and makes none up: after any
    sequence of calls, resumptions, completions and session events on the
    service as constructed, the number of calls made equals the number of
    calls that are suspended before the test of the flag, waiting on the
    stack, downloading, or settled. *)
Theorem requests_accounted :
  forall evs, accounted (run initialWorld evs).
Proof.
  intros evs.
  assert (H : forall w, accounted w -> accounted (run w evs)).
  { induction evs as [|ev evs IH]; intros w Hw; [exact Hw|].
    rewrite run_cons. apply IH, accounted_step, Hw. }
  apply H. reflexivity.
Qed.

Lemma session_step w ev :
  recursiveSyncRunning (flags w) = true ->
  keepsSession ev = true ->
  recursiveSyncRunning (flags (step w ev)) = true
  /\ serviceOrder (step w ev) = serviceOrder w.
Proof.
  intros Hflag Hev. destruct ev as [o|h|h r| |]; simpl.
  - split; [exact Hflag | reflexivity].
  - unfold resumeRecursive.
    destruct (take h (entering (loop w))) as [[e rest]|];
      [|split; [exact Hflag | reflexivity]].
    unfold flags in *. simpl. rewrite Hflag. simpl.
    split; [exact Hflag | reflexivity].
  - unfold settleDownload.
    destruct (take h (inflight (loop w))) as [[e rest]|];
      [|split; [exact Hflag | reflexivity]].
    destruct r as [summary|error|]; simpl;
      try (split; [exact Hflag | reflexivity]).
    unfold serveNext. simpl.
    destruct (pop (recursiveSyncQueue (service w))) as [[sync q]|]; simpl;
      (split; [exact Hflag | reflexivity]).
  - split; reflexivity.
  - discriminate.
Qed.

(** X16. While [recursiveSyncRunning] is set no subtree download is ever
    started: whatever requests arrive and whatever downloads complete, as
    long as no session end clears the flag, the flag stays set and the list
    of started downloads stays as it was. *)
Theorem nothing_starts_during_session :
  forall evs w,
    recursiveSyncRunning (flags w) = true ->
    forallb keepsSession evs = true ->
    recursiveSyncRunning (flags (run w evs)) = true
    /\ serviceOrder (run w evs) = serviceOrder w.
Proof.
  induction evs as [|ev evs IH]; intros w Hflag Hevs; [split; [exact Hflag|reflexivity]|].
  simpl in Hevs. apply andb_true_iff in Hevs. destruct Hevs as [Hev Hevs].
  rewrite run_cons.
  destruct (session_step w ev Hflag Hev) as [Hflag' Hsame].
  destruct (IH (step w ev) Hflag' Hevs) as [Hf Hs].
  split; [exact Hf | rewrite Hs; exact Hsame].
Qed.

Lemma nothing_starts_during_session_witness :
  let evs := [Call nodeB; Resume 1%nat;
              Settle 0%nat (Resolved (noFiles nodeA)); Resume 1%nat;
              Call nodeC; Resume 2%nat] in
  recursiveSyncRunning (flags sessionOverA) = true
  /\ forallb keepsSession evs = true
  /\ serviceOrder (run sessionOverA evs) = [nodeA]
  /\ pendingObjects (run sessionOverA evs) = [nodeB; nodeC].
Proof.
  split; [reflexivity|]. split; [reflexivity|]. split; [|reflexivity].
  exact (proj2 (nothing_starts_during_session
                  [Call nodeB; Resume 1%nat;
                   Settle 0%nat (Resolved (noFiles nodeA)); Resume 1%nat;
                   Call nodeC; Resume 2%nat]
                  sessionOverA eq_refl eq_refl)).
Defined.

(** The chain of [serve_last_first] settles the promise of every entry
    with the summary of the object of that entry. *)
Lemma serve_settles summary q : forall w a,
  recursiveSyncRunning (flags w) = false ->
  entering (loop w) = [] ->
  inflight (loop w) = [a] ->
  recursiveSyncQueue (service w) = q ->
  settled (loop (run w (Settle (handle a) (Resolved (summary (syncObject a)))
                          :: serve summary (rev q))))
  = settled (loop w) ++ ownSummary summary a :: map (ownSummary summary) (rev q).
Proof.
  induction q as [|e q IH] using rev_ind; intros w a Hflag Hent Hin Hq.
  - simpl. unfold settleDownload. rewrite Hin, take_single.
    unfold serveNext. simpl. rewrite Hq. reflexivity.
  - rewrite rev_app_distr. simpl rev. simpl app.
    unfold serve. simpl flat_map. fold (serve summary (rev q)).
    rewrite run_cons, run_cons.
    set (w1 := step (step w (Settle (handle a) (Resolved (summary (syncObject a)))))
                 (Resume (handle e))).
    assert (H1 : recursiveSyncRunning (flags w1) = false
                 /\ entering (loop w1) = []
                 /\ inflight (loop w1) = [e]
                 /\ recursiveSyncQueue (service w1) = q
                 /\ settled (loop w1) = settled (loop w) ++ [ownSummary summary a]).
    { subst w1. simpl. unfold settleDownload. rewrite Hin, take_single.
      unfold serveNext. simpl. rewrite Hq, pop_snoc.
      unfold resumeRecursive, enterRecursive. simpl. rewrite Hent. simpl.
      rewrite Nat.eqb_refl. unfold flags in *. simpl. rewrite Hflag. simpl.
      destruct e as [o h]. repeat split. assumption. }
    destruct H1 as (Hflag1 & Hent1 & Hin1 & Hq1 & Hs1).
    rewrite (IH w1 e Hflag1 Hent1 Hin1 Hq1), Hs1, <- app_assoc. reflexivity.
Qed.

(** X17. Every request that is served from the stack has its own promise
    settled with the summary of its own subtree, not with that of the
    request whose completion triggered it: when the flag is clear and one
    download runs, serving the stack settles, in order, the promise of the
    running request and then the promises of the stacked requests from the
    last to the first, each with the summary of its own object. *)
Theorem served_requests_get_their_own_summary :
  forall summary w a,
    recursiveSyncRunning (flags w) = false ->
    entering (loop w) = [] ->
    inflight (loop w) = [a] ->
    let q := recursiveSyncQueue (service w) in
    let w' := run w (Settle (handle a) (Resolved (summary (syncObject a)))
                       :: serve summary (rev q)) in
    settled (loop w') =
      settled (loop w) ++ ownSummary summary a :: map (ownSummary summary) (rev q)
    /\ serviceOrder w' = serviceOrder w ++ map syncObject (rev q)
    /\ pendingObjects w' = [].
Proof.
  intros summary w a Hflag Hent Hin q w'. split.
  - exact (serve_settles summary q w a Hflag Hent Hin eq_refl).
  - destruct (serve_last_first summary q w a Hflag Hent Hin eq_refl)
      as (Hs & Hq & _).
    unfold serviceOrder, pendingObjects. fold w' in Hs, Hq.
    rewrite Hs, Hq. split; reflexivity.
Qed.

Lemma served_requests_get_their_own_summary_witness :
  let a := {| syncObject := nodeA; handle := 0%nat |} in
  let summary := fun o => partitionFiles sampleSettings 0 allDownloadsSucceed [o] in
  let w' := run waitingBehindA
              (Settle 0%nat (Resolved (summary nodeA))
               :: serve summary (rev (recursiveSyncQueue (service waitingBehindA)))) in
  recursiveSyncRunning (flags waitingBehindA) = false
  /\ entering (loop waitingBehindA) = []
  /\ inflight (loop waitingBehindA) = [a]
  /\ settled (loop w') =
       [(0%nat, Resolved (summary nodeA)); (1%nat, Resolved (summary nodeB))].
Proof.
  split; [reflexivity|]. split; [reflexivity|]. split; [reflexivity|].
  exact (proj1 (served_requests_get_their_own_summary
                  (fun o => partitionFiles sampleSettings 0 allDownloadsSucceed [o])
                  waitingBehindA {| syncObject := nodeA; handle := 0%nat |}
                  eq_refl eq_refl eq_refl)).
Defined.

(** ** More on the last-sync label *)

(** X18. Inside one month of one year the label is the translation of
    "today" for the same day of the month and the translation of
    "yesterday" for the day before (when these translations are not empty),
    and the literal date for every other day of that month. *)
Theorem lastSyncLabel_same_month :
  forall translate now lastSync,
    getMonth now = getMonth lastSync ->
    getFullYear now = getFullYear lastSync ->
    (getDate now = getDate lastSync -> translate "today" <> EmptyString ->
       lastSyncLabel translate now lastSync = translate "today")
    /\ (getDate now - 1 = getDate lastSync ->
        translate "yesterday" <> EmptyString ->
        lastSyncLabel translate now lastSync = translate "yesterday")
    /\ (getDate now <> getDate lastSync ->
        getDate now - 1 <> getDate lastSync ->
        lastSyncLabel translate now lastSync =
          (Js.toString (getDate lastSync) ++ "."
           ++ Js.toString (getMonth lastSync + 1) ++ "."
           ++ Js.toString (getFullYear lastSync))%string).
Proof.
  intros translate now lastSync Hm Hy. split; [|split].
  - intros Hd Ht. apply lastSyncLabel_today; assumption.
  - intros Hd Ht. apply lastSyncLabel_yesterday; assumption.
  - intros Hd Hd'. unfold lastSyncLabel. rewrite Hm, Hy, !Z.eqb_refl. simpl.
    destruct (Z.eqb_spec (getDate now) (getDate lastSync)); [contradiction|].
    destruct (Z.eqb_spec (getDate now - 1) (getDate lastSync)); [contradiction|].
    reflexivity.
Qed.

Lemma lastSyncLabel_same_month_witness :
  getMonth (day 2024 5 10) = getMonth (day 2024 5 9)
  /\ getFullYear (day 2024 5 10) = getFullYear (day 2024 5 9)
  /\ lastSyncLabel (fun key => key) (day 2024 5 10) (day 2024 5 9) = "yesterday"
  /\ lastSyncLabel (fun key => key) (day 2024 5 10) (day 2024 5 3) = "3.5.2024".
Proof.
  split; [reflexivity|]. split; [reflexivity|]. split.
  - apply (proj1 (proj2 (lastSyncLabel_same_month (fun key => key)
                           (day 2024 5 10) (day 2024 5 9) eq_refl eq_refl)));
      [reflexivity | discriminate].
  - apply (proj2 (proj2 (lastSyncLabel_same_month (fun key => key)
                           (day 2024 5 10) (day 2024 5 3) eq_refl eq_refl)));
      discriminate.
Defined.

(** ** More on the offline queue *)

(** X19. While a drain is running, enqueueing appends the objects to the
    pending queue and does nothing else: the call resolves, the cursor, the
    flags and the suspended recursive syncs are as they were, and no
    download is started. *)
Theorem addObjectsToSyncQueue_while_draining :
  forall env w u o iliasObjects,
    currentUser env = Resolved u ->
    loadingOfflineContent (flags w) = true ->
    nth_error (syncOfflineQueue (service w)) (syncOfflineQueueCnt (service w))
      = Some o ->
    let w' := snd (addObjectsToSyncQueue env iliasObjects w) in
    fst (addObjectsToSyncQueue env iliasObjects w) = Resolved tt
    /\ syncOfflineQueue (service w') = syncOfflineQueue (service w) ++ iliasObjects
    /\ syncOfflineQueueCnt (service w') = syncOfflineQueueCnt (service w)
    /\ flags w' = flags w
    /\ loop w' = loop w
    /\ launched (outside w') = launched (outside w).
Proof.
  intros env w u o iliasObjects Hu Hl Hn.
  assert (Hn' : nth_error (syncOfflineQueue (service w) ++ iliasObjects)
                  (syncOfflineQueueCnt (service w)) = Some o).
  { rewrite nth_error_app1; [exact Hn|]. apply nth_error_Some. congruence. }
  unfold addObjectsToSyncQueue, loadCurrentUser, bind, settle, effect,
    updateOfflineSyncStatusMessage.
  rewrite Hu. simpl. rewrite Hn'. simpl.
  unfold flags in *. simpl. rewrite Hl. simpl. repeat split.
Qed.

Lemma addObjectsToSyncQueue_while_draining_witness :
  let env := sampleEnv (day 2024 5 10) in
  let w := drainingWorld nodeA in
  currentUser env = Resolved {| id := 7 |}
  /\ loadingOfflineContent (flags w) = true
  /\ nth_error (syncOfflineQueue (service w)) (syncOfflineQueueCnt (service w))
     = Some nodeA
  /\ fst (addObjectsToSyncQueue env [nodeB; nodeC] w) = Resolved tt
  /\ syncOfflineQueue (service (snd (addObjectsToSyncQueue env [nodeB; nodeC] w)))
     = [nodeA; nodeB; nodeC].
Proof.
  split; [reflexivity|]. split; [reflexivity|]. split; [reflexivity|].
  destruct (addObjectsToSyncQueue_while_draining (sampleEnv (day 2024 5 10))
              (drainingWorld nodeA) {| id := 7 |} nodeA [nodeB; nodeC]
              eq_refl eq_refl eq_refl) as (Hr & Hq & _).
  split; assumption.
Defined.

(** X20. An object that is no favorite any more when its turn comes is
    skipped: the turn resolves and moves the cursor by one, and neither a
    subtree download nor a file download is started, nor is the favorite
    state of any object written. *)
Theorem processNext_skips_unmarked :
  forall env w o,
    nth_error (syncOfflineQueue (service w)) (syncOfflineQueueCnt (service w))
      = Some o ->
    favoriteOf w o = 0 ->
    let w' := snd (processNext env w) in
    fst (processNext env w) = Resolved tt
    /\ syncOfflineQueue (service w') = syncOfflineQueue (service w)
    /\ syncOfflineQueueCnt (service w') = S (syncOfflineQueueCnt (service w))
    /\ loop w' = loop w
    /\ launched (outside w') = launched (outside w)
    /\ favorites (outside w') = favorites (outside w)
    /\ footerJob (outside w') = None.
Proof.
  intros env w o Hn Hfav.
  unfold processNext, bind, effect, updateOfflineSyncStatusMessage, ret.
  simpl. rewrite Hn. simpl. rewrite Hn. simpl.
  unfold favoriteOf in *. simpl. rewrite Hfav. simpl. repeat split.
Qed.

Lemma processNext_skips_unmarked_witness :
  let o := sampleFile 4 "10" in
  let w := drainingWorld o in
  nth_error (syncOfflineQueue (service w)) (syncOfflineQueueCnt (service w))
    = Some o
  /\ favoriteOf w o = 0
  /\ fst (processNext (sampleEnv (day 2024 5 10)) w) = Resolved tt
  /\ serviceOrder (snd (processNext (sampleEnv (day 2024 5 10)) w)) = [].
Proof.
  split; [reflexivity|]. split; [reflexivity|].
  destruct (processNext_skips_unmarked (sampleEnv (day 2024 5 10))
              (drainingWorld (sampleFile 4 "10")) (sampleFile 4 "10")
              eq_refl eq_refl) as (Hr & _ & _ & Hl & _).
  split; [exact Hr|]. unfold serviceOrder. rewrite Hl. reflexivity.
Defined.

(** The recursive sync of the drain on an idle coordinator whose flag is
    clear: the download is started at once. *)
Lemma loadOfflineObjectRecursive_idle env o w :
  recursiveSyncRunning (flags w) = false ->
  entering (loop w) = [] ->
  inflight (loop w) = [] ->
  let h := fresh (loop w) in
  let w1 := request o w in
  loadOfflineObjectRecursive env o w =
    (fst (downloadContainerContent env o w1),
     settleDownload h (fst (downloadContainerContent env o w1))
       (snd (downloadContainerContent env o w1)))
  /\ inflight (loop w1) = [{| syncObject := o; handle := h |}]
  /\ entering (loop w1) = []
  /\ serviceOrder w1 = serviceOrder w ++ [o]
  /\ service w1 = service w
  /\ outside w1 = writeFavorite (objId o) 2 (outside w).
Proof.
  intros Hflag Hent Hin. unfold loadOfflineObjectRecursive. rewrite Hflag.
  split.
  - destruct (downloadContainerContent env o (request o w)); reflexivity.
  - unfold request, callRecursive, enterRecursive, resumeRecursive.
    simpl. rewrite Hent. simpl. rewrite Nat.eqb_refl.
    unfold flags in *. simpl. rewrite Hflag. simpl. rewrite Hin.
    repeat split.
Qed.

(** The download of a container touches nothing but the list of started
    file downloads. *)
Lemma downloadContainerContent_frame env container w :
  let w' := snd (downloadContainerContent env container w) in
  service w' = service w
  /\ loop w' = loop w
  /\ favorites (outside w') = favorites (outside w)
  /\ footerJob (outside w') = footerJob (outside w)
  /\ synchronization (outside w') = synchronization (outside w)
  /\ published (outside w') = published (outside w).
Proof.
  rewrite downloadContainerContent_unfold.
  destruct (getObjectData env container true) as [objs|e|];
    try (repeat split; fail).
  unfold checkForFileDownloads.
  destruct (user (service w)); [|repeat split].
  destruct (userSettings env) as [settings|e|]; try (repeat split; fail).
  destruct (totalDiskSpace env) as [space|e|]; try (repeat split; fail).
  set (results := partitionFiles settings space (download env) (objs ++ [container])).
  set (w1 := onOutside _ w).
  destruct (awaitFileDownloads_tolerant results w1) as (_ & Hw & _).
  destruct (awaitFileDownloads results w1) as [[a|e|] w2]; simpl in Hw; subst w2;
    try (repeat split; fail).
  unfold downloadLearnplaces, bind, settle, ret.
  destruct (promiseAll _) as [l|e|]; repeat split.
Qed.

Lemma promiseAll_resolved {A} (ps : list (Outcome A)) :
  Forall (fun p => exists a, p = Resolved a) ps ->
  promiseAll ps = Resolved (resolvedValues ps).
Proof.
  intros H. unfold promiseAll.
  assert (Hr : find isRejected ps = None).
  { induction H as [|p ps (a & ->) _ IH]; simpl; [reflexivity | exact IH]. }
  assert (Hp : existsb isPending ps = false).
  { apply existsb_isPending_settled.
    eapply Forall_impl; [|exact H]. intros p (a & ->). discriminate. }
  rewrite Hr, Hp. reflexivity.
Qed.

Section Drain.

Variable env : Env.
Variable settings : Settings.
Variable space : Z.
Hypothesis listing_answers :
  forall o, exists objs, getObjectData env o true = Resolved objs.
Hypothesis settings_answer : userSettings env = Resolved settings.
Hypothesis space_answers : totalDiskSpace env = Resolved space.
Hypothesis downloads_settle : forall o, download env o <> Pending.
Hypothesis learnplaces_load : forall i, learnplaceLoad env i = Resolved tt.
Hypothesis made_available :
  forall o, setOfflineAvailableRecursive env o = Resolved tt.
Hypothesis favorites_kept : forall o, userUnmarks env o = false.

Lemma downloadContainerContent_resolves container w u :
  user (service w) = Some u ->
  exists summary, fst (downloadContainerContent env container w) = Resolved summary.
Proof.
  intros Hu. rewrite downloadContainerContent_unfold.
  destruct (listing_answers container) as (objs & ->).
  unfold checkForFileDownloads. rewrite Hu, settings_answer, space_answers.
  set (results := partitionFiles settings space (download env) (objs ++ [container])).
  set (w1 := onOutside _ w).
  rewrite (awaitFileDownloads_settled results w1
             (fileDownloads_settled settings space (download env) _ downloads_settle)).
  unfold downloadLearnplaces, bind, settle, ret.
  rewrite promiseAll_resolved.
  - exists results. reflexivity.
  - apply Forall_forall. intros p Hin. apply in_map_iff in Hin.
    destruct Hin as (it & <- & _). exists tt. apply learnplaces_load.
Qed.

(** One turn of the drain on a favorite. *)
Lemma processNext_favorite w u o :
  user (service w) = Some u ->
  idle w ->
  nth_error (syncOfflineQueue (service w)) (syncOfflineQueueCnt (service w))
    = Some o ->
  favoriteOf w o <> 0 ->
  let w' := snd (processNext env w) in
  fst (processNext env w) = Resolved tt
  /\ user (service w') = Some u
  /\ idle w'
  /\ syncOfflineQueue (service w') = syncOfflineQueue (service w)
  /\ syncOfflineQueueCnt (service w') = S (syncOfflineQueueCnt (service w))
  /\ serviceOrder w' = serviceOrder w ++ [o]
  /\ favorites (outside w') =
       (objId o, 1) :: (objId o, 2) :: (objId o, 2) :: favorites (outside w).
Proof.
  intros Hu (Hflag & Hent & Hin & Hq) Hn Hfav.
  destruct (processNext env w) as [r w'] eqn:E. simpl.
  unfold processNext in E. unfold bind at 1 in E. unfold effect at 1 in E.
  set (w0 := onService (withState (setLoadingOfflineContent true)) w) in E.
  unfold bind at 1 in E. unfold updateOfflineSyncStatusMessage in E.
  change (syncOfflineQueue (service w0)) with (syncOfflineQueue (service w)) in E.
  change (syncOfflineQueueCnt (service w0)) with (syncOfflineQueueCnt (service w)) in E.
  rewrite Hn in E.
  set (w1 := onOutside (setFooterJob _) w0) in E.
  unfold bind at 1 in E.
  change (syncOfflineQueue (service w1)) with (syncOfflineQueue (service w)) in E.
  change (syncOfflineQueueCnt (service w1)) with (syncOfflineQueueCnt (service w)) in E.
  rewrite Hn in E. unfold bind at 1 in E.
  assert (Hfav1 : (favoriteOf w1 o =? 0) = false).
  { apply Z.eqb_neq. exact Hfav. }
  rewrite Hfav1 in E.
  unfold syncFavorite in E. unfold bind at 1 in E.
  unfold setIsFavorite at 1 in E. unfold effect at 1 in E.
  set (w2 := onOutside (writeFavorite (objId o) 2) w1) in E.
  unfold bind at 1 in E.
  destruct (loadOfflineObjectRecursive_idle env o w2 Hflag Hent Hin)
    as (Hload & Hin3 & Hent3 & Hso3 & Hsv3 & Hout3).
  rewrite Hload in E. clear Hload.
  set (w3 := request o w2) in *.
  assert (Hu3 : user (service w3) = Some u) by (rewrite Hsv3; exact Hu).
  destruct (downloadContainerContent_resolves o w3 u Hu3) as (summary & Hsum).
  destruct (downloadContainerContent_frame env o w3) as (Fs & Fl & Ff & _).
  destruct (downloadContainerContent env o w3) as [r4 w4].
  simpl in Hsum, Fs, Fl, Ff. subst r4. simpl fst in E. simpl snd in E.
  unfold settleDownload in E. rewrite Fl, Hin3 in E.
  change (fresh (loop w2)) with
    (handle {| syncObject := o; handle := fresh (loop w2) |}) in E.
  rewrite take_single in E. unfold serveNext in E. simpl in E.
  rewrite Fs, Hsv3 in E. simpl in E. rewrite Hq in E. simpl in E.
  unfold bind at 1 in E. unfold settle at 1 in E. rewrite made_available in E.
  unfold bind at 1 in E. rewrite favorites_kept in E. unfold ret at 1 in E.
  unfold bind at 1 in E.
  unfold favoriteOf, removeFromFavorites, setIsFavorite, effect in E. simpl in E.
  rewrite Ff in E.
  assert (Hfavs : favorites (outside w3)
                  = (objId o, 2) :: (objId o, 2) :: favorites (outside w))
    by (rewrite Hout3; reflexivity).
  rewrite Hfavs in E. simpl in E. rewrite Z.eqb_refl in E. simpl in E.
  unfold bind in E. simpl in E. inversion E. subst r w'. clear E.
  unfold idle, flags, serviceOrder. simpl. rewrite Fs, Fl, Hsv3, Ff, Hfavs. simpl.
  rewrite Hent3. unfold serviceOrder in Hso3. rewrite Hso3. simpl.
  repeat split; assumption.
Qed.

Lemma skipn_cons {A} (l : list A) : forall n x rest,
  skipn n l = x :: rest ->
  nth_error l n = Some x /\ skipn (S n) l = rest /\ (n < List.length l)%nat.
Proof.
  induction l as [|y l IH]; intros n x rest H.
  - destruct n; discriminate.
  - destruct n as [|n]; simpl in H.
    + inversion H. subst. repeat split. simpl. lia.
    + destruct (IH n x rest H) as (Hn & Hs & Hl).
      repeat split; try assumption. simpl. lia.
Qed.

Lemma favoriteOf_after_turn w w' o x :
  favorites (outside w') =
    (objId o, 1) :: (objId o, 2) :: (objId o, 2) :: favorites (outside w) ->
  favoriteOf w' x = if objId o =? objId x then 1 else favoriteOf w x.
Proof.
  intros H. unfold favoriteOf. rewrite H. simpl.
  destruct (objId o =? objId x); reflexivity.
Qed.

Lemma drain_in_order u rest : forall w n,
  user (service w) = Some u ->
  idle w ->
  (syncOfflineQueueCnt (service w) <= List.length (syncOfflineQueue (service w)))%nat ->
  skipn (syncOfflineQueueCnt (service w)) (syncOfflineQueue (service w)) = rest ->
  Forall (fun o => favoriteOf w o <> 0) rest ->
  (List.length rest < n)%nat ->
  let w' := snd (drain env n w) in
  fst (drain env n w) = Resolved tt
  /\ serviceOrder w' = serviceOrder w ++ rest
  /\ Forall (fun o => favoriteOf w' o = 1) rest
  /\ (forall x, favoriteOf w x = 1 -> favoriteOf w' x = 1).
Proof.
  induction rest as [|o rest IH]; intros w n Hu Hidle Hle Hskip Hfav Hn.
  - assert (Hdone : List.length (syncOfflineQueue (service w))
                    = syncOfflineQueueCnt (service w)).
    { apply (f_equal (@List.length _)) in Hskip. rewrite length_skipn in Hskip.
      simpl in Hskip. lia. }
    destruct n as [|n]; simpl; rewrite Hdone, Nat.eqb_refl; simpl;
      rewrite app_nil_r; repeat split; try constructor; intros x Hx; exact Hx.
  - destruct (skipn_cons _ _ _ _ Hskip) as (Hnth & Hskip' & Hlt).
    destruct n as [|n]; [simpl in Hn; lia|].
    simpl drain.
    assert (Hne : Nat.eqb (List.length (syncOfflineQueue (service w)))
                    (syncOfflineQueueCnt (service w)) = false)
      by (apply Nat.eqb_neq; lia).
    rewrite Hne. unfold bind.
    pose proof (Forall_inv Hfav) as Ho. pose proof (Forall_inv_tail Hfav) as Hrest.
    simpl in Ho.
    destruct (processNext_favorite w u o Hu Hidle Hnth Ho)
      as (Hr & Hu1 & Hidle1 & Hq1 & Hc1 & Hs1 & Hf1).
    destruct (processNext env w) as [r w1]. simpl in Hr, Hu1, Hidle1, Hq1, Hc1, Hs1, Hf1.
    subst r.
    assert (Hfav1 : Forall (fun x => favoriteOf w1 x <> 0) rest).
    { apply Forall_forall. intros x Hx.
      rewrite (favoriteOf_after_turn w w1 o x Hf1).
      destruct (objId o =? objId x); [discriminate|].
      exact (proj1 (Forall_forall _ _) Hrest x Hx). }
    assert (Hle1 : (syncOfflineQueueCnt (service w1)
                    <= List.length (syncOfflineQueue (service w1)))%nat)
      by (rewrite Hq1, Hc1; lia).
    assert (Hskip1 : skipn (syncOfflineQueueCnt (service w1))
                       (syncOfflineQueue (service w1)) = rest)
      by (rewrite Hq1, Hc1; exact Hskip').
    assert (Hn1 : (List.length rest < n)%nat) by (simpl in Hn; lia).
    destruct (IH w1 n Hu1 Hidle1 Hle1 Hskip1 Hfav1 Hn1) as (Hr2 & Hs2 & Hf2 & Hk2).
    split; [exact Hr2|]. split; [rewrite Hs2, Hs1, <- app_assoc; reflexivity|].
    split.
    + constructor; [|exact Hf2]. apply Hk2.
      rewrite (favoriteOf_after_turn w w1 o o Hf1), Z.eqb_refl. reflexivity.
    + intros x Hx. apply Hk2.
      rewrite (favoriteOf_after_turn w w1 o x Hf1).
      destruct (objId o =? objId x); [reflexivity | exact Hx].
Qed.

(** X21. On an idle coordinator, with collaborators that all answer and
    no favorite removed meanwhile, the drain visits the pending favorites
    from the cursor to the end exactly once each and in order: it resolves,
    the subtree downloads started are the pending objects in queue order,
    each of them ends as a stable favorite, the pending list is emptied, the
    cursor reset and the flag of the drain cleared. *)
Theorem processOfflineSyncQueue_in_order :
  forall w u,
    user (service w) = Some u ->
    idle w ->
    (syncOfflineQueueCnt (service w) <= List.length (syncOfflineQueue (service w)))%nat ->
    let pending :=
      skipn (syncOfflineQueueCnt (service w)) (syncOfflineQueue (service w)) in
    Forall (fun o => favoriteOf w o <> 0) pending ->
    let w' := snd (processOfflineSyncQueue env w) in
    fst (processOfflineSyncQueue env w) = Resolved tt
    /\ serviceOrder w' = serviceOrder w ++ pending
    /\ Forall (fun o => favoriteOf w' o = 1) pending
    /\ syncOfflineQueue (service w') = []
    /\ syncOfflineQueueCnt (service w') = 0%nat
    /\ loadingOfflineContent (flags w') = false.
Proof.
  intros w u Hu Hidle Hle pending Hfav w'. subst w'.
  unfold processOfflineSyncQueue.
  set (n := S (List.length (syncOfflineQueue (service w))
               - syncOfflineQueueCnt (service w))).
  assert (Hn : (List.length pending < n)%nat).
  { unfold pending, n. rewrite length_skipn. lia. }
  destruct (drain_in_order u pending w n Hu Hidle Hle eq_refl Hfav Hn)
    as (Hr & Hs & Hf & _).
  destruct (drain env n w) as [r w'] eqn:E. simpl in Hr, Hs, Hf. subst r.
  destruct (drain_resolved env n w w' E) as (Hq & Hc & Hl).
  simpl. repeat split; assumption.
Qed.

End Drain.

Lemma processOfflineSyncQueue_in_order_witness :
  let env := sampleEnv (day 2024 5 10) in
  let w' := snd (processOfflineSyncQueue env twoFavorites) in
  user (service twoFavorites) = Some {| id := 7 |}
  /\ idle twoFavorites
  /\ Forall (fun o => favoriteOf twoFavorites o <> 0) [nodeA; nodeB]
  /\ fst (processOfflineSyncQueue env twoFavorites) = Resolved tt
  /\ serviceOrder w' = [nodeA; nodeB]
  /\ syncOfflineQueue (service w') = [].
Proof.
  assert (Hidle : idle twoFavorites) by (repeat split).
  assert (Hfav : Forall (fun o => favoriteOf twoFavorites o <> 0) [nodeA; nodeB])
    by (repeat constructor; discriminate).
  split; [reflexivity|]. split; [exact Hidle|]. split; [exact Hfav|].
  destruct (processOfflineSyncQueue_in_order (sampleEnv (day 2024 5 10))
              sampleSettings 0
              (fun o => ex_intro _ [] eq_refl) eq_refl eq_refl
              (fun o => ltac:(discriminate)) (fun i => eq_refl)
              (fun o => eq_refl) (fun o => eq_refl)
              twoFavorites {| id := 7 |} eq_refl Hidle (Nat.le_0_l _) Hfav)
    as (Hr & Hs & _ & Hq & _).
  repeat split; assumption.
Defined.

(** One turn of the drain on a favorite whose listing fails. *)
Lemma processNext_listing_fails env w o e :
  idle w ->
  nth_error (syncOfflineQueue (service w)) (syncOfflineQueueCnt (service w))
    = Some o ->
  favoriteOf w o <> 0 ->
  getObjectData env o true = Rejected e ->
  let w' := snd (processNext env w) in
  fst (processNext env w) = Rejected e
  /\ loadingOfflineContent (flags w') = true
  /\ syncOfflineQueue (service w') = syncOfflineQueue (service w)
  /\ syncOfflineQueueCnt (service w') = syncOfflineQueueCnt (service w)
  /\ favoriteOf w' o = 2
  /\ footerJob (outside w') <> None.
Proof.
  intros (Hflag & Hent & Hin & Hq) Hn Hfav Hlist.
  destruct (processNext env w) as [r w'] eqn:E. simpl.
  unfold processNext in E. unfold bind at 1 in E. unfold effect at 1 in E.
  set (w0 := onService (withState (setLoadingOfflineContent true)) w) in E.
  unfold bind at 1 in E. unfold updateOfflineSyncStatusMessage in E.
  change (syncOfflineQueue (service w0)) with (syncOfflineQueue (service w)) in E.
  change (syncOfflineQueueCnt (service w0)) with (syncOfflineQueueCnt (service w)) in E.
  rewrite Hn in E.
  set (w1 := onOutside (setFooterJob _) w0) in E.
  unfold bind at 1 in E.
  change (syncOfflineQueue (service w1)) with (syncOfflineQueue (service w)) in E.
  change (syncOfflineQueueCnt (service w1)) with (syncOfflineQueueCnt (service w)) in E.
  rewrite Hn in E. unfold bind at 1 in E.
  assert (Hfav1 : (favoriteOf w1 o =? 0) = false).
  { apply Z.eqb_neq. exact Hfav. }
  rewrite Hfav1 in E.
  unfold syncFavorite in E. unfold bind at 1 in E.
  unfold setIsFavorite at 1 in E. unfold effect at 1 in E.
  set (w2 := onOutside (writeFavorite (objId o) 2) w1) in E.
  unfold bind at 1 in E.
  destruct (loadOfflineObjectRecursive_idle env o w2 Hflag Hent Hin)
    as (Hload & Hin3 & Hent3 & Hso3 & Hsv3 & Hout3).
  rewrite Hload in E. clear Hload.
  set (w3 := request o w2) in *.
  rewrite downloadContainerContent_unfold, Hlist in E. simpl in E.
  unfold settleDownload in E. rewrite Hin3 in E.
  simpl in E. rewrite Nat.eqb_refl in E.
  inversion E. subst r w'. clear E.
  unfold favoriteOf, flags. simpl. rewrite Hsv3, Hout3. simpl.
  rewrite Z.eqb_refl.
  repeat split; discriminate.
Qed.

(** X22. The drain stops at the first favorite whose listing fails: the
    promise of the drain is rejected with the error of the transport, and
    nothing is cleaned up; the flag of the drain stays set, the pending list
    and the cursor stay where they were, the object is left marked as being
    synchronized and the footer keeps its progress message. *)
Theorem processOfflineSyncQueue_stops_at_failure :
  forall env w o e,
    idle w ->
    nth_error (syncOfflineQueue (service w)) (syncOfflineQueueCnt (service w))
      = Some o ->
    favoriteOf w o <> 0 ->
    getObjectData env o true = Rejected e ->
    let w' := snd (processOfflineSyncQueue env w) in
    fst (processOfflineSyncQueue env w) = Rejected e
    /\ loadingOfflineContent (flags w') = true
    /\ syncOfflineQueue (service w') = syncOfflineQueue (service w)
    /\ syncOfflineQueueCnt (service w') = syncOfflineQueueCnt (service w)
    /\ favoriteOf w' o = 2
    /\ footerJob (outside w') <> None.
Proof.
  intros env w o e Hidle Hn Hfav Hlist.
  pose proof (processNext_listing_fails env w o e Hidle Hn Hfav Hlist) as H.
  assert (Hlt : (syncOfflineQueueCnt (service w)
                 < List.length (syncOfflineQueue (service w)))%nat).
  { apply nth_error_Some. rewrite Hn. discriminate. }
  unfold processOfflineSyncQueue. simpl drain.
  assert (Hne : Nat.eqb (List.length (syncOfflineQueue (service w)))
                  (syncOfflineQueueCnt (service w)) = false)
    by (apply Nat.eqb_neq; lia).
  rewrite Hne. unfold bind.
  destruct (processNext env w) as [r w1]. simpl in H.
  destruct H as (-> & H). exact (conj eq_refl H).
Qed.

Lemma processOfflineSyncQueue_stops_at_failure_witness :
  let env := offlineEnv (day 2024 5 10) in
  let w' := snd (processOfflineSyncQueue env twoFavorites) in
  idle twoFavorites
  /\ fst (processOfflineSyncQueue env twoFavorites) = Rejected TransportError
  /\ loadingOfflineContent (flags w') = true
  /\ syncOfflineQueue (service w') = [nodeA; nodeB]
  /\ syncOfflineQueueCnt (service w') = 0%nat.
Proof.
  assert (Hidle : idle twoFavorites) by (repeat split).
  split; [exact Hidle|].
  destruct (processOfflineSyncQueue_stops_at_failure (offlineEnv (day 2024 5 10))
              twoFavorites nodeA TransportError Hidle eq_refl
              ltac:(discriminate) eq_refl)
    as (Hr & Hl & Hq & Hc & _).
  repeat split; assumption.
Defined.

(** One turn of the drain on a favorite while a session is open. *)
Lemma processNext_during_session env w o :
  recursiveSyncRunning (flags w) = true ->
  entering (loop w) = [] ->
  nth_error (syncOfflineQueue (service w)) (syncOfflineQueueCnt (service w))
    = Some o ->
  favoriteOf w o <> 0 ->
  let w' := snd (processNext env w) in
  fst (processNext env w) = Pending
  /\ pendingObjects w' = pendingObjects w ++ [o]
  /\ serviceOrder w' = serviceOrder w
  /\ inflight (loop w') = inflight (loop w)
  /\ loadingOfflineContent (flags w') = true
  /\ syncOfflineQueue (service w') = syncOfflineQueue (service w)
  /\ syncOfflineQueueCnt (service w') = syncOfflineQueueCnt (service w)
  /\ favoriteOf w' o = 2.
Proof.
  intros Hflag Hent Hn Hfav.
  destruct (processNext env w) as [r w'] eqn:E. simpl.
  unfold processNext in E. unfold bind at 1 in E. unfold effect at 1 in E.
  set (w0 := onService (withState (setLoadingOfflineContent true)) w) in E.
  unfold bind at 1 in E. unfold updateOfflineSyncStatusMessage in E.
  change (syncOfflineQueue (service w0)) with (syncOfflineQueue (service w)) in E.
  change (syncOfflineQueueCnt (service w0)) with (syncOfflineQueueCnt (service w)) in E.
  rewrite Hn in E.
  set (w1 := onOutside (setFooterJob _) w0) in E.
  unfold bind at 1 in E.
  change (syncOfflineQueue (service w1)) with (syncOfflineQueue (service w)) in E.
  change (syncOfflineQueueCnt (service w1)) with (syncOfflineQueueCnt (service w)) in E.
  rewrite Hn in E. unfold bind at 1 in E.
  assert (Hfav1 : (favoriteOf w1 o =? 0) = false).
  { apply Z.eqb_neq. exact Hfav. }
  rewrite Hfav1 in E.
  unfold syncFavorite in E. unfold bind at 1 in E.
  unfold setIsFavorite at 1 in E. unfold effect at 1 in E.
  set (w2 := onOutside (writeFavorite (objId o) 2) w1) in E.
  unfold bind at 1 in E.
  unfold loadOfflineObjectRecursive in E.
  change (recursiveSyncRunning (flags w2)) with (recursiveSyncRunning (flags w)) in E.
  rewrite Hflag in E.
  inversion E. subst r w'. clear E.
  unfold request, callRecursive, enterRecursive, resumeRecursive.
  simpl. rewrite Hent. simpl. rewrite Nat.eqb_refl.
  unfold flags in *. simpl. rewrite Hflag. simpl.
  unfold pendingObjects, serviceOrder, favoriteOf. simpl.
  rewrite map_app, Z.eqb_refl. simpl.
  repeat split.
Qed.

(** X23. While a session opened by [syncStarted] is not closed, the drain
    hangs at its first favorite: its promise stays pending, the object is
    put on the stack of waiting requests and marked as being synchronized,
    and no subtree download is started. *)
Theorem processOfflineSyncQueue_waits_for_session :
  forall env w o,
    recursiveSyncRunning (flags w) = true ->
    entering (loop w) = [] ->
    nth_error (syncOfflineQueue (service w)) (syncOfflineQueueCnt (service w))
      = Some o ->
    favoriteOf w o <> 0 ->
    let w' := snd (processOfflineSyncQueue env w) in
    fst (processOfflineSyncQueue env w) = Pending
    /\ pendingObjects w' = pendingObjects w ++ [o]
    /\ serviceOrder w' = serviceOrder w
    /\ inflight (loop w') = inflight (loop w)
    /\ loadingOfflineContent (flags w') = true
    /\ syncOfflineQueue (service w') = syncOfflineQueue (service w)
    /\ syncOfflineQueueCnt (service w') = syncOfflineQueueCnt (service w)
    /\ favoriteOf w' o = 2.
Proof.
  intros env w o Hflag Hent Hn Hfav.
  pose proof (processNext_during_session env w o Hflag Hent Hn Hfav) as H.
  assert (Hlt : (syncOfflineQueueCnt (service w)
                 < List.length (syncOfflineQueue (service w)))%nat).
  { apply nth_error_Some. rewrite Hn. discriminate. }
  unfold processOfflineSyncQueue. simpl drain.
  assert (Hne : Nat.eqb (List.length (syncOfflineQueue (service w)))
                  (syncOfflineQueueCnt (service w)) = false)
    by (apply Nat.eqb_neq; lia).
  rewrite Hne. unfold bind.
  destruct (processNext env w) as [r w1]. simpl in H.
  destruct H as (-> & H). exact (conj eq_refl H).
Qed.

Lemma processOfflineSyncQueue_waits_for_session_witness :
  let env := sampleEnv (day 2024 5 10) in
  let w := onService (withState (setRecursiveSyncRunning true)) twoFavorites in
  let w' := snd (processOfflineSyncQueue env w) in
  recursiveSyncRunning (flags w) = true
  /\ fst (processOfflineSyncQueue env w) = Pending
  /\ pendingObjects w' = [nodeA]
  /\ serviceOrder w' = [].
Proof.
  split; [reflexivity|].
  destruct (processOfflineSyncQueue_waits_for_session (sampleEnv (day 2024 5 10))
              (onService (withState (setRecursiveSyncRunning true)) twoFavorites)
              nodeA eq_refl eq_refl eq_refl ltac:(discriminate))
    as (Hr & Hp & Hs & _).
  repeat split; assumption.
Defined.

(** X24. Whereas a file download that fails is put up with, a learnplace
    whose loader fails makes the synchronization of the whole container
    fail: with a listing, settings and disk usage that answer and file
    downloads that settle, the promise is rejected with the error of a
    learnplace of the subtree, after the file downloads were started. *)
Theorem learnplace_failure_fails_container :
  forall env w u container objs settings space lp e,
    user (service w) = Some u ->
    getObjectData env container true = Resolved objs ->
    userSettings env = Resolved settings ->
    totalDiskSpace env = Resolved space ->
    (forall o, download env o <> Pending) ->
    In lp (objs ++ [container]) ->
    isLearnplace env lp = true ->
    learnplaceLoad env (objId lp) = Rejected e ->
    let tree := objs ++ [container] in
    let w' := snd (downloadContainerContent env container w) in
    (exists lp' e',
        fst (downloadContainerContent env container w) = Rejected e'
        /\ In lp' tree /\ isLearnplace env lp' = true
        /\ learnplaceLoad env (objId lp') = Rejected e')
    /\ launched (outside w') =
         launched (outside w)
         ++ scheduled (partitionFiles settings space (download env) tree).
Proof.
  intros env w u container objs settings space lp e Hu Hlist Hset Hspace Hd
         Hin Hlp He tree w'. subst w'.
  rewrite downloadContainerContent_unfold, Hlist.
  unfold checkForFileDownloads. rewrite Hu, Hset, Hspace.
  fold tree.
  set (results := partitionFiles settings space (download env) tree).
  set (w1 := onOutside _ w).
  rewrite (awaitFileDownloads_settled results w1
             (fileDownloads_settled settings space (download env) _ Hd)).
  unfold downloadLearnplaces, bind, settle, ret, promiseAll.
  set (loads := map (fun it => learnplaceLoad env (objId it))
                    (filter (isLearnplace env) tree)).
  destruct (find isRejected loads) as [p|] eqn:Hfind.
  - destruct (find_some _ _ Hfind) as [Hp Hrej].
    destruct p as [a|e'|]; try discriminate.
    split; [|reflexivity].
    apply in_map_iff in Hp. destruct Hp as (lp' & Hload & Hf).
    apply filter_In in Hf. destruct Hf as [Hin' Hlp'].
    exists lp', e'. repeat split; assumption.
  - exfalso.
    assert (Hmem : In (Rejected e) loads).
    { unfold loads. rewrite <- He. apply in_map_iff. exists lp.
      split; [reflexivity|]. apply filter_In. split; assumption. }
    pose proof (find_none _ _ Hfind _ Hmem) as Hno. discriminate.
Qed.

Lemma learnplace_failure_fails_container_witness :
  let w' := snd (downloadContainerContent brokenLearnplaceEnv nodeA twoFavorites) in
  isLearnplace brokenLearnplaceEnv nodeA = true
  /\ (exists lp' e',
        fst (downloadContainerContent brokenLearnplaceEnv nodeA twoFavorites)
          = Rejected e'
        /\ In lp' [nodeA] /\ isLearnplace brokenLearnplaceEnv lp' = true
        /\ learnplaceLoad brokenLearnplaceEnv (objId lp') = Rejected e')
  /\ launched (outside w') = [].
Proof.
  split; [reflexivity|].
  exact (learnplace_failure_fails_container brokenLearnplaceEnv twoFavorites
           {| id := 7 |} nodeA [] sampleSettings 0 nodeA TransportError
           eq_refl eq_refl eq_refl eq_refl (fun o => ltac:(discriminate))
           (or_introl eq_refl) eq_refl eq_refl).
Defined.

(** X25. When the settings of the user or the disk usage cannot be read,
    the synchronization of a container never settles: on an idle
    coordinator with a loaded user and a listing that answers, the promise
    of [loadOfflineObjectRecursive] stays pending, its download stays in
    flight, no file download is started and nothing is reported. *)
Theorem loadOfflineObjectRecursive_hangs_without_settings :
  forall env w u o objs e,
    idle w ->
    user (service w) = Some u ->
    getObjectData env o true = Resolved objs ->
    userSettings env = Rejected e \/ totalDiskSpace env = Rejected e ->
    let w' := snd (loadOfflineObjectRecursive env o w) in
    fst (loadOfflineObjectRecursive env o w) = Pending
    /\ inflight (loop w') = [{| syncObject := o; handle := fresh (loop w) |}]
    /\ launched (outside w') = launched (outside w)
    /\ settled (loop w') = settled (loop w).
Proof.
  intros env w u o objs e (Hflag & Hent & Hin & _) Hu Hlist Hfail.
  destruct (loadOfflineObjectRecursive_idle env o w Hflag Hent Hin)
    as (Hload & Hin3 & Hent3 & Hso3 & Hsv3 & Hout3).
  rewrite Hload. clear Hload.
  assert (Hset3 : settled (loop (request o w)) = settled (loop w)).
  { unfold request, callRecursive, enterRecursive, resumeRecursive.
    simpl. rewrite Hent. simpl. rewrite Nat.eqb_refl.
    unfold flags in *. simpl. rewrite Hflag. reflexivity. }
  set (w3 := request o w) in *.
  assert (Hpending : downloadContainerContent env o w3 = (Pending, w3)).
  { rewrite downloadContainerContent_unfold, Hlist.
    unfold checkForFileDownloads. rewrite Hsv3, Hu.
    destruct Hfail as [-> | ->]; [reflexivity|].
    destruct (userSettings env); reflexivity. }
  rewrite Hpending. simpl.
  unfold settleDownload. rewrite Hin3. simpl. rewrite Nat.eqb_refl.
  rewrite Hin3, Hout3, Hset3. repeat split.
Qed.

Lemma loadOfflineObjectRecursive_hangs_without_settings_witness :
  let w' := snd (loadOfflineObjectRecursive noSettingsEnv nodeA twoFavorites) in
  idle twoFavorites
  /\ userSettings noSettingsEnv = Rejected StorageError
  /\ fst (loadOfflineObjectRecursive noSettingsEnv nodeA twoFavorites) = Pending
  /\ launched (outside w') = [].
Proof.
  assert (Hidle : idle twoFavorites) by (repeat split).
  split; [exact Hidle|]. split; [reflexivity|].
  destruct (loadOfflineObjectRecursive_hangs_without_settings noSettingsEnv
              twoFavorites {| id := 7 |} nodeA [] StorageError Hidle
              eq_refl eq_refl (or_introl eq_refl))
    as (Hr & _ & Hl & _).
  split; assumption.
Defined.

Section NewsSync.

Variable env : Env.
Hypothesis storage_opens : databaseAvailable env = true.
Hypothesis storage_answers : forall n, queryFails env n = false.

(** X26. The news synchronization ends a session that it has not begun,
    and only when both of its synchronizers succeed.  With a storage that
    answers and a current user: if both succeed, the promise resolves, the
    flag of the session is cleared and the user has no unfinished sync left
    in the storage; if one of them fails, the promise is rejected with its
    error and neither the flag nor the storage is touched. *)
Theorem executeNewsSync_ends_session_on_success_only :
  forall u newsSynchronize visitJournalSynchronize w,
    currentUser env = Resolved u ->
    let r := fst (executeNewsSync env newsSynchronize visitJournalSynchronize w) in
    let w' := snd (executeNewsSync env newsSynchronize visitJournalSynchronize w) in
    (newsSynchronize = Resolved tt -> visitJournalSynchronize = Resolved tt ->
       r = Resolved tt
       /\ recursiveSyncRunning (flags w') = false
       /\ unfinished (id u) (synchronization (outside w')) = false)
    /\ (forall e,
          newsSynchronize = Rejected e
          \/ (newsSynchronize = Resolved tt /\ visitJournalSynchronize = Rejected e) ->
          r = Rejected e
          /\ state (service w') = state (service w)
          /\ outside w' = outside w).
Proof.
  intros u news journal w Hcur r w'. subst r w'.
  unfold executeNewsSync, loadCurrentUser, bind, settle, effect, ret.
  rewrite Hcur. cbv beta iota.
  split.
  - intros -> ->. cbv beta iota.
    destruct (syncEnded_answer env storage_opens storage_answers u
                (onService (setUser (Some u)) w) eq_refl)
      as (Hr & Ht & _ & _ & Hs).
    destruct (syncEnded env (onService (setUser (Some u)) w)) as [ended w1].
    simpl in Hr, Ht, Hs. subst ended. simpl.
    split; [reflexivity|]. split.
    + unfold flags. rewrite Hs. reflexivity.
    + rewrite Ht. apply unfinished_closeRow.
  - intros e [-> | [-> ->]]; simpl; repeat split.
Qed.

End NewsSync.

Lemma executeNewsSync_ends_session_on_success_only_witness :
  let env := sampleEnv (day 2024 5 10) in
  let w' := snd (executeNewsSync env (Resolved tt) (Resolved tt) openSession) in
  let w'' := snd (executeNewsSync env (Resolved tt) (Rejected TransportError)
                    openSession) in
  currentUser env = Resolved {| id := 7 |}
  /\ unfinished 7 (synchronization (outside openSession)) = true
  /\ unfinished 7 (synchronization (outside w')) = false
  /\ outside w'' = outside openSession.
Proof.
  split; [reflexivity|]. split; [reflexivity|].
  destruct (executeNewsSync_ends_session_on_success_only
              (sampleEnv (day 2024 5 10)) eq_refl (fun n => eq_refl)
              {| id := 7 |} (Resolved tt) (Resolved tt) openSession eq_refl)
    as (Hok & _).
  destruct (executeNewsSync_ends_session_on_success_only
              (sampleEnv (day 2024 5 10)) eq_refl (fun n => eq_refl)
              {| id := 7 |} (Resolved tt) (Rejected TransportError)
              openSession eq_refl)
    as (_ & Hfail).
  destruct (Hok eq_refl eq_refl) as (_ & _ & Hclosed).
  destruct (Hfail TransportError (or_intror (conj eq_refl eq_refl)))
    as (_ & _ & Hout).
  split; assumption.
Defined.

Section OfflineContent.

Variable env : Env.
Variable settings : Settings.
Variable space : Z.
Hypothesis listing_answers :
  forall o, exists objs, getObjectData env o true = Resolved objs.
Hypothesis settings_answer : userSettings env = Resolved settings.
Hypothesis space_answers : totalDiskSpace env = Resolved space.
Hypothesis downloads_settle : forall o, download env o <> Pending.
Hypothesis learnplaces_load : forall i, learnplaceLoad env i = Resolved tt.
Hypothesis made_available :
  forall o, setOfflineAvailableRecursive env o = Resolved tt.
Hypothesis favorites_kept : forall o, userUnmarks env o = false.

(** X27. [loadAllOfflineContent] synchronizes what is pending and then
    every favorite of the current user, in order: on an idle coordinator
    with no drain running, collaborators that all answer and objects that
    are favorites, the call resolves, the subtree downloads started are the
    objects that were pending followed by the favorites of the user, each
    of them ends as a stable favorite, and the pending list is emptied with
    its cursor reset and the flag of the drain clear. *)
Theorem loadAllOfflineContent_syncs_every_favorite :
  forall u favs w,
    currentUser env = Resolved u ->
    findByUserId env (id u) = Resolved favs ->
    favs <> [] ->
    idle w ->
    loadingOfflineContent (flags w) = false ->
    (syncOfflineQueueCnt (service w) <= List.length (syncOfflineQueue (service w)))%nat ->
    let pending :=
      skipn (syncOfflineQueueCnt (service w)) (syncOfflineQueue (service w)) ++ favs in
    Forall (fun o => favoriteOf w o <> 0) pending ->
    let w' := snd (loadAllOfflineContent env w) in
    fst (loadAllOfflineContent env w) = Resolved tt
    /\ serviceOrder w' = serviceOrder w ++ pending
    /\ Forall (fun o => favoriteOf w' o = 1) pending
    /\ syncOfflineQueue (service w') = []
    /\ syncOfflineQueueCnt (service w') = 0%nat
    /\ loadingOfflineContent (flags w') = false.
Proof.
  intros u favs w Hcur Hfavs Hne (Hflag & Hent & Hin & Hq) Hload Hle pending Hfav w'.
  subst w'.
  destruct (loadAllOfflineContent env w) as [r w'] eqn:E. simpl.
  unfold loadAllOfflineContent, loadCurrentUser in E.
  unfold bind at 1 in E. unfold bind at 1 in E. unfold settle at 1 in E.
  rewrite Hcur in E. unfold effect at 1 in E.
  set (w0 := onService (setUser (Some u)) w) in E.
  unfold bind at 1 in E. unfold thisUserId at 1 in E.
  change (user (service w0)) with (Some u) in E. cbv beta iota in E.
  unfold bind at 1 in E. unfold settle at 1 in E. rewrite Hfavs in E.
  destruct favs as [|f favs]; [congruence|].
  change (Nat.eqb (List.length (f :: favs)) 0) with false in E. cbv iota in E.
  unfold addObjectsToSyncQueue, loadCurrentUser in E.
  unfold bind at 1 in E. unfold bind at 1 in E. unfold settle at 1 in E.
  rewrite Hcur in E. unfold effect at 1 in E.
  unfold bind at 1 in E. unfold effect at 1 in E.
  set (w1 := onService _ (onService (setUser (Some u)) w0)) in E.
  assert (Hskip : skipn (syncOfflineQueueCnt (service w1))
                    (syncOfflineQueue (service w1)) = pending).
  { unfold pending. simpl. rewrite skipn_app.
    replace (syncOfflineQueueCnt (service w)
             - List.length (syncOfflineQueue (service w)))%nat with 0%nat by lia.
    reflexivity. }
  assert (Hlen : (syncOfflineQueueCnt (service w1)
                  < List.length (syncOfflineQueue (service w1)))%nat).
  { simpl. rewrite length_app. simpl. lia. }
  destruct (nth_error (syncOfflineQueue (service w1))
              (syncOfflineQueueCnt (service w1))) as [o|] eqn:Hn;
    [|apply nth_error_None in Hn; lia].
  unfold bind at 1 in E. unfold updateOfflineSyncStatusMessage in E.
  rewrite Hn in E.
  set (w2 := onOutside (setFooterJob _) w1) in E.
  change (loadingOfflineContent (flags w2)) with (loadingOfflineContent (flags w)) in E.
  rewrite Hload in E.
  unfold processOfflineSyncQueue in E.
  set (n := S (List.length (syncOfflineQueue (service w2))
               - syncOfflineQueueCnt (service w2))) in E.
  assert (Hn2 : (List.length pending < n)%nat).
  { rewrite <- Hskip. unfold n. rewrite length_skipn.
    change (service w2) with (service w1). lia. }
  assert (Hidle2 : idle w2) by (repeat split; assumption).
  destruct (drain_in_order env settings space listing_answers settings_answer
              space_answers downloads_settle learnplaces_load made_available
              favorites_kept u pending w2 n eq_refl Hidle2 (Nat.lt_le_incl _ _ Hlen)
              Hskip Hfav Hn2)
    as (Hr & Hs & Hf & _).
  rewrite E in Hr, Hs, Hf. simpl in Hr, Hs, Hf. subst r.
  destruct (drain_resolved env n w2 w' E) as (Hq' & Hc' & Hl').
  repeat split; assumption.
Qed.

End OfflineContent.

Lemma loadAllOfflineContent_syncs_every_favorite_witness :
  let env := withFavorites [nodeA; nodeB] (sampleEnv (day 2024 5 10)) in
  let w' := snd (loadAllOfflineContent env initialWorld) in
  idle initialWorld
  /\ fst (loadAllOfflineContent env initialWorld) = Resolved tt
  /\ serviceOrder w' = [nodeA; nodeB]
  /\ syncOfflineQueue (service w') = [].
Proof.
  assert (Hidle : idle initialWorld) by (repeat split).
  assert (Hfav : Forall (fun o => favoriteOf initialWorld o <> 0) [nodeA; nodeB])
    by (repeat constructor; discriminate).
  split; [exact Hidle|].
  destruct (loadAllOfflineContent_syncs_every_favorite
              (withFavorites [nodeA; nodeB] (sampleEnv (day 2024 5 10)))
              sampleSettings 0
              (fun o => ex_intro _ [] eq_refl) eq_refl eq_refl
              (fun o => ltac:(discriminate)) (fun i => eq_refl)
              (fun o => eq_refl) (fun o => eq_refl)
              {| id := 7 |} [nodeA; nodeB] initialWorld eq_refl eq_refl
              ltac:(discriminate) Hidle eq_refl (Nat.le_0_l _) Hfav)
    as (Hr & Hs & _ & Hq & _).
  repeat split; assumption.
Defined.
